(** * Hostel management backend: model rules and role-scoped views

    A shallow embedding of [backend/accounts] and [backend/hostel]:
    the models of [models.py] as records, the tables of the database as
    finite maps from primary key to row, and the view functions of
    [views.py] as functions from a store and a request to a response
    and a store.

    Conventions.
    - A table is a [gmap Z row]; the key is the row's primary key.
    - A date is a day number, a datetime a number of seconds; money is
      counted in hundredths (the models keep two decimal places).
    - [created_at] / [updated_at] bookkeeping columns are left out.
    - Query-string parameters that the ORM converts to a number or a
      date ([student_id], [date]) are carried already converted;
      the textual ones are carried as the strings the client sent.
    - The order of a queryset ([Meta.ordering]) is not represented: a
      queryset is the finite map of the selected rows.
    - Of the users only the primary keys are kept, which is what the
      foreign keys to them are checked against.
    - An exception that neither the view nor the framework catches is
      the response [ServerError] (where a handler is given as an
      option, it is [None]); what was written before it was raised stays
      written: requests are not wrapped in a transaction. *)

From stdpp Require Import base option list strings gmap fin_maps.

Local Open Scope Z_scope.

(** ** accounts/models.py *)

Module User.

Inductive Role := ADMIN | WARDEN | STUDENT.

#[global] Instance Role_eq_dec : EqDecision Role.
Proof. solve_decision. Defined.

Definition role_value (r : Role) : string :=
  match r with
  | ADMIN => "admin"
  | WARDEN => "warden"
  | STUDENT => "student"
  end.

(** [request.user]: a registered user, or the anonymous user, for
    which [is_authenticated] is false. *)
Record t := {
  id : Z;
  role : Role;
  is_authenticated : bool
}.

Definition is_admin (self : t) : bool := bool_decide (role self = ADMIN).
Definition is_warden (self : t) : bool := bool_decide (role self = WARDEN).
Definition is_student (self : t) : bool := bool_decide (role self = STUDENT).

End User.

(** ** accounts/permissions.py *)

Module permissions.

Inductive Permission :=
| AllowAny
| IsAuthenticated
| IsAdmin
| IsWarden
| IsStudent
| IsAdminOrWarden.

Definition has_permission (p : Permission) (user : User.t) : bool :=
  match p with
  | AllowAny => true
  | IsAuthenticated => User.is_authenticated user
  | IsAdmin => User.is_authenticated user && User.is_admin user
  | IsWarden => User.is_authenticated user && User.is_warden user
  | IsStudent => User.is_authenticated user && User.is_student user
  | IsAdminOrWarden =>
      User.is_authenticated user && (User.is_admin user || User.is_warden user)
  end.

(** [APIView.check_permissions]: every permission of the list returned
    by [get_permissions] has to grant the request. *)
Definition check_permissions (perms : list Permission) (user : User.t) : bool :=
  forallb (λ p, has_permission p user) perms.

End permissions.
Import permissions.

(** ** hostel/models.py: the rows *)

Module Room.

Inductive RoomType := SINGLE | DOUBLE | TRIPLE.
Inductive Status := VACANT | OCCUPIED | MAINTENANCE.

#[global] Instance RoomType_eq_dec : EqDecision RoomType.
Proof. solve_decision. Defined.
#[global] Instance Status_eq_dec : EqDecision Status.
Proof. solve_decision. Defined.

Definition room_type_value (t : RoomType) : string :=
  match t with
  | SINGLE => "single"
  | DOUBLE => "double"
  | TRIPLE => "triple"
  end.

Definition status_value (s : Status) : string :=
  match s with
  | VACANT => "vacant"
  | OCCUPIED => "occupied"
  | MAINTENANCE => "maintenance"
  end.

(** The keys of [dict(Room.STATUS_CHOICES)]. *)
Definition status_of_value (s : string) : option Status :=
  if decide (s = "vacant") then Some VACANT
  else if decide (s = "occupied") then Some OCCUPIED
  else if decide (s = "maintenance") then Some MAINTENANCE
  else None.

Record t := {
  room_no : string;
  room_type : RoomType;
  capacity : Z;
  floor : Z;
  status : Status;
  description : option string
}.

Definition set_status (self : t) (s : Status) : t :=
  {| room_no := room_no self; room_type := room_type self;
     capacity := capacity self; floor := floor self;
     status := s; description := description self |}.

End Room.

Module StudentProfile.

Record t := {
  user : Z;
  room : option Z;
  contact : string;
  emergency_contact : string;
  father_name : string;
  address : string;
  date_of_birth : option Z;
  date_of_joining : Z;
  is_active : bool
}.

Definition set_room (self : t) (r : option Z) : t :=
  {| user := user self; room := r; contact := contact self;
     emergency_contact := emergency_contact self;
     father_name := father_name self; address := address self;
     date_of_birth := date_of_birth self;
     date_of_joining := date_of_joining self;
     is_active := is_active self |}.

(** A model instance in memory: the primary key, the columns, and the
    related [Room] object held on the instance (what [self.room]
    evaluates to): its key and its fields as they were read. *)
Record obj := {
  pk : Z;
  row : t;
  room_obj : option (Z * Room.t)
}.

(** [student.room = room] *)
Definition assign (self : obj) (room_pk : Z) (r : Room.t) : obj :=
  {| pk := pk self;
     row := set_room (row self) (Some room_pk);
     room_obj := Some (room_pk, r) |}.

End StudentProfile.

Module Fee.

Inductive Status := UNPAID | PAID | OVERDUE.

#[global] Instance Status_eq_dec : EqDecision Status.
Proof. solve_decision. Defined.

Definition status_value (s : Status) : string :=
  match s with
  | UNPAID => "unpaid"
  | PAID => "paid"
  | OVERDUE => "overdue"
  end.

Record t := {
  student : Z;
  amount : Z;
  due_date : Z;
  paid_date : option Z;
  status : Status;
  payment_method : option string;
  notes : option string
}.

Definition set_status (self : t) (s : Status) : t :=
  {| student := student self; amount := amount self;
     due_date := due_date self; paid_date := paid_date self;
     status := s; payment_method := payment_method self;
     notes := notes self |}.

Definition set_paid_date (self : t) (d : option Z) : t :=
  {| student := student self; amount := amount self;
     due_date := due_date self; paid_date := d;
     status := status self; payment_method := payment_method self;
     notes := notes self |}.

Definition set_payment_method (self : t) (m : option string) : t :=
  {| student := student self; amount := amount self;
     due_date := due_date self; paid_date := paid_date self;
     status := status self; payment_method := m;
     notes := notes self |}.

End Fee.

Module Attendance.

Inductive Status := PRESENT | ABSENT | LEAVE.

#[global] Instance Status_eq_dec : EqDecision Status.
Proof. solve_decision. Defined.

Definition status_value (s : Status) : string :=
  match s with
  | PRESENT => "present"
  | ABSENT => "absent"
  | LEAVE => "leave"
  end.

Record t := {
  student : Z;
  date : Z;
  status : Status;
  marked_by : option Z;
  notes : option string
}.

Definition set_marked_by (self : t) (u : option Z) : t :=
  {| student := student self; date := date self; status := status self;
     marked_by := u; notes := notes self |}.

(** The columns a uniqueness constraint may name. *)
Inductive Field := F_student | F_date.

Definition field_value (f : Field) (self : t) : Z :=
  match f with
  | F_student => student self
  | F_date => date self
  end.

(** [Meta.unique_together = ['student', 'date']] *)
Definition unique_together : list (list Field) := [[F_student; F_date]].

End Attendance.

(** The body of a request that creates or replaces an attendance
    record, as [AttendanceSerializer] reads it. [student] is required
    ([unique_together] names it and the model gives it no default);
    every other field may be left out, which is [None]; [marked_by] and
    [notes] may also be sent as null, which is [Some None]. *)
Module AttendanceData.

Record t := {
  student : Z;
  date : option Z;
  status : option Attendance.Status;
  marked_by : option (option Z);
  notes : option (option string)
}.

End AttendanceData.

Module Visitor.

Record t := {
  visitor_name : string;
  student : Z;
  purpose : string;
  contact : string;
  in_time : Z;
  out_time : option Z;
  approved_by : option Z
}.

Definition set_approved_by (self : t) (u : option Z) : t :=
  {| visitor_name := visitor_name self; student := student self;
     purpose := purpose self; contact := contact self;
     in_time := in_time self; out_time := out_time self;
     approved_by := u |}.

End Visitor.

Module Complaint.

Inductive Status := PENDING | IN_PROGRESS | RESOLVED.
Inductive Priority := LOW | MEDIUM | HIGH.
Inductive Category := ELECTRICAL | PLUMBING | CLEANING | MAINTENANCE | OTHER.

#[global] Instance Status_eq_dec : EqDecision Status.
Proof. solve_decision. Defined.

Definition status_value (s : Status) : string :=
  match s with
  | PENDING => "pending"
  | IN_PROGRESS => "in_progress"
  | RESOLVED => "resolved"
  end.

Record t := {
  student : Z;
  title : string;
  description : string;
  category : Category;
  priority : Priority;
  status : Status;
  resolved_by : option Z;
  resolution_notes : option string
}.

(** [status = RESOLVED; resolved_by = user; resolution_notes = notes] *)
Definition set_resolved (self : t) (by_user : Z) (notes_ : string) : t :=
  {| student := student self; title := title self;
     description := description self; category := category self;
     priority := priority self; status := RESOLVED;
     resolved_by := Some by_user; resolution_notes := Some notes_ |}.

Definition set_student (self : t) (s : Z) : t :=
  {| student := s; title := title self;
     description := description self; category := category self;
     priority := priority self; status := status self;
     resolved_by := resolved_by self;
     resolution_notes := resolution_notes self |}.

End Complaint.

Module MessMenu.

Record t := {
  date : Z;
  breakfast : string;
  lunch : string;
  snacks : option string;
  dinner : string
}.

End MessMenu.

Module ContactMessage.

Record t := {
  name : string;
  email : string;
  role : string;
  message : string;
  is_resolved : bool
}.

End ContactMessage.

(** ** The database *)

Record Store := {
  users : gset Z;
  rooms : gmap Z Room.t;
  students : gmap Z StudentProfile.t;
  fees : gmap Z Fee.t;
  attendance : gmap Z Attendance.t;
  visitors : gmap Z Visitor.t;
  complaints : gmap Z Complaint.t;
  mess_menus : gmap Z MessMenu.t;
  contact_messages : gmap Z ContactMessage.t
}.

Definition set_rooms (db : Store) (m : gmap Z Room.t) : Store :=
  {| users := users db;
     rooms := m; students := students db; fees := fees db;
     attendance := attendance db; visitors := visitors db;
     complaints := complaints db; mess_menus := mess_menus db;
     contact_messages := contact_messages db |}.

Definition set_students (db : Store) (m : gmap Z StudentProfile.t) : Store :=
  {| users := users db;
     rooms := rooms db; students := m; fees := fees db;
     attendance := attendance db; visitors := visitors db;
     complaints := complaints db; mess_menus := mess_menus db;
     contact_messages := contact_messages db |}.

Definition set_fees (db : Store) (m : gmap Z Fee.t) : Store :=
  {| users := users db;
     rooms := rooms db; students := students db; fees := m;
     attendance := attendance db; visitors := visitors db;
     complaints := complaints db; mess_menus := mess_menus db;
     contact_messages := contact_messages db |}.

Definition set_attendance (db : Store) (m : gmap Z Attendance.t) : Store :=
  {| users := users db;
     rooms := rooms db; students := students db; fees := fees db;
     attendance := m; visitors := visitors db;
     complaints := complaints db; mess_menus := mess_menus db;
     contact_messages := contact_messages db |}.

Definition set_complaints (db : Store) (m : gmap Z Complaint.t) : Store :=
  {| users := users db;
     rooms := rooms db; students := students db; fees := fees db;
     attendance := attendance db; visitors := visitors db;
     complaints := m; mess_menus := mess_menus db;
     contact_messages := contact_messages db |}.

Definition set_visitors (db : Store) (m : gmap Z Visitor.t) : Store :=
  {| users := users db;
     rooms := rooms db; students := students db; fees := fees db;
     attendance := attendance db; visitors := m;
     complaints := complaints db; mess_menus := mess_menus db;
     contact_messages := contact_messages db |}.

(** The two clocks the code reads: [timezone.now()] and [date.today()]. *)
Record Clock := {
  timezone_now : Z;
  date_today : Z
}.

(** [datetime.date()] *)
Definition datetime_date (t : Z) : Z := t `div` 86400.

(** ** hostel/models.py: the methods *)

(** [Room.current_occupancy]:
    [self.students.filter(is_active=True).count()]. *)
Definition current_occupancy (db : Store) (room_pk : Z) : Z :=
  Z.of_nat (size (filter
    (λ kv : Z * StudentProfile.t,
       StudentProfile.room kv.2 = Some room_pk ∧
       StudentProfile.is_active kv.2 = true)
    (students db))).

(** [Room.is_available] *)
Definition is_available (db : Store) (room_pk : Z) (self : Room.t) : bool :=
  bool_decide (Room.status self = Room.VACANT ∧
               current_occupancy db room_pk < Room.capacity self).

(** [StudentProfile.save]. [super().save()] writes the row under the
    instance's key; [self.room.save()] writes the fields of the room
    object held on the instance under the room's key. The instance is
    returned as well, since [self.room.status] is assigned in place. *)
Definition StudentProfile_save (db : Store) (self : StudentProfile.obj)
  : StudentProfile.obj * Store :=
  let db := set_students db
              (<[StudentProfile.pk self := StudentProfile.row self]> (students db)) in
  match StudentProfile.room_obj self with
  | Some (room_pk, room) =>
      if StudentProfile.is_active (StudentProfile.row self) then
        if decide (current_occupancy db room_pk > 0 ∧
                   Room.status room = Room.VACANT)
        then
          let room := Room.set_status room Room.OCCUPIED in
          ({| StudentProfile.pk := StudentProfile.pk self;
              StudentProfile.row := StudentProfile.row self;
              StudentProfile.room_obj := Some (room_pk, room) |},
           set_rooms db (<[room_pk := room]> (rooms db)))
        else (self, db)
      else (self, db)
  | None => (self, db)
  end.

(** [Room.objects.get(id=room_id)]; [None] is [Room.DoesNotExist]. *)
Definition Room_objects_get (db : Store) (room_id : option Z)
  : option (Z * Room.t) :=
  i ← room_id;
  room ← rooms db !! i;
  Some (i, room).

(** [Fee.save] *)
Definition Fee_save (clk : Clock) (db : Store) (pk : Z) (self : Fee.t)
  : Fee.t * Store :=
  let self :=
    if decide (Fee.status self = Fee.UNPAID ∧
               Fee.due_date self < datetime_date (timezone_now clk))
    then Fee.set_status self Fee.OVERDUE
    else self in
  (self, set_fees db (<[pk := self]> (fees db))).

(** The reverse one-to-one accessor [user.student_profile]; [None] is
    the case in which [hasattr(user, 'student_profile')] is false. *)
Definition student_profile (db : Store) (user : User.t)
  : option (Z * StudentProfile.t) :=
  head (map_to_list (filter
    (λ kv : Z * StudentProfile.t, StudentProfile.user kv.2 = User.id user)
    (students db))).

Definition hasattr_student_profile (db : Store) (user : User.t) : bool :=
  bool_decide (is_Some (student_profile db user)).

(** ** Requests and responses *)

Module Action.

Inductive t :=
| list | retrieve | create | update | partial_update | destroy
| update_status | assign_room | mark_paid | summary | resolve | today.

End Action.

Module Request.

(** [request.query_params]; [None] is an absent parameter. *)
Record query_params := {
  status : option string;
  type : option string;
  is_active : option string;
  fee_status : option string;
  student_id : option Z;
  date : option Z;
  today : option string
}.

Definition no_params : query_params :=
  {| status := None; type := None; is_active := None; fee_status := None;
     student_id := None; date := None; today := None |}.

Record t := {
  user : User.t;
  params : query_params
}.

End Request.

Inductive Response (A : Type) :=
| Response_data (data : A) (status : Z)
| Response_error (error : string) (status : Z)
| PermissionDenied
| Http404
| ValidationError (code : string) (fields : list string)
| ServerError (exception : string).

Arguments Response_data {A} data status.
Arguments Response_error {A} error status.
Arguments PermissionDenied {A}.
Arguments Http404 {A}.
Arguments ValidationError {A} code fields.
Arguments ServerError {A} exception.

Definition HTTP_200_OK : Z := 200.
Definition HTTP_201_CREATED : Z := 201.
Definition HTTP_204_NO_CONTENT : Z := 204.
Definition HTTP_400_BAD_REQUEST : Z := 400.
Definition HTTP_404_NOT_FOUND : Z := 404.

(** A response that carries data is a success; every other is a
    failure of the request: an error of the view ([Response_error]),
    one of the framework's ([PermissionDenied], [Http404],
    [ValidationError]), or an exception nothing catches
    ([ServerError], status 500). *)
Definition succeeds {A} (r : Response A) : bool :=
  match r with
  | Response_data _ _ => true
  | _ => false
  end.

(** The permission check that runs before a handler: when a permission
    of the view's [get_permissions()] refuses, the handler is not run.
    Every viewset below overrides [get_permissions()], and the override
    alone decides, for the extra actions too: the [permission_classes]
    argument of their [@action] decorator is stored in
    [self.permission_classes], which the overrides do not read. *)
Definition initial {R} (perms : list Permission) (req : Request.t)
    (denied : R) (handler : R) : R :=
  if check_permissions perms (Request.user req) then handler else denied.

(** [if value: queryset = queryset.filter(...)] on a textual parameter:
    an absent or empty string is false. *)
Definition if_truthy {Q} (value : option string) (f : string → Q → Q)
    (queryset : Q) : Q :=
  match value with
  | Some s => if decide (s = "") then queryset else f s queryset
  | None => queryset
  end.

(** [if value is not None: ...], and [if value:] on a converted one. *)
Definition if_given {V Q} (value : option V) (f : V → Q → Q)
    (queryset : Q) : Q :=
  match value with
  | Some v => f v queryset
  | None => queryset
  end.

(** [str.lower()] on the ASCII letters. *)
Definition ascii_lower (c : Ascii.ascii) : Ascii.ascii :=
  let n := Ascii.nat_of_ascii c in
  if decide (65 ≤ n ≤ 90)%nat then Ascii.ascii_of_nat (n + 32) else c.

Fixpoint lower (s : string) : string :=
  match s with
  | EmptyString => EmptyString
  | String c s' => String (ascii_lower c) (lower s')
  end.

(** [objects.get(...)] on the rows a lookup selects: the row when there
    is exactly one, and otherwise one of the two exceptions. *)
Inductive GetResult (A : Type) :=
| Got (pk : Z) (row : A)
| DoesNotExist
| MultipleObjectsReturned.

Arguments Got {A} pk row.
Arguments DoesNotExist {A}.
Arguments MultipleObjectsReturned {A}.

Definition objects_get {A} (selected : gmap Z A) : GetResult A :=
  match map_to_list selected with
  | [] => DoesNotExist
  | [(pk, row)] => Got pk row
  | _ => MultipleObjectsReturned
  end.

(** A response body that is either [{'message': ...}] or an object. *)
Inductive MessageOr (A : Type) :=
| Message (message : string)
| Object (data : A).

Arguments Message {A} message.
Arguments Object {A} data.

#[global] Instance Permission_eq_dec : EqDecision Permission.
Proof. solve_decision. Defined.

(** ** hostel/views.py *)

Module RoomViewSet.

Definition get_permissions (action : Action.t) : list Permission :=
  match action with
  | Action.create | Action.update | Action.partial_update | Action.destroy =>
      [IsAdmin]
  | _ => [IsAuthenticated]
  end.

Definition get_queryset (db : Store) (req : Request.t) : gmap Z Room.t :=
  let queryset := rooms db in
  let status_filter := Request.status (Request.params req) in
  let room_type := Request.type (Request.params req) in
  let queryset :=
    if_truthy status_filter
      (λ s, filter (λ kv : Z * Room.t,
                      Room.status_value (Room.status kv.2) = s))
      queryset in
  let queryset :=
    if_truthy room_type
      (λ t, filter (λ kv : Z * Room.t,
                      Room.room_type_value (Room.room_type kv.2) = t))
      queryset in
  queryset.

Definition list (db : Store) (req : Request.t) : Response (gmap Z Room.t) :=
  initial (get_permissions Action.list) req PermissionDenied
    (Response_data (get_queryset db req) HTTP_200_OK).

Definition get_object (db : Store) (req : Request.t) (pk : Z)
  : option Room.t :=
  get_queryset db req !! pk.

(** [update_status]; [new_status] is [request.data.get('status')]. *)
Definition update_status (db : Store) (req : Request.t) (pk : Z)
    (new_status : option string) : Response Room.t * Store :=
  initial (get_permissions Action.update_status) req (PermissionDenied, db)
    match get_object db req pk with
    | None => (Http404, db)
    | Some room =>
        match new_status ≫= Room.status_of_value with
        | None => (Response_error "Invalid status" HTTP_400_BAD_REQUEST, db)
        | Some new_status =>
            let room := Room.set_status room new_status in
            (Response_data room HTTP_200_OK,
             set_rooms db (<[pk := room]> (rooms db)))
        end
    end.

End RoomViewSet.

Module StudentProfileViewSet.

Definition get_permissions (action : Action.t) : list Permission :=
  match action with
  | Action.create | Action.update | Action.partial_update | Action.destroy =>
      [IsAdmin]
  | _ => [IsAuthenticated]
  end.

Definition get_queryset (db : Store) (req : Request.t)
  : gmap Z StudentProfile.t :=
  let user := Request.user req in
  let queryset := students db in
  let queryset :=
    if User.is_student user
    then filter (λ kv : Z * StudentProfile.t,
                   StudentProfile.user kv.2 = User.id user) queryset
    else queryset in
  let is_active := Request.is_active (Request.params req) in
  let queryset :=
    if_given is_active
      (λ s, filter (λ kv : Z * StudentProfile.t,
                      StudentProfile.is_active kv.2
                      = bool_decide (lower s = "true")))
      queryset in
  let fee_status := Request.fee_status (Request.params req) in
  let queryset :=
    if_truthy fee_status
      (λ s, filter (λ kv : Z * StudentProfile.t,
                      map_Exists (λ _ fee,
                        Fee.student fee = kv.1 ∧
                        Fee.status_value (Fee.status fee) = s) (fees db)))
      queryset in
  queryset.

(** [get_object()]: the row of that key in the queryset, with the
    related room loaded ([select_related('user', 'room')]). *)
Definition get_object (db : Store) (req : Request.t) (pk : Z)
  : option StudentProfile.obj :=
  row ← get_queryset db req !! pk;
  Some {| StudentProfile.pk := pk;
          StudentProfile.row := row;
          StudentProfile.room_obj :=
            room_pk ← StudentProfile.room row;
            room ← rooms db !! room_pk;
            Some (room_pk, room) |}.

Definition list (db : Store) (req : Request.t)
  : Response (gmap Z StudentProfile.t) :=
  initial (get_permissions Action.list) req PermissionDenied
    (Response_data (get_queryset db req) HTTP_200_OK).

(** [assign_room]; [room_id] is [request.data.get('room_id')]. *)
Definition assign_room (db : Store) (req : Request.t) (pk : Z)
    (room_id : option Z) : Response StudentProfile.obj * Store :=
  initial (get_permissions Action.assign_room) req (PermissionDenied, db)
    match get_object db req pk with
    | None => (Http404, db)
    | Some student =>
        match Room_objects_get db room_id with
        | None => (Response_error "Room not found" HTTP_404_NOT_FOUND, db)
        | Some (room_pk, room) =>
            if negb (is_available db room_pk room)
            then (Response_error "Room is not available"
                    HTTP_400_BAD_REQUEST, db)
            else
              let student := StudentProfile.assign student room_pk room in
              let '(student, db) := StudentProfile_save db student in
              (Response_data student HTTP_200_OK, db)
        end
    end.

End StudentProfileViewSet.

Module FeeViewSet.

Definition get_permissions (action : Action.t) : list Permission :=
  match action with
  | Action.create | Action.update | Action.partial_update | Action.destroy =>
      [IsAdmin]
  | _ => [IsAuthenticated]
  end.

Definition get_queryset (db : Store) (req : Request.t) : gmap Z Fee.t :=
  let user := Request.user req in
  let queryset := fees db in
  let queryset :=
    if User.is_student user && hasattr_student_profile db user
    then filter (λ kv : Z * Fee.t,
                   Some (Fee.student kv.2) = fst <$> student_profile db user)
                queryset
    else queryset in
  let fee_status := Request.status (Request.params req) in
  let queryset :=
    if_truthy fee_status
      (λ s, filter (λ kv : Z * Fee.t,
                      Fee.status_value (Fee.status kv.2) = s))
      queryset in
  let student_id := Request.student_id (Request.params req) in
  let queryset :=
    if_given student_id
      (λ i, filter (λ kv : Z * Fee.t, Fee.student kv.2 = i))
      queryset in
  queryset.

Definition get_object (db : Store) (req : Request.t) (pk : Z)
  : option Fee.t :=
  get_queryset db req !! pk.

Definition list (db : Store) (req : Request.t) : Response (gmap Z Fee.t) :=
  initial (get_permissions Action.list) req PermissionDenied
    (Response_data (get_queryset db req) HTTP_200_OK).

Definition retrieve (db : Store) (req : Request.t) (pk : Z)
  : Response Fee.t :=
  initial (get_permissions Action.retrieve) req PermissionDenied
    match get_object db req pk with
    | None => Http404
    | Some fee => Response_data fee HTTP_200_OK
    end.

(** [mark_paid]; [payment_method] is what the request body holds under
    that name, if anything. *)
Definition mark_paid (clk : Clock) (db : Store) (req : Request.t) (pk : Z)
    (payment_method : option string) : Response Fee.t * Store :=
  initial (get_permissions Action.mark_paid) req (PermissionDenied, db)
    match get_object db req pk with
    | None => (Http404, db)
    | Some fee =>
        let payment_method := default "" payment_method in
        let fee := Fee.set_status fee Fee.PAID in
        let fee :=
          Fee.set_paid_date fee (Some (datetime_date (timezone_now clk))) in
        let fee := Fee.set_payment_method fee (Some payment_method) in
        let '(fee, db) := Fee_save clk db pk fee in
        (Response_data fee HTTP_200_OK, db)
    end.

End FeeViewSet.

(** The check the serializer runs for a model that declares
    [unique_together]: for one of the declared column sets, another row
    (not the instance being updated) agrees with the submitted values on
    every column of the set. *)
Definition unique_together_conflict (table : gmap Z Attendance.t)
    (instance : option Z) (attrs : Attendance.t) : bool :=
  bool_decide (Exists
    (λ fields,
       map_Exists (λ k row,
         Some k ≠ instance ∧
         Forall (λ f, Attendance.field_value f row
                      = Attendance.field_value f attrs) fields) table)
    Attendance.unique_together).

(** [AttendanceSerializer], a [ModelSerializer] over all the fields of
    [Attendance]. *)
Module AttendanceSerializer.

(** The fields whose value the serializer refuses: [student] and
    [marked_by] are primary keys that must name a stored row. *)
Definition field_errors (db : Store) (data : AttendanceData.t)
  : list string :=
  (if decide (students db !! AttendanceData.student data = None)
   then ["student"] else []) ++
  match AttendanceData.marked_by data with
  | Some (Some user) => if decide (user ∈ users db) then [] else ["marked_by"]
  | _ => []
  end.

(** The value of [date] after validation. [unique_together] names
    [date], so the serializer field takes the model's default,
    [timezone.now]: a request that leaves [date] out is validated to
    the present instant, which the database stores as its day (the
    day of [timezone.now().date()], the project's time zone being that
    of the clock). *)
Definition validated_date (clk : Clock) (data : AttendanceData.t) : Z :=
  default (datetime_date (timezone_now clk)) (AttendanceData.date data).

(** The instance built from the validated fields: a field left out
    takes the model's default. *)
Definition create_attrs (clk : Clock) (data : AttendanceData.t)
  : Attendance.t :=
  {| Attendance.student := AttendanceData.student data;
     Attendance.date := validated_date clk data;
     Attendance.status :=
       default Attendance.PRESENT (AttendanceData.status data);
     Attendance.marked_by := default None (AttendanceData.marked_by data);
     Attendance.notes := default None (AttendanceData.notes data) |}.

(** [ModelSerializer.update]: the validated fields are set on the
    instance; a field left out keeps the instance's value, except
    [date], which is validated to its default. *)
Definition update_attrs (clk : Clock) (instance : Attendance.t)
    (data : AttendanceData.t) : Attendance.t :=
  {| Attendance.student := AttendanceData.student data;
     Attendance.date := validated_date clk data;
     Attendance.status :=
       default (Attendance.status instance) (AttendanceData.status data);
     Attendance.marked_by :=
       default (Attendance.marked_by instance) (AttendanceData.marked_by data);
     Attendance.notes :=
       default (Attendance.notes instance) (AttendanceData.notes data) |}.

(** [Response(serializer.data, status)] for the instance just saved.
    When [date] was left out the instance still holds the datetime the
    default produced, and [DateField.to_representation] refuses a
    datetime with an assertion. *)
Definition render (data : AttendanceData.t) (saved : Z * Attendance.t)
    (status : Z) : Response (Z * Attendance.t) :=
  match AttendanceData.date data with
  | Some _ => Response_data saved status
  | None => ServerError "AssertionError"
  end.

End AttendanceSerializer.

Module AttendanceViewSet.

Definition get_permissions (action : Action.t) : list Permission :=
  match action with
  | Action.create | Action.update | Action.partial_update => [IsAdminOrWarden]
  | Action.destroy => [IsAdmin]
  | _ => [IsAuthenticated]
  end.

Definition get_queryset (db : Store) (req : Request.t)
  : gmap Z Attendance.t :=
  let user := Request.user req in
  let queryset := attendance db in
  let queryset :=
    if User.is_student user && hasattr_student_profile db user
    then filter (λ kv : Z * Attendance.t,
                   Some (Attendance.student kv.2)
                   = fst <$> student_profile db user) queryset
    else queryset in
  let date_filter := Request.date (Request.params req) in
  let queryset :=
    if_given date_filter
      (λ d, filter (λ kv : Z * Attendance.t, Attendance.date kv.2 = d))
      queryset in
  let student_id := Request.student_id (Request.params req) in
  let queryset :=
    if_given student_id
      (λ i, filter (λ kv : Z * Attendance.t, Attendance.student kv.2 = i))
      queryset in
  let status_filter := Request.status (Request.params req) in
  let queryset :=
    if_truthy status_filter
      (λ s, filter (λ kv : Z * Attendance.t,
                      Attendance.status_value (Attendance.status kv.2) = s))
      queryset in
  queryset.

Definition get_object (db : Store) (req : Request.t) (pk : Z)
  : option Attendance.t :=
  get_queryset db req !! pk.

Definition list (db : Store) (req : Request.t)
  : Response (gmap Z Attendance.t) :=
  initial (get_permissions Action.list) req PermissionDenied
    (Response_data (get_queryset db req) HTTP_200_OK).

(** [perform_create]: [serializer.save(marked_by=self.request.user)];
    the validated fields are saved under a new key. *)
Definition perform_create (db : Store) (req : Request.t)
    (validated_data : Attendance.t) : (Z * Attendance.t) * Store :=
  let row :=
    Attendance.set_marked_by validated_data
      (Some (User.id (Request.user req))) in
  let pk := fresh (dom (attendance db)) in
  ((pk, row), set_attendance db (<[pk := row]> (attendance db))).

(** [create]: the serializer validates the fields, then the declared
    uniqueness; [perform_create] saves the row; the saved instance is
    rendered into the response. *)
Definition create (clk : Clock) (db : Store) (req : Request.t)
    (data : AttendanceData.t) : Response (Z * Attendance.t) * Store :=
  initial (get_permissions Action.create) req (PermissionDenied, db)
    match AttendanceSerializer.field_errors db data with
    | (_ :: _) as fields => (ValidationError "does_not_exist" fields, db)
    | [] =>
        let validated_data := AttendanceSerializer.create_attrs clk data in
        if unique_together_conflict (attendance db) None validated_data
        then (ValidationError "unique" ["student"; "date"], db)
        else
          let saved := perform_create db req validated_data in
          (AttendanceSerializer.render data saved.1 HTTP_201_CREATED, saved.2)
    end.

(** [update] (PUT): the instance is looked up first; the same
    validation, the instance itself left out of the uniqueness check;
    the validated fields are set on the instance, which is saved and
    rendered. *)
Definition update (clk : Clock) (db : Store) (req : Request.t) (pk : Z)
    (data : AttendanceData.t) : Response (Z * Attendance.t) * Store :=
  initial (get_permissions Action.update) req (PermissionDenied, db)
    match get_object db req pk with
    | None => (Http404, db)
    | Some instance =>
        match AttendanceSerializer.field_errors db data with
        | (_ :: _) as fields => (ValidationError "does_not_exist" fields, db)
        | [] =>
            let instance := AttendanceSerializer.update_attrs clk instance data in
            if unique_together_conflict (attendance db) (Some pk) instance
            then (ValidationError "unique" ["student"; "date"], db)
            else
              (AttendanceSerializer.render data (pk, instance) HTTP_200_OK,
               set_attendance db (<[pk := instance]> (attendance db)))
        end
    end.

Definition destroy (db : Store) (req : Request.t) (pk : Z)
  : Response unit * Store :=
  initial (get_permissions Action.destroy) req (PermissionDenied, db)
    match get_object db req pk with
    | None => (Http404, db)
    | Some _ =>
        (Response_data () HTTP_204_NO_CONTENT,
         set_attendance db (delete pk (attendance db)))
    end.

Section summary.

(** The floating-point arithmetic of [summary] is kept abstract: [F]
    stands for the floats, [percentage_of present total] for
    [present / total * 100], [zero] for the integer [0] and [round2]
    for [round(_, 2)]. *)
Context {F : Type} (percentage_of : Z → Z → F) (zero : F) (round2 : F → F).

Record summary_data := {
  total_days : Z;
  present : Z;
  absent : Z;
  leave : Z;
  percentage : F
}.

(** [summary]. The counts are taken on [Attendance.objects], not on
    [get_queryset()]. *)
Definition summary (db : Store) (req : Request.t) : Response summary_data :=
  initial (get_permissions Action.summary) req PermissionDenied
    (let user := Request.user req in
     let student_id := Request.student_id (Request.params req) in
     let student_id :=
       match student_id with
       | Some i => Some i
       | None =>
           if User.is_student user && hasattr_student_profile db user
           then fst <$> student_profile db user
           else None
       end in
     match student_id with
     | None => Response_error "student_id required" HTTP_400_BAD_REQUEST
     | Some student_id =>
         let total :=
           Z.of_nat (size (filter
             (λ kv : Z * Attendance.t, Attendance.student kv.2 = student_id)
             (attendance db))) in
         let present :=
           Z.of_nat (size (filter
             (λ kv : Z * Attendance.t,
                Attendance.student kv.2 = student_id ∧
                Attendance.status kv.2 = Attendance.PRESENT)
             (attendance db))) in
         let absent :=
           Z.of_nat (size (filter
             (λ kv : Z * Attendance.t,
                Attendance.student kv.2 = student_id ∧
                Attendance.status kv.2 = Attendance.ABSENT)
             (attendance db))) in
         let leave :=
           Z.of_nat (size (filter
             (λ kv : Z * Attendance.t,
                Attendance.student kv.2 = student_id ∧
                Attendance.status kv.2 = Attendance.LEAVE)
             (attendance db))) in
         let percentage :=
           if decide (total > 0) then percentage_of present total else zero in
         Response_data
           {| total_days := total; present := present; absent := absent;
              leave := leave; percentage := round2 percentage |}
           HTTP_200_OK
     end).

End summary.

End AttendanceViewSet.

Module VisitorViewSet.

Definition get_permissions (action : Action.t) : list Permission :=
  match action with
  | Action.create | Action.update | Action.partial_update | Action.destroy =>
      [IsAdminOrWarden]
  | _ => [IsAuthenticated]
  end.

Definition get_queryset (clk : Clock) (db : Store) (req : Request.t)
  : gmap Z Visitor.t :=
  let user := Request.user req in
  let queryset := visitors db in
  let queryset :=
    if User.is_student user && hasattr_student_profile db user
    then filter (λ kv : Z * Visitor.t,
                   Some (Visitor.student kv.2)
                   = fst <$> student_profile db user) queryset
    else queryset in
  let student_id := Request.student_id (Request.params req) in
  let queryset :=
    if_given student_id
      (λ i, filter (λ kv : Z * Visitor.t, Visitor.student kv.2 = i))
      queryset in
  let today_only := Request.today (Request.params req) in
  let queryset :=
    if_truthy today_only
      (λ _, filter (λ kv : Z * Visitor.t,
                      datetime_date (Visitor.in_time kv.2) = date_today clk))
      queryset in
  queryset.

Definition list (clk : Clock) (db : Store) (req : Request.t)
  : Response (gmap Z Visitor.t) :=
  initial (get_permissions Action.list) req PermissionDenied
    (Response_data (get_queryset clk db req) HTTP_200_OK).

(** [perform_create]: [serializer.save(approved_by=self.request.user)] *)
Definition perform_create (db : Store) (req : Request.t)
    (validated_data : Visitor.t) : (Z * Visitor.t) * Store :=
  let row :=
    Visitor.set_approved_by validated_data
      (Some (User.id (Request.user req))) in
  let pk := fresh (dom (visitors db)) in
  ((pk, row), set_visitors db (<[pk := row]> (visitors db))).

End VisitorViewSet.

Module ComplaintViewSet.

Definition get_permissions (action : Action.t) : list Permission :=
  match action with
  | Action.create => [IsAuthenticated]
  | Action.update | Action.partial_update | Action.destroy =>
      [IsAdminOrWarden]
  | _ => [IsAuthenticated]
  end.

Definition get_queryset (db : Store) (req : Request.t)
  : gmap Z Complaint.t :=
  let user := Request.user req in
  let queryset := complaints db in
  let queryset :=
    if User.is_student user && hasattr_student_profile db user
    then filter (λ kv : Z * Complaint.t,
                   Some (Complaint.student kv.2)
                   = fst <$> student_profile db user) queryset
    else queryset in
  let status_filter := Request.status (Request.params req) in
  let queryset :=
    if_truthy status_filter
      (λ s, filter (λ kv : Z * Complaint.t,
                      Complaint.status_value (Complaint.status kv.2) = s))
      queryset in
  let student_id := Request.student_id (Request.params req) in
  let queryset :=
    if_given student_id
      (λ i, filter (λ kv : Z * Complaint.t, Complaint.student kv.2 = i))
      queryset in
  queryset.

Definition list (db : Store) (req : Request.t)
  : Response (gmap Z Complaint.t) :=
  initial (get_permissions Action.list) req PermissionDenied
    (Response_data (get_queryset db req) HTTP_200_OK).

Definition get_object (db : Store) (req : Request.t) (pk : Z)
  : option Complaint.t :=
  get_queryset db req !! pk.

(** [resolve]; [resolution_notes] is what the request body holds under
    that name, if anything. *)
Definition resolve (db : Store) (req : Request.t) (pk : Z)
    (resolution_notes : option string) : Response Complaint.t * Store :=
  initial (get_permissions Action.resolve) req (PermissionDenied, db)
    match get_object db req pk with
    | None => (Http404, db)
    | Some complaint =>
        let resolution_notes := default "" resolution_notes in
        let complaint :=
          Complaint.set_resolved complaint (User.id (Request.user req))
            resolution_notes in
        (Response_data complaint HTTP_200_OK,
         set_complaints db (<[pk := complaint]> (complaints db)))
    end.

(** [perform_create]. For a student the complaint is saved with
    [student=self.request.user.student_profile]; [None] is the
    exception that this access raises when the user has no profile. *)
Definition perform_create (db : Store) (req : Request.t)
    (validated_data : Complaint.t) : option ((Z * Complaint.t) * Store) :=
  let pk := fresh (dom (complaints db)) in
  if User.is_student (Request.user req) then
    profile ← student_profile db (Request.user req);
    let row := Complaint.set_student validated_data profile.1 in
    Some ((pk, row), set_complaints db (<[pk := row]> (complaints db)))
  else
    Some ((pk, validated_data),
          set_complaints db (<[pk := validated_data]> (complaints db))).

End ComplaintViewSet.

Module MessMenuViewSet.

Definition get_permissions (action : Action.t) : list Permission :=
  match action with
  | Action.create | Action.update | Action.partial_update | Action.destroy =>
      [IsAdmin]
  | _ => [IsAuthenticated]
  end.

Definition get_queryset (db : Store) (req : Request.t)
  : gmap Z MessMenu.t :=
  let queryset := mess_menus db in
  let date_filter := Request.date (Request.params req) in
  let queryset :=
    if_given date_filter
      (λ d, filter (λ kv : Z * MessMenu.t, MessMenu.date kv.2 = d))
      queryset in
  queryset.

Definition list (db : Store) (req : Request.t)
  : Response (gmap Z MessMenu.t) :=
  initial (get_permissions Action.list) req PermissionDenied
    (Response_data (get_queryset db req) HTTP_200_OK).

(** [today]; [None] is an exception the handler does not catch. *)
Definition today (clk : Clock) (db : Store) (req : Request.t)
  : option (Response (MessageOr MessMenu.t)) :=
  initial (get_permissions Action.today) req (Some PermissionDenied)
    match objects_get
            (filter (λ kv : Z * MessMenu.t, MessMenu.date kv.2 = date_today clk)
                    (mess_menus db)) with
    | Got _ menu => Some (Response_data (Object menu) HTTP_200_OK)
    | DoesNotExist =>
        Some (Response_data (Message "No menu for today") HTTP_404_NOT_FOUND)
    | MultipleObjectsReturned => None
    end.

End MessMenuViewSet.

Module ContactMessageViewSet.

Definition get_permissions (action : Action.t) : list Permission :=
  match action with
  | Action.create => [AllowAny]
  | _ => [IsAdmin]
  end.

(** No [get_queryset] override: [queryset = ContactMessage.objects.all()]. *)
Definition list (db : Store) (req : Request.t)
  : Response (gmap Z ContactMessage.t) :=
  initial (get_permissions Action.list) req PermissionDenied
    (Response_data (contact_messages db) HTTP_200_OK).

End ContactMessageViewSet.

(** *** dashboard_stats *)

(** The values of the [stats] dictionary. *)
Inductive Value :=
| VInt (n : Z)
| VDecimal (hundredths : Z)
| VRoom (room : Z * Room.t)
| VNone.

(** [queryset.count()] *)
Definition count {A} (queryset : gmap Z A) : Z := Z.of_nat (size queryset).

(** [queryset.aggregate(total=Sum('amount'))['total']]: the sum of the
    column over the selected rows, [None] when no row is selected. *)
Definition aggregate_Sum_amount (queryset : gmap Z Fee.t) : option Z :=
  if decide (size queryset = 0%nat) then None
  else Some (map_fold (λ _ fee acc, Fee.amount fee + acc) 0 queryset).

(** [x or 0] on the result of an aggregate: [None] and a zero decimal
    are both false. *)
Definition or_0 (x : option Z) : Value :=
  match x with
  | Some d => if decide (d = 0) then VInt 0 else VDecimal d
  | None => VInt 0
  end.

(** [DashboardStatsSerializer], a plain [Serializer] of eleven declared
    fields, none of them optional. A rendered value is written as a
    [Value] again: [VInt] for a number, [VDecimal] for the string of a
    decimal with two places. *)
Module DashboardStatsSerializer.

(** The two kinds of field declared. Both decimal fields are declared
    with [decimal_places=2], the unit in which the amounts are counted
    here, so only [max_digits] is carried. *)
Inductive Field :=
| IntegerField
| DecimalField (max_digits : Z).

Definition fields : list (string * Field) := [
  ("total_rooms", IntegerField);
  ("occupied_rooms", IntegerField);
  ("available_rooms", IntegerField);
  ("total_students", IntegerField);
  ("active_students", IntegerField);
  ("pending_fees", IntegerField);
  ("total_fees_amount", DecimalField 10);
  ("paid_fees_amount", DecimalField 10);
  ("todays_visitors", IntegerField);
  ("pending_complaints", IntegerField);
  ("todays_attendance", IntegerField)
].

(** [DecimalField.quantize]: the value is brought to two places in a
    decimal context of precision [max_digits], which raises
    [InvalidOperation] when the result has more than [max_digits]
    digits. *)
Definition quantize (max_digits : Z) (hundredths : Z) : string + Value :=
  if decide (Z.abs hundredths < 10 ^ max_digits)
  then inr (VDecimal hundredths)
  else inl "InvalidOperation".

(** [field.to_representation(value)]. [IntegerField] applies [int],
    which drops the decimals of a decimal; [DecimalField] converts what
    is no decimal to one (a dictionary is no numeral) and quantizes.
    [None] is rendered as it is, without asking the field. *)
Definition to_representation (field : Field) (value : Value)
  : string + Value :=
  match field, value with
  | _, VNone => inr VNone
  | IntegerField, VInt n => inr (VInt n)
  | IntegerField, VDecimal d => inr (VInt (d `quot` 100))
  | IntegerField, VRoom _ => inl "TypeError"
  | DecimalField max_digits, VInt n => quantize max_digits (100 * n)
  | DecimalField max_digits, VDecimal d => quantize max_digits d
  | DecimalField _, VRoom _ => inl "InvalidOperation"
  end.

(** [Serializer.to_representation(instance)] on a dictionary, field by
    field in the order of declaration: a field whose key the dictionary
    lacks raises [KeyError], and an exception of a field ends the
    rendering. *)
Fixpoint render (fields : list (string * Field))
    (instance : gmap string Value) : string + gmap string Value :=
  match fields with
  | [] => inr ∅
  | (name, field) :: fields =>
      match instance !! name with
      | None => inl "KeyError"
      | Some value =>
          match to_representation field value with
          | inl exception => inl exception
          | inr rendered =>
              match render fields instance with
              | inl exception => inl exception
              | inr ret => inr (<[name := rendered]> ret)
              end
          end
      end
  end.

(** [DashboardStatsSerializer(stats).data] *)
Definition data (stats : gmap string Value) : string + gmap string Value :=
  render fields stats.

End DashboardStatsSerializer.

(** The dictionary [stats] that [dashboard_stats] builds for the
    requesting user, before it is handed to the serializer. *)
Definition dashboard_stats_dict (clk : Clock) (db : Store) (user : User.t)
  : gmap string Value :=
    (let stats : gmap string Value :=
       list_to_map [
         ("total_rooms", VInt (count (rooms db)));
         ("occupied_rooms",
            VInt (count (filter (λ kv : Z * Room.t,
                                   Room.status kv.2 = Room.OCCUPIED) (rooms db))));
         ("available_rooms",
            VInt (count (filter (λ kv : Z * Room.t,
                                   Room.status kv.2 = Room.VACANT) (rooms db))));
         ("total_students", VInt (count (students db)));
         ("active_students",
            VInt (count (filter (λ kv : Z * StudentProfile.t,
                                   StudentProfile.is_active kv.2 = true)
                                (students db))))
       ] in
     let stats :=
       if User.is_admin user || User.is_warden user
       then
         (list_to_map [
            ("pending_fees",
               VInt (count (filter (λ kv : Z * Fee.t,
                                      Fee.status kv.2 = Fee.UNPAID ∨
                                      Fee.status kv.2 = Fee.OVERDUE) (fees db))));
            ("total_fees_amount", or_0 (aggregate_Sum_amount (fees db)));
            ("paid_fees_amount",
               or_0 (aggregate_Sum_amount
                       (filter (λ kv : Z * Fee.t, Fee.status kv.2 = Fee.PAID)
                               (fees db))));
            ("todays_visitors",
               VInt (count (filter (λ kv : Z * Visitor.t,
                                      datetime_date (Visitor.in_time kv.2)
                                      = date_today clk) (visitors db))));
            ("pending_complaints",
               VInt (count (filter (λ kv : Z * Complaint.t,
                                      Complaint.status kv.2 = Complaint.PENDING)
                                   (complaints db))));
            ("todays_attendance",
               VInt (count (filter (λ kv : Z * Attendance.t,
                                      Attendance.date kv.2 = date_today clk ∧
                                      Attendance.status kv.2 = Attendance.PRESENT)
                                   (attendance db))))
          ] : gmap string Value) ∪ stats
       else stats in
     let stats :=
       if User.is_student user && hasattr_student_profile db user
       then
         match student_profile db user with
         | Some (profile_pk, profile) =>
             list_to_map [
               ("room",
                  match StudentProfile.room profile ≫=
                          (λ i, (i,.) <$> rooms db !! i) with
                  | Some room => VRoom room
                  | None => VNone
                  end);
               ("pending_fees",
                  VInt (count (filter (λ kv : Z * Fee.t,
                                         Fee.student kv.2 = profile_pk ∧
                                         Fee.status kv.2 ∈ [Fee.UNPAID; Fee.OVERDUE])
                                      (fees db))));
               ("total_attendance",
                  VInt (count (filter (λ kv : Z * Attendance.t,
                                         Attendance.student kv.2 = profile_pk)
                                      (attendance db))));
               ("present_days",
                  VInt (count (filter (λ kv : Z * Attendance.t,
                                         Attendance.student kv.2 = profile_pk ∧
                                         Attendance.status kv.2 = Attendance.PRESENT)
                                      (attendance db))));
               ("pending_complaints",
                  VInt (count (filter (λ kv : Z * Complaint.t,
                                         Complaint.student kv.2 = profile_pk ∧
                                         Complaint.status kv.2 = Complaint.PENDING)
                                      (complaints db))))
             ]
         | None => stats
         end
       else stats in
     stats).

(** [dashboard_stats]: the dictionary is rendered by
    [DashboardStatsSerializer], and the rendering is the response. *)
Definition dashboard_stats (clk : Clock) (db : Store) (req : Request.t)
  : Response (gmap string Value) :=
  initial [IsAuthenticated] req PermissionDenied
    (let user := Request.user req in
     let stats := dashboard_stats_dict clk db user in
     match DashboardStatsSerializer.data stats with
     | inr data => Response_data data HTTP_200_OK
     | inl exception => ServerError exception
     end).

(** ** Notions used to state the properties *)

(** The instance holds the room that the store has under the key its row
    refers to. This is the state of an instance that [get_object] has
    loaded, and of one to which a room just read was assigned. *)
Definition room_loaded (db : Store) (self : StudentProfile.obj) : Prop :=
  StudentProfile.room_obj self =
    (room_pk ← StudentProfile.room (StudentProfile.row self);
     room ← rooms db !! room_pk;
     Some (room_pk, room)).

(** The record [mark_paid] leaves: paid, stamped with the day and the
    method, the other fields as they were. *)
Definition paid_with (fee : Fee.t) (today : Z) (method : string) : Fee.t :=
  {| Fee.student := Fee.student fee; Fee.amount := Fee.amount fee;
     Fee.due_date := Fee.due_date fee; Fee.paid_date := Some today;
     Fee.status := Fee.PAID; Fee.payment_method := Some method;
     Fee.notes := Fee.notes fee |}.

(** The sum of [amount] over the listed fee records that satisfy [P]. *)
Fixpoint total_where (P : Fee.t → bool) (l : list (Z * Fee.t)) : Z :=
  match l with
  | [] => 0
  | (_, fee) :: l => (if P fee then Fee.amount fee else 0) + total_where P l
  end.

(** The amount a value of the dictionary stands for, in hundredths. *)
Definition hundredths (v : Value) : option Z :=
  match v with
  | VInt n => Some (100 * n)
  | VDecimal d => Some d
  | _ => None
  end.

(** The two sums of the dashboard, in hundredths: over all the fees,
    and over the paid ones. *)
Definition total_fees (db : Store) : Z :=
  total_where (λ _, true) (map_to_list (fees db)).

Definition paid_fees (db : Store) : Z :=
  total_where (λ fee, bool_decide (Fee.status fee = Fee.PAID))
    (map_to_list (fees db)).

(** Both sums can be written with ten digits, that is, each lies
    strictly between -100000000.00 and 100000000.00. *)
Definition totals_fit (db : Store) : Prop :=
  Z.abs (total_fees db) < 10 ^ 10 ∧ Z.abs (paid_fees db) < 10 ^ 10.

#[global] Instance totals_fit_dec db : Decision (totals_fit db).
Proof. unfold totals_fit. apply _. Defined.

(** [marked_by] is left out, is null, or is the key of a user. *)
Definition marked_by_known (db : Store) (data : AttendanceData.t) : Prop :=
  ∀ user : Z,
    AttendanceData.marked_by data = Some (Some user) → user ∈ users db.

(** No two attendance records share student and date. *)
Definition attendance_unique (table : gmap Z Attendance.t) : Prop :=
  ∀ (i j : Z) (a b : Attendance.t),
    table !! i = Some a → table !! j = Some b →
    Attendance.student a = Attendance.student b →
    Attendance.date a = Attendance.date b →
    i = j.

(** The stores the attendance endpoints can produce, starting with no
    attendance record; any other operation leaves the table as it is. *)
Inductive attendance_reachable : Store → Prop :=
| reachable_empty db :
    attendance db = ∅ → attendance_reachable db
| reachable_create clk db req data :
    attendance_reachable db →
    attendance_reachable (AttendanceViewSet.create clk db req data).2
| reachable_update clk db req pk data :
    attendance_reachable db →
    attendance_reachable (AttendanceViewSet.update clk db req pk data).2
| reachable_destroy db req pk :
    attendance_reachable db →
    attendance_reachable (AttendanceViewSet.destroy db req pk).2
| reachable_other db db' :
    attendance_reachable db →
    attendance db' = attendance db →
    attendance_reachable db'.

(** [MessMenu.date] is declared [unique=True]. *)
Definition mess_menu_dates_unique (table : gmap Z MessMenu.t) : Prop :=
  ∀ (i j : Z) (a b : MessMenu.t),
    table !! i = Some a → table !! j = Some b →
    MessMenu.date a = MessMenu.date b → i = j.

(** The other tables of two stores agree. *)
Definition same_but_rooms_and_students (db db' : Store) : Prop :=
  users db' = users db ∧
  fees db' = fees db ∧ attendance db' = attendance db ∧
  visitors db' = visitors db ∧ complaints db' = complaints db ∧
  mess_menus db' = mess_menus db ∧
  contact_messages db' = contact_messages db.

(** Looking a key up in a dictionary written as a list of entries. *)
Ltac dict_lookup :=
  rewrite ?lookup_union; unfold list_to_map;
  cbn [foldr fst snd uncurry];
  repeat first [ rewrite lookup_insert_eq
               | rewrite lookup_insert_ne by done
               | rewrite lookup_empty ].

(** ** A small store, used to run the definitions *)

Module Sample.

Definition admin : User.t :=
  {| User.id := 1; User.role := User.ADMIN; User.is_authenticated := true |}.
Definition warden : User.t :=
  {| User.id := 2; User.role := User.WARDEN; User.is_authenticated := true |}.
Definition ali : User.t :=
  {| User.id := 3; User.role := User.STUDENT; User.is_authenticated := true |}.
Definition sara : User.t :=
  {| User.id := 4; User.role := User.STUDENT; User.is_authenticated := true |}.
(** Registered with the student role; no profile has been created yet. *)
Definition newcomer : User.t :=
  {| User.id := 5; User.role := User.STUDENT; User.is_authenticated := true |}.

Definition request (u : User.t) : Request.t :=
  {| Request.user := u; Request.params := Request.no_params |}.

(** The same, with [?status=s] in the query string. *)
Definition request_with_status (u : User.t) (s : string) : Request.t :=
  {| Request.user := u;
     Request.params :=
       {| Request.status := Some s; Request.type := None;
          Request.is_active := None; Request.fee_status := None;
          Request.student_id := None; Request.date := None;
          Request.today := None |} |}.

Definition room_101 : Room.t :=
  {| Room.room_no := "101"; Room.room_type := Room.SINGLE;
     Room.capacity := 1; Room.floor := 1; Room.status := Room.VACANT;
     Room.description := None |}.
Definition room_102 : Room.t :=
  {| Room.room_no := "102"; Room.room_type := Room.DOUBLE;
     Room.capacity := 2; Room.floor := 1; Room.status := Room.OCCUPIED;
     Room.description := Some "corner room" |}.

Definition profile_ali : StudentProfile.t :=
  {| StudentProfile.user := 3; StudentProfile.room := None;
     StudentProfile.contact := "0300"; StudentProfile.emergency_contact := "0301";
     StudentProfile.father_name := "Khan"; StudentProfile.address := "Lahore";
     StudentProfile.date_of_birth := None; StudentProfile.date_of_joining := 5;
     StudentProfile.is_active := true |}.
Definition profile_sara : StudentProfile.t :=
  {| StudentProfile.user := 4; StudentProfile.room := Some 2;
     StudentProfile.contact := "0310"; StudentProfile.emergency_contact := "0311";
     StudentProfile.father_name := "Ahmed"; StudentProfile.address := "Karachi";
     StudentProfile.date_of_birth := Some (-3000);
     StudentProfile.date_of_joining := 6;
     StudentProfile.is_active := true |}.

(** 15000.00, due on day 10, not paid. *)
Definition fee_ali : Fee.t :=
  {| Fee.student := 1; Fee.amount := 1500000; Fee.due_date := 10;
     Fee.paid_date := None; Fee.status := Fee.UNPAID;
     Fee.payment_method := None; Fee.notes := None |}.
Definition fee_sara : Fee.t :=
  {| Fee.student := 2; Fee.amount := 1200050; Fee.due_date := 40;
     Fee.paid_date := Some 18; Fee.status := Fee.PAID;
     Fee.payment_method := Some "Bank"; Fee.notes := None |}.

Definition attendance_ali : Attendance.t :=
  {| Attendance.student := 1; Attendance.date := 20;
     Attendance.status := Attendance.PRESENT;
     Attendance.marked_by := Some 2; Attendance.notes := None |}.

Definition visitor_1 : Visitor.t :=
  {| Visitor.visitor_name := "Bilal"; Visitor.student := 1;
     Visitor.purpose := "family"; Visitor.contact := "0320";
     Visitor.in_time := 1730000; Visitor.out_time := None;
     Visitor.approved_by := Some 2 |}.

Definition complaint_1 : Complaint.t :=
  {| Complaint.student := 2; Complaint.title := "Tap";
     Complaint.description := "leaking"; Complaint.category := Complaint.PLUMBING;
     Complaint.priority := Complaint.MEDIUM; Complaint.status := Complaint.PENDING;
     Complaint.resolved_by := None; Complaint.resolution_notes := None |}.

Definition menu_1 : MessMenu.t :=
  {| MessMenu.date := 20; MessMenu.breakfast := "paratha";
     MessMenu.lunch := "daal"; MessMenu.snacks := None;
     MessMenu.dinner := "biryani" |}.

Definition message_1 : ContactMessage.t :=
  {| ContactMessage.name := "Guest"; ContactMessage.email := "g@example.org";
     ContactMessage.role := "parent"; ContactMessage.message := "hello";
     ContactMessage.is_resolved := false |}.

Definition db : Store :=
  {| users := {[ 1; 2; 3; 4; 5 ]};
     rooms := {[ 1 := room_101; 2 := room_102 ]};
     students := {[ 1 := profile_ali; 2 := profile_sara ]};
     fees := {[ 1 := fee_ali; 2 := fee_sara ]};
     attendance := {[ 1 := attendance_ali ]};
     visitors := {[ 1 := visitor_1 ]};
     complaints := {[ 1 := complaint_1 ]};
     mess_menus := {[ 1 := menu_1 ]};
     contact_messages := {[ 1 := message_1 ]} |}.

(** Two fees of 99999999.99, the largest amount [Fee.amount] (ten
    digits, two decimal places) can hold. *)
Definition fee_largest (student : Z) : Fee.t :=
  {| Fee.student := student; Fee.amount := 9999999999; Fee.due_date := 40;
     Fee.paid_date := None; Fee.status := Fee.UNPAID;
     Fee.payment_method := None; Fee.notes := None |}.

Definition db_largest_fees : Store :=
  set_fees db {[ 1 := fee_largest 1; 2 := fee_largest 2 ]}.

(** Ali's profile as [get_object] loads it: no room is assigned. *)
Definition ali_loaded : StudentProfile.obj :=
  {| StudentProfile.pk := 1; StudentProfile.row := profile_ali;
     StudentProfile.room_obj := None |}.

(** Room 101 after it was enlarged and put under maintenance. *)
Definition room_101_refitted : Room.t :=
  {| Room.room_no := "101"; Room.room_type := Room.TRIPLE;
     Room.capacity := 3; Room.floor := 1; Room.status := Room.MAINTENANCE;
     Room.description := None |}.

Definition db_refitted : Store :=
  set_rooms db (<[1 := room_101_refitted]> (rooms db)).

(** Ali's profile, assigned room 101 as it was read from [db]: on
    [db_refitted] the room object it holds is out of date. *)
Definition ali_stale : StudentProfile.obj :=
  StudentProfile.assign ali_loaded 1 room_101.

(** The request body that marks Ali present on day 20. *)
Definition mark_ali : AttendanceData.t :=
  {| AttendanceData.student := 1; AttendanceData.date := Some 20;
     AttendanceData.status := Some Attendance.PRESENT;
     AttendanceData.marked_by := None; AttendanceData.notes := None |}.

(** The store before any attendance was marked. *)
Definition db_unmarked : Store := set_attendance db ∅.

(** One hour into day 20. *)
Definition clock : Clock :=
  {| timezone_now := 20 * 86400 + 3600; date_today := 20 |}.

End Sample.

(** * Properties *)

(** ** The permission check and the queryset helpers *)

Lemma initial_granted {R} perms req (denied handler : R) :
  check_permissions perms (Request.user req) = true →
  initial perms req denied handler = handler.
Proof. intros H. unfold initial. by rewrite H. Qed.

Lemma initial_refused {R} perms req (denied handler : R) :
  check_permissions perms (Request.user req) = false →
  initial perms req denied handler = denied.
Proof. intros H. unfold initial. by rewrite H. Qed.

(** Counting the rows a filter selects is counting the selected entries
    of the table's listing. *)
Lemma map_to_list_filter_perm {A} (P : Z * A → Prop) `{!∀ x, Decision (P x)}
    (m : gmap Z A) :
  map_to_list (filter P m) ≡ₚ filter P (map_to_list m).
Proof.
  rewrite map_filter_alt. apply map_to_list_to_map.
  eapply sublist_NoDup; [apply (NoDup_fst_map_to_list m) |].
  apply fmap_sublist, sublist_filter.
Qed.

Lemma size_filter {A} (P : Z * A → Prop) `{!∀ x, Decision (P x)}
    (m : gmap Z A) :
  size (filter P m) = length (filter P (map_to_list m)).
Proof. by rewrite <- length_map_to_list, map_to_list_filter_perm. Qed.

Lemma if_truthy_subseteq {A} (value : option string)
    (f : string → gmap Z A → gmap Z A) (queryset : gmap Z A) :
  (∀ s q, f s q ⊆ q) → if_truthy value f queryset ⊆ queryset.
Proof.
  intros Hf. unfold if_truthy. destruct value as [s|]; [|done].
  case_decide; [done | apply Hf].
Qed.

Lemma if_given_subseteq {V A} (value : option V)
    (f : V → gmap Z A → gmap Z A) (queryset : gmap Z A) :
  (∀ v q, f v q ⊆ q) → if_given value f queryset ⊆ queryset.
Proof. intros Hf. unfold if_given. destruct value; [apply Hf | done]. Qed.

(** ** Room availability and assignment *)

Lemma StudentProfile_get_queryset_subseteq db req :
  StudentProfileViewSet.get_queryset db req ⊆ students db.
Proof.
  unfold StudentProfileViewSet.get_queryset.
  etrans; [apply if_truthy_subseteq; intros; apply map_filter_subseteq|].
  etrans; [apply if_given_subseteq; intros; apply map_filter_subseteq|].
  destruct (User.is_student _); [apply map_filter_subseteq | done].
Qed.

Lemma get_object_row db req pk student :
  StudentProfileViewSet.get_object db req pk = Some student →
  students db !! pk = Some (StudentProfile.row student).
Proof.
  unfold StudentProfileViewSet.get_object. intros H.
  destruct (StudentProfileViewSet.get_queryset db req !! pk) eqn:Hq;
    simplify_eq/=.
  eapply lookup_weaken; [done | apply StudentProfile_get_queryset_subseteq].
Qed.


Lemma is_available_true db room_pk room :
  is_available db room_pk room = true ↔
  Room.status room = Room.VACANT ∧
  current_occupancy db room_pk < Room.capacity room.
Proof. unfold is_available. apply bool_decide_eq_true. Qed.

Lemma current_occupancy_length db room_pk :
  current_occupancy db room_pk =
  Z.of_nat (length (filter
    (λ kv : Z * StudentProfile.t,
       StudentProfile.room kv.2 = Some room_pk ∧
       StudentProfile.is_active kv.2 = true)
    (map_to_list (students db)))).
Proof. unfold current_occupancy. by rewrite size_filter. Qed.

Lemma StudentProfile_save_students db self :
  students (StudentProfile_save db self).2
  = <[StudentProfile.pk self := StudentProfile.row self]> (students db).
Proof.
  unfold StudentProfile_save.
  destruct (StudentProfile.room_obj self) as [[room_pk room]|]; [|done].
  destruct (StudentProfile.is_active _); [|done].
  by case_decide.
Qed.

Lemma get_object_pk db req pk student :
  StudentProfileViewSet.get_object db req pk = Some student →
  StudentProfile.pk student = pk.
Proof.
  unfold StudentProfileViewSet.get_object. intros H.
  destruct (StudentProfileViewSet.get_queryset db req !! pk); simplify_eq/=.
  done.
Qed.

(** C1. For a permitted request that names a student the view resolves
    and an existing room, [assign_room] succeeds exactly when the room's
    [is_available] holds in the store it is evaluated on, where
    [is_available] holds iff the room is vacant and fewer active
    profiles refer to it than its capacity; when it does not hold, the
    answer is the availability error and the store, hence the student's
    room reference, is unchanged. *)
Theorem assign_room_iff_available
    (db : Store) (req : Request.t) (pk room_id : Z)
    (student : StudentProfile.obj) (room : Room.t) :
  check_permissions
    (StudentProfileViewSet.get_permissions Action.assign_room)
    (Request.user req) = true →
  StudentProfileViewSet.get_object db req pk = Some student →
  rooms db !! room_id = Some room →
  let result := StudentProfileViewSet.assign_room db req pk (Some room_id) in
  (is_available db room_id room = true ↔
     Room.status room = Room.VACANT ∧
     Z.of_nat (length (filter
       (λ kv : Z * StudentProfile.t,
          StudentProfile.room kv.2 = Some room_id ∧
          StudentProfile.is_active kv.2 = true)
       (map_to_list (students db)))) < Room.capacity room) ∧
  succeeds result.1 = is_available db room_id room ∧
  (is_available db room_id room = false →
     result.1 = Response_error "Room is not available" HTTP_400_BAD_REQUEST ∧
     result.2 = db ∧
     students result.2 !! pk = Some (StudentProfile.row student)) ∧
  (is_available db room_id room = true →
     StudentProfile.room <$> students result.2 !! pk = Some (Some room_id)).
Proof.
  intros Hperm Hobj Hroom result.
  split; [by rewrite is_available_true, current_occupancy_length|].
  subst result. unfold StudentProfileViewSet.assign_room.
  rewrite initial_granted by done. rewrite Hobj.
  unfold Room_objects_get. simpl. rewrite Hroom. simpl.
  destruct (is_available db room_id room) eqn:Hav; simpl.
  - destruct (StudentProfile_save db _) as [student' db'] eqn:Hsave.
    simpl. split; [done|]. split; [done|]. intros _.
    assert (db' = (StudentProfile_save db
              (StudentProfile.assign student room_id room)).2) as ->
      by by rewrite Hsave.
    rewrite StudentProfile_save_students. simpl.
    rewrite (get_object_pk _ _ _ _ Hobj), lookup_insert_eq. done.
  - split; [done|]. split; [|done]. intros _. split; [done|]. split; [done|].
    by apply get_object_row with req.
Qed.

(** ** Saving a student profile *)

Lemma room_loaded_Some db self room_pk room :
  room_loaded db self →
  StudentProfile.room_obj self = Some (room_pk, room) →
  StudentProfile.room (StudentProfile.row self) = Some room_pk ∧
  rooms db !! room_pk = Some room.
Proof.
  unfold room_loaded. intros -> H.
  destruct (StudentProfile.room _) as [k|]; simplify_eq/=.
  destruct (rooms db !! k) eqn:?; simplify_eq/=. done.
Qed.

Lemma get_object_room_loaded db req pk student :
  StudentProfileViewSet.get_object db req pk = Some student →
  room_loaded db student.
Proof.
  unfold StudentProfileViewSet.get_object, room_loaded. intros H.
  destruct (StudentProfileViewSet.get_queryset db req !! pk); simplify_eq/=.
  done.
Qed.

Lemma assign_room_loaded db student room_pk room :
  rooms db !! room_pk = Some room →
  room_loaded db (StudentProfile.assign student room_pk room).
Proof. unfold room_loaded. simpl. by intros ->. Qed.

Lemma current_occupancy_students db db' room_pk :
  students db' = students db →
  current_occupancy db' room_pk = current_occupancy db room_pk.
Proof. unfold current_occupancy. by intros ->. Qed.

Lemma current_occupancy_nonneg db room_pk : 0 ≤ current_occupancy db room_pk.
Proof. unfold current_occupancy. lia. Qed.

(** A stored active profile that refers to a room is counted in it. *)
Lemma current_occupancy_pos db pk row room_pk :
  students db !! pk = Some row →
  StudentProfile.room row = Some room_pk →
  StudentProfile.is_active row = true →
  1 ≤ current_occupancy db room_pk.
Proof.
  intros Hrow Hroom Hact. unfold current_occupancy.
  cut (size (filter
         (λ kv : Z * StudentProfile.t,
            StudentProfile.room kv.2 = Some room_pk ∧
            StudentProfile.is_active kv.2 = true) (students db)) ≠ 0%nat);
    [lia|].
  apply map_size_ne_0_lookup. exists pk. exists row.
  by apply map_lookup_filter_Some.
Qed.

Lemma StudentProfile_save_occupancy db self room_pk :
  current_occupancy (StudentProfile_save db self).2 room_pk
  = current_occupancy
      (set_students db
         (<[StudentProfile.pk self := StudentProfile.row self]> (students db)))
      room_pk.
Proof.
  apply current_occupancy_students. by rewrite StudentProfile_save_students.
Qed.

(** What [StudentProfile.save] does to the table of rooms. *)
Lemma StudentProfile_save_rooms db self :
  rooms (StudentProfile_save db self).2 =
    match StudentProfile.room_obj self with
    | Some (room_pk, room) =>
        if decide (StudentProfile.is_active (StudentProfile.row self) = true ∧
                   Room.status room = Room.VACANT ∧
                   0 < current_occupancy (StudentProfile_save db self).2 room_pk)
        then <[room_pk := Room.set_status room Room.OCCUPIED]> (rooms db)
        else rooms db
    | None => rooms db
    end.
Proof.
  destruct (StudentProfile.room_obj self) as [[room_pk room]|] eqn:Hobj.
  - rewrite StudentProfile_save_occupancy.
    unfold StudentProfile_save. rewrite Hobj.
    destruct (StudentProfile.is_active _);
      repeat case_decide; try done; exfalso; destruct_and?;
      try congruence;
      match goal with H : ¬ _ |- _ => apply H; split_and!; (done || lia) end.
  - unfold StudentProfile_save. by rewrite Hobj.
Qed.

(** C6. Saving an active profile whose room is set: if afterwards the
    room has at least one active occupant and its status was vacant,
    the room's status afterwards is occupied; the stored profile refers
    to the requested room. The room always has an occupant then: the
    saved profile itself. *)
Theorem save_marks_room_occupied
    (db : Store) (self : StudentProfile.obj) (room_pk : Z) (room : Room.t) :
  room_loaded db self →
  StudentProfile.is_active (StudentProfile.row self) = true →
  StudentProfile.room_obj self = Some (room_pk, room) →
  let db' := (StudentProfile_save db self).2 in
  (1 ≤ current_occupancy db' room_pk →
   Room.status <$> rooms db !! room_pk = Some Room.VACANT →
   Room.status <$> rooms db' !! room_pk = Some Room.OCCUPIED) ∧
  1 ≤ current_occupancy db' room_pk ∧
  StudentProfile.room <$> students db' !! StudentProfile.pk self
    = Some (Some room_pk).
Proof.
  intros Hload Hact Hobj db'.
  destruct (room_loaded_Some _ _ _ _ Hload Hobj) as [Hrow Hroom].
  assert (1 ≤ current_occupancy db' room_pk) as Hocc.
  { subst db'. rewrite StudentProfile_save_occupancy.
    eapply current_occupancy_pos; [|done..]. simpl. apply lookup_insert_eq. }
  split; [|split; [done|]].
  - intros _ Hvac. rewrite Hroom in Hvac. simplify_eq/=.
    subst db'. rewrite StudentProfile_save_rooms, Hobj.
    rewrite decide_True by (split_and!; [done..|lia]).
    by rewrite lookup_insert_eq.
  - subst db'. rewrite StudentProfile_save_students, lookup_insert_eq.
    simpl. by rewrite Hrow.
Qed.

(** C10. Saving a profile that holds the room as it is stored changes
    no room except possibly the one the profile refers to, and that one
    only in its status, from vacant to occupied, which requires the
    profile to be active and the room to have an active occupant; with
    no room, or inactive, the table of rooms is the same. The rooms are
    compared on their six data columns. *)
Theorem save_changes_only_room_status
    (db : Store) (self : StudentProfile.obj) :
  room_loaded db self →
  let db' := (StudentProfile_save db self).2 in
  (∀ k : Z,
     rooms db' !! k = rooms db !! k ∨
     ∃ room : Room.t,
       rooms db !! k = Some room ∧
       rooms db' !! k = Some (Room.set_status room Room.OCCUPIED) ∧
       Room.status room = Room.VACANT ∧
       StudentProfile.room (StudentProfile.row self) = Some k ∧
       StudentProfile.is_active (StudentProfile.row self) = true ∧
       1 ≤ current_occupancy db' k) ∧
  (∀ (k : Z) (room' : Room.t),
     rooms db' !! k = Some room' →
     rooms db !! k ≠ Some room' →
     Room.status room' ≠ Room.VACANT ∧ Room.status room' ≠ Room.MAINTENANCE) ∧
  (StudentProfile.room (StudentProfile.row self) = None ∨
   StudentProfile.is_active (StudentProfile.row self) = false →
   rooms db' = rooms db).
Proof.
  intros Hload db'.
  assert (∀ k : Z,
     rooms db' !! k = rooms db !! k ∨
     ∃ room : Room.t,
       rooms db !! k = Some room ∧
       rooms db' !! k = Some (Room.set_status room Room.OCCUPIED) ∧
       Room.status room = Room.VACANT ∧
       StudentProfile.room (StudentProfile.row self) = Some k ∧
       StudentProfile.is_active (StudentProfile.row self) = true ∧
       1 ≤ current_occupancy db' k) as Hframe.
  { intros k. subst db'. rewrite StudentProfile_save_rooms.
    destruct (StudentProfile.room_obj self) as [[room_pk room]|] eqn:Hobj;
      [|by left].
    destruct (room_loaded_Some _ _ _ _ Hload Hobj) as [Hrow Hroom].
    case_decide as Hc; [|by left].
    destruct Hc as (Hact & Hvac & Hocc).
    destruct (decide (room_pk = k)) as [->|Hne].
    - right. exists room. rewrite lookup_insert_eq.
      split_and!; [done..|lia].
    - left. by rewrite lookup_insert_ne. }
  split; [done|]. split.
  - intros k room' Hk' Hk.
    destruct (Hframe k) as [Heq | (room & _ & Hset & _)]; [congruence|].
    rewrite Hk' in Hset. by simplify_eq/=.
  - intros Hnone. subst db'. rewrite StudentProfile_save_rooms.
    destruct (StudentProfile.room_obj self) as [[room_pk room]|] eqn:Hobj;
      [|done].
    destruct (room_loaded_Some _ _ _ _ Hload Hobj) as [Hrow Hroom].
    rewrite decide_False; [done|].
    intros (Hact & _). destruct Hnone; congruence.
Qed.

(** ** Fees *)

Lemma Fee_get_queryset_subseteq db req :
  FeeViewSet.get_queryset db req ⊆ fees db.
Proof.
  unfold FeeViewSet.get_queryset.
  etrans; [apply if_given_subseteq; intros; apply map_filter_subseteq|].
  etrans; [apply if_truthy_subseteq; intros; apply map_filter_subseteq|].
  destruct (_ && _); [apply map_filter_subseteq | done].
Qed.

Lemma Fee_get_object_stored db req pk fee :
  FeeViewSet.get_object db req pk = Some fee → fees db !! pk = Some fee.
Proof.
  intros H. eapply lookup_weaken; [exact H | apply Fee_get_queryset_subseteq].
Qed.

Lemma Fee_save_stored clk db pk fee :
  fees (Fee_save clk db pk fee).2 = <[pk := (Fee_save clk db pk fee).1]> (fees db).
Proof. done. Qed.

Lemma Fee_save_not_unpaid clk db pk fee :
  Fee.status fee ≠ Fee.UNPAID →
  Fee_save clk db pk fee = (fee, set_fees db (<[pk := fee]> (fees db))).
Proof.
  intros H. unfold Fee_save. rewrite decide_False; [done|]. by intros [? _].
Qed.

Lemma mark_paid_result clk db req pk method fee :
  check_permissions (FeeViewSet.get_permissions Action.mark_paid)
    (Request.user req) = true →
  FeeViewSet.get_object db req pk = Some fee →
  FeeViewSet.mark_paid clk db req pk method =
    (Response_data
       (paid_with fee (datetime_date (timezone_now clk)) (default "" method))
       HTTP_200_OK,
     set_fees db
       (<[pk := paid_with fee (datetime_date (timezone_now clk))
                  (default "" method)]> (fees db))).
Proof.
  intros Hperm Hobj. unfold FeeViewSet.mark_paid.
  rewrite initial_granted by done. rewrite Hobj.
  by rewrite Fee_save_not_unpaid.
Qed.

(** C7. On a fee in any status, [mark_paid] with method [m] answers
    with, and stores, the fee as paid, dated today, with method [m].
    Applied again to the result, with any method and at any time, it
    succeeds and overwrites the date and the method; with the same
    method on the same day it changes nothing. *)
Theorem mark_paid_overwrites
    (clk : Clock) (db : Store) (req : Request.t) (pk : Z)
    (method : option string) (fee : Fee.t) :
  check_permissions (FeeViewSet.get_permissions Action.mark_paid)
    (Request.user req) = true →
  FeeViewSet.get_object db req pk = Some fee →
  let today := datetime_date (timezone_now clk) in
  let first := FeeViewSet.mark_paid clk db req pk method in
  first.1 = Response_data (paid_with fee today (default "" method)) HTTP_200_OK ∧
  fees first.2 !! pk = Some (paid_with fee today (default "" method)) ∧
  ∀ (clk' : Clock) (req' : Request.t) (method' : option string),
    check_permissions (FeeViewSet.get_permissions Action.mark_paid)
      (Request.user req') = true →
    is_Some (FeeViewSet.get_object first.2 req' pk) →
    let today' := datetime_date (timezone_now clk') in
    let again := FeeViewSet.mark_paid clk' first.2 req' pk method' in
    again.1 = Response_data (paid_with fee today' (default "" method'))
                HTTP_200_OK ∧
    fees again.2 !! pk = Some (paid_with fee today' (default "" method')) ∧
    (today' = today → default "" method' = default "" method →
     again = first).
Proof.
  intros Hperm Hobj today first.
  assert (first = (Response_data (paid_with fee today (default "" method))
                     HTTP_200_OK,
                   set_fees db (<[pk := paid_with fee today (default "" method)]>
                                  (fees db)))) as Hfirst
    by by apply mark_paid_result.
  rewrite Hfirst. cbn [fst snd]. split; [done|].
  split; [simpl; by rewrite lookup_insert_eq|].
  intros clk' req' method' Hperm' [fee' Hobj'].
  assert (fee' = paid_with fee today (default "" method)) as ->.
  { apply Fee_get_object_stored in Hobj'. simpl in Hobj'.
    rewrite lookup_insert_eq in Hobj'. by simplify_eq. }
  rewrite (mark_paid_result _ _ _ _ _ _ Hperm' Hobj').
  cbn [fst snd]. split; [done|].
  split; [simpl; by rewrite lookup_insert_eq|].
  intros Hday Hmethod. rewrite Hday, Hmethod.
  unfold set_fees. simpl. by rewrite insert_insert_eq.
Qed.

(** C3, as the code has it. Every save at day [T] stores what it
    returns; an unpaid fee due strictly before [T] is stored as
    overdue; a paid fee is stored as it is, and a fee comes out overdue
    only if it went in overdue or unpaid and past due. A read answers
    with the stored record. *)
Theorem fee_save_restamps (clk : Clock) (db : Store) (pk : Z) (fee : Fee.t) :
  let today := datetime_date (timezone_now clk) in
  let saved := Fee_save clk db pk fee in
  fees saved.2 !! pk = Some saved.1 ∧
  (Fee.status fee = Fee.UNPAID → Fee.due_date fee < today →
   saved.1 = Fee.set_status fee Fee.OVERDUE) ∧
  (Fee.status fee = Fee.PAID → saved.1 = fee) ∧
  (Fee.status saved.1 = Fee.OVERDUE →
   Fee.status fee = Fee.OVERDUE ∨
   Fee.status fee = Fee.UNPAID ∧ Fee.due_date fee < today) ∧
  (∀ (req : Request.t) (k : Z) (read : Fee.t),
     FeeViewSet.retrieve db req k = Response_data read HTTP_200_OK →
     fees db !! k = Some read).
Proof.
  intros today saved. split_and!.
  - subst saved. by rewrite Fee_save_stored, lookup_insert_eq.
  - intros Hs Hd. subst saved. unfold Fee_save. by rewrite decide_True.
  - intros Hs. subst saved. rewrite Fee_save_not_unpaid; [done|congruence].
  - subst saved. unfold Fee_save. case_decide as Hc; simpl; [by right | by left].
  - intros req k read. unfold FeeViewSet.retrieve, initial.
    destruct (check_permissions _ _); [|done].
    destruct (FeeViewSet.get_object db req k) eqn:Hobj; [|done].
    intros ?; simplify_eq. by eapply Fee_get_object_stored.
Qed.

(** ** Role-scoped listing of fees *)

Lemma student_profile_Some db user pk profile :
  student_profile db user = Some (pk, profile) →
  students db !! pk = Some profile ∧ StudentProfile.user profile = User.id user.
Proof.
  unfold student_profile. intros H.
  apply head_Some_elem_of, elem_of_map_to_list in H.
  by apply map_lookup_filter_Some in H.
Qed.

Lemma check_IsAuthenticated user :
  check_permissions [IsAuthenticated] user = User.is_authenticated user.
Proof. simpl. by rewrite andb_true_r. Qed.

(** A student who has a profile is shown the fees of that profile only. *)
Lemma fee_list_of_student_with_profile db req profile_pk profile k fee :
  User.is_student (Request.user req) = true →
  student_profile db (Request.user req) = Some (profile_pk, profile) →
  FeeViewSet.get_queryset db req !! k = Some fee →
  Fee.student fee = profile_pk ∧
  students db !! Fee.student fee = Some profile ∧
  StudentProfile.user profile = User.id (Request.user req).
Proof.
  intros Hst Hprof Hk.
  destruct (student_profile_Some _ _ _ _ Hprof) as [Hrow Huser].
  assert (filter (λ kv : Z * Fee.t,
                    Some (Fee.student kv.2)
                    = fst <$> student_profile db (Request.user req))
                 (fees db) !! k = Some fee) as Hf.
  { eapply lookup_weaken; [exact Hk|]. unfold FeeViewSet.get_queryset.
    etrans; [apply if_given_subseteq; intros; apply map_filter_subseteq|].
    etrans; [apply if_truthy_subseteq; intros; apply map_filter_subseteq|].
    unfold hasattr_student_profile. rewrite Hst, Hprof.
    by rewrite bool_decide_eq_true_2. }
  apply map_lookup_filter_Some in Hf as [_ Hf]. rewrite Hprof in Hf.
  simpl in Hf. by simplify_eq.
Qed.

(** Without filters, a requester who is not a student is shown every fee. *)
Lemma fee_list_of_staff db req :
  User.is_authenticated (Request.user req) = true →
  User.is_student (Request.user req) = false →
  Request.params req = Request.no_params →
  FeeViewSet.list db req = Response_data (fees db) HTTP_200_OK.
Proof.
  intros Hauth Hst Hpar. unfold FeeViewSet.list.
  rewrite initial_granted by by rewrite check_IsAuthenticated.
  unfold FeeViewSet.get_queryset. by rewrite Hst, Hpar.
Qed.

(** The guard [user.is_student and hasattr(user, 'student_profile')] is
    false for a student without a profile: no restriction is applied. *)
Lemma fee_list_of_student_without_profile db req :
  User.is_authenticated (Request.user req) = true →
  student_profile db (Request.user req) = None →
  Request.params req = Request.no_params →
  FeeViewSet.list db req = Response_data (fees db) HTTP_200_OK.
Proof.
  intros Hauth Hprof Hpar. unfold FeeViewSet.list.
  rewrite initial_granted by by rewrite check_IsAuthenticated.
  unfold FeeViewSet.get_queryset, hasattr_student_profile.
  rewrite Hprof, Hpar. rewrite bool_decide_eq_false_2 by by intros [? ?].
  by rewrite andb_false_r.
Qed.

(** C4, at the input on which the code departs from it: a user with the
    student role and no profile lists the fees, and is answered with
    every fee of the store, among them one whose owning profile belongs
    to another user. *)
Theorem fee_list_student_without_profile_sees_all :
  User.role Sample.newcomer = User.STUDENT ∧
  student_profile Sample.db Sample.newcomer = None ∧
  FeeViewSet.list Sample.db (Sample.request Sample.newcomer)
    = Response_data (fees Sample.db) HTTP_200_OK ∧
  fees Sample.db !! 1 = Some Sample.fee_ali ∧
  students Sample.db !! Fee.student Sample.fee_ali = Some Sample.profile_ali ∧
  StudentProfile.user Sample.profile_ali ≠ User.id Sample.newcomer.
Proof. split_and!; [done | done | by vm_compute | done | done | done]. Qed.

(** ** Dashboard totals *)

Lemma total_where_perm P l1 l2 :
  l1 ≡ₚ l2 → total_where P l1 = total_where P l2.
Proof.
  induction 1 as [|[] ? ? ? IH|[] [] ?|? ? ? ? IH1 ? IH2]; simpl;
    [done | | | congruence].
  - by rewrite IH.
  - lia.
Qed.

Lemma total_where_filter (Q : Z * Fee.t → Prop) `{!∀ x, Decision (Q x)}
    (P : Fee.t → bool) (l : list (Z * Fee.t)) :
  (∀ kv, Q kv ↔ P kv.2 = true) →
  total_where (λ _, true) (filter Q l) = total_where P l.
Proof.
  intros HQ. induction l as [|[k fee] l IH]; [done|].
  rewrite filter_cons. simpl. destruct (P fee) eqn:HP.
  - rewrite decide_True by by apply HQ. simpl. by rewrite IH.
  - rewrite decide_False; [by rewrite IH|].
    intros HQ'%HQ. simpl in HQ'. congruence.
Qed.

Lemma map_fold_amount (m : gmap Z Fee.t) :
  map_fold (λ _ fee acc, Fee.amount fee + acc) 0 m
  = total_where (λ _, true) (map_to_list m).
Proof.
  rewrite map_fold_foldr.
  induction (map_to_list m) as [|[k fee] l IH]; [done|]. simpl. by rewrite IH.
Qed.

Lemma or_0_aggregate (m : gmap Z Fee.t) :
  hundredths (or_0 (aggregate_Sum_amount m))
  = Some (total_where (λ _, true) (map_to_list m)).
Proof.
  unfold aggregate_Sum_amount. case_decide as Hsize.
  - apply map_size_empty_iff in Hsize as ->. by rewrite map_to_list_empty.
  - simpl. rewrite map_fold_amount. case_decide as Hz; simpl; [|done].
    by rewrite Hz.
Qed.

Lemma default_aggregate (m : gmap Z Fee.t) :
  default 0 (aggregate_Sum_amount m)
  = total_where (λ _, true) (map_to_list m).
Proof.
  unfold aggregate_Sum_amount. case_decide as Hsize.
  - apply map_size_empty_iff in Hsize as ->. by rewrite map_to_list_empty.
  - simpl. apply map_fold_amount.
Qed.

Lemma default_aggregate_paid (db : Store) :
  default 0 (aggregate_Sum_amount
               (filter (λ kv : Z * Fee.t, Fee.status kv.2 = Fee.PAID) (fees db)))
  = paid_fees db.
Proof.
  rewrite default_aggregate. unfold paid_fees.
  rewrite (total_where_perm _ _ _ (map_to_list_filter_perm _ _)).
  apply total_where_filter. intros kv. by rewrite bool_decide_eq_true.
Qed.

Lemma to_representation_or_0 (max_digits : Z) (x : option Z) :
  DashboardStatsSerializer.to_representation
    (DashboardStatsSerializer.DecimalField max_digits) (or_0 x)
  = DashboardStatsSerializer.quantize max_digits (default 0 x).
Proof.
  destruct x as [d|]; [|done]. unfold or_0. case_decide; [by subst|done].
Qed.

Lemma staff_is_not_student user :
  User.role user ≠ User.STUDENT →
  User.is_student user = false ∧
  User.is_admin user || User.is_warden user = true.
Proof.
  intros Hrole. unfold User.is_student, User.is_admin, User.is_warden.
  by destruct (User.role user).
Qed.

(** The dictionary built for an admin or a warden has the eleven keys
    of the serializer. *)
Lemma dashboard_stats_dict_staff clk db user :
  User.role user ≠ User.STUDENT →
  dashboard_stats_dict clk db user =
  list_to_map [
    ("pending_fees",
       VInt (count (filter (λ kv : Z * Fee.t,
                              Fee.status kv.2 = Fee.UNPAID ∨
                              Fee.status kv.2 = Fee.OVERDUE) (fees db))));
    ("total_fees_amount", or_0 (aggregate_Sum_amount (fees db)));
    ("paid_fees_amount",
       or_0 (aggregate_Sum_amount
               (filter (λ kv : Z * Fee.t, Fee.status kv.2 = Fee.PAID)
                       (fees db))));
    ("todays_visitors",
       VInt (count (filter (λ kv : Z * Visitor.t,
                              datetime_date (Visitor.in_time kv.2)
                              = date_today clk) (visitors db))));
    ("pending_complaints",
       VInt (count (filter (λ kv : Z * Complaint.t,
                              Complaint.status kv.2 = Complaint.PENDING)
                           (complaints db))));
    ("todays_attendance",
       VInt (count (filter (λ kv : Z * Attendance.t,
                              Attendance.date kv.2 = date_today clk ∧
                              Attendance.status kv.2 = Attendance.PRESENT)
                           (attendance db))))
  ] ∪ list_to_map [
    ("total_rooms", VInt (count (rooms db)));
    ("occupied_rooms",
       VInt (count (filter (λ kv : Z * Room.t,
                              Room.status kv.2 = Room.OCCUPIED) (rooms db))));
    ("available_rooms",
       VInt (count (filter (λ kv : Z * Room.t,
                              Room.status kv.2 = Room.VACANT) (rooms db))));
    ("total_students", VInt (count (students db)));
    ("active_students",
       VInt (count (filter (λ kv : Z * StudentProfile.t,
                              StudentProfile.is_active kv.2 = true)
                           (students db))))
  ].
Proof.
  intros Hrole. destruct (staff_is_not_student _ Hrole) as [Hstudent Hstaff].
  unfold dashboard_stats_dict. by rewrite Hstudent, Hstaff.
Qed.

(** What an admin or a warden is answered: the eleven counters as
    rendered, when both sums can be written with ten digits, and
    otherwise the exception of the decimal field. *)
Lemma dashboard_stats_staff clk db req :
  User.is_authenticated (Request.user req) = true →
  User.role (Request.user req) ≠ User.STUDENT →
  dashboard_stats clk db req =
  if decide (totals_fit db) then
    Response_data
      (list_to_map [
         ("total_rooms", VInt (count (rooms db)));
         ("occupied_rooms",
            VInt (count (filter (λ kv : Z * Room.t,
                                   Room.status kv.2 = Room.OCCUPIED) (rooms db))));
         ("available_rooms",
            VInt (count (filter (λ kv : Z * Room.t,
                                   Room.status kv.2 = Room.VACANT) (rooms db))));
         ("total_students", VInt (count (students db)));
         ("active_students",
            VInt (count (filter (λ kv : Z * StudentProfile.t,
                                   StudentProfile.is_active kv.2 = true)
                                (students db))));
         ("pending_fees",
            VInt (count (filter (λ kv : Z * Fee.t,
                                   Fee.status kv.2 = Fee.UNPAID ∨
                                   Fee.status kv.2 = Fee.OVERDUE) (fees db))));
         ("total_fees_amount", VDecimal (total_fees db));
         ("paid_fees_amount", VDecimal (paid_fees db));
         ("todays_visitors",
            VInt (count (filter (λ kv : Z * Visitor.t,
                                   datetime_date (Visitor.in_time kv.2)
                                   = date_today clk) (visitors db))));
         ("pending_complaints",
            VInt (count (filter (λ kv : Z * Complaint.t,
                                   Complaint.status kv.2 = Complaint.PENDING)
                                (complaints db))));
         ("todays_attendance",
            VInt (count (filter (λ kv : Z * Attendance.t,
                                   Attendance.date kv.2 = date_today clk ∧
                                   Attendance.status kv.2 = Attendance.PRESENT)
                                (attendance db))))
       ])
      HTTP_200_OK
  else ServerError "InvalidOperation".
Proof.
  intros Hauth Hrole. unfold dashboard_stats.
  rewrite initial_granted by by rewrite check_IsAuthenticated.
  cbv zeta. rewrite dashboard_stats_dict_staff by done.
  unfold DashboardStatsSerializer.data, DashboardStatsSerializer.fields.
  cbn [DashboardStatsSerializer.render].
  dict_lookup. cbn [union option_union union_with option_union_with].
  rewrite !to_representation_or_0, default_aggregate, default_aggregate_paid.
  cbn [DashboardStatsSerializer.to_representation].
  fold (total_fees db). unfold DashboardStatsSerializer.quantize, totals_fit.
  destruct (decide (Z.abs (total_fees db) < 10 ^ 10)) as [Htotal|Htotal];
    destruct (decide (Z.abs (paid_fees db) < 10 ^ 10)) as [Hpaid|Hpaid].
  - by rewrite decide_True by done.
  - by rewrite decide_False by (by intros []).
  - by rewrite decide_False by (by intros []).
  - by rewrite decide_False by (by intros []).
Qed.

(** When both sums can be written with ten digits, the admin is shown
    the sum of [amount] over all fees and the sum over exactly the paid
    ones, zero over no fee. *)
Lemma dashboard_fee_totals_rendered (clk : Clock) (db : Store) (req : Request.t) :
  User.is_authenticated (Request.user req) = true →
  User.role (Request.user req) = User.ADMIN →
  totals_fit db →
  ∃ stats : gmap string Value,
    dashboard_stats clk db req = Response_data stats HTTP_200_OK ∧
    stats !! "total_fees_amount" = Some (VDecimal (total_fees db)) ∧
    stats !! "paid_fees_amount" = Some (VDecimal (paid_fees db)) ∧
    (fees db = ∅ → total_fees db = 0) ∧
    (filter (λ kv : Z * Fee.t, Fee.status kv.2 = Fee.PAID) (fees db) = ∅ →
     paid_fees db = 0).
Proof.
  intros Hauth Hrole Hfit.
  rewrite dashboard_stats_staff by (done || by rewrite Hrole).
  rewrite decide_True by done.
  eexists. split; [reflexivity|]. split_and!.
  - by dict_lookup.
  - by dict_lookup.
  - intros Hempty. unfold total_fees. by rewrite Hempty, map_to_list_empty.
  - intros Hempty. by rewrite <- default_aggregate_paid, Hempty.
Qed.

(** C8. Two fees of 99999999.99 are stored, each an amount the model
    accepts. Their sum, 199999999.98, has eleven digits; the decimal
    field of the serializer is declared with ten, and the admin's
    request ends in the exception [InvalidOperation] where the sum was
    to be shown. On the sample store, whose sums have ten digits or
    fewer, the admin is shown both sums. *)
Theorem dashboard_fee_totals_overflow :
  fees Sample.db_largest_fees
  = {[ 1 := Sample.fee_largest 1; 2 := Sample.fee_largest 2 ]} ∧
  Z.abs (Fee.amount (Sample.fee_largest 1)) < 10 ^ 10 ∧
  Z.abs (Fee.amount (Sample.fee_largest 2)) < 10 ^ 10 ∧
  total_fees Sample.db_largest_fees = 19999999998 ∧
  dashboard_stats Sample.clock Sample.db_largest_fees
    (Sample.request Sample.admin)
  = ServerError "InvalidOperation" ∧
  ∃ stats : gmap string Value,
    dashboard_stats Sample.clock Sample.db (Sample.request Sample.admin)
    = Response_data stats HTTP_200_OK ∧
    stats !! "total_fees_amount" = Some (VDecimal 2700050) ∧
    stats !! "paid_fees_amount" = Some (VDecimal 1200050).
Proof.
  split_and!; [done | done | done | by vm_compute | |].
  - rewrite dashboard_stats_staff by done.
    apply decide_False. intros [Htotal _]. by vm_compute in Htotal.
  - destruct (dashboard_fee_totals_rendered Sample.clock Sample.db
                (Sample.request Sample.admin))
      as (stats & Hstats & Htotal & Hpaid & _);
      [done | done | by vm_compute |].
    exists stats. split; [done|]. split.
    + rewrite Htotal. by vm_compute.
    + rewrite Hpaid. by vm_compute.
Qed.

(** ** Filters outside the enumerations *)

Lemma if_truthy_Some {Q} (s : string) (f : string → Q → Q) (queryset : Q) :
  s ≠ "" → if_truthy (Some s) f queryset = f s queryset.
Proof. intros Hs. unfold if_truthy. by rewrite decide_False. Qed.

Lemma filter_nothing {A} (P : Z * A → Prop) `{!∀ x, Decision (P x)}
    (m : gmap Z A) :
  (∀ kv, ¬ P kv) → filter P m = ∅.
Proof. intros HP. apply map_empty_filter. intros k x _. apply HP. Qed.

Lemma if_truthy_empty {A} (value : option string)
    (f : string → gmap Z A → gmap Z A) :
  (∀ s, f s ∅ = ∅) → if_truthy value f ∅ = ∅.
Proof.
  intros Hf. unfold if_truthy. destruct value; [|done]. by case_decide.
Qed.

Lemma if_given_empty {V A} (value : option V)
    (f : V → gmap Z A → gmap Z A) :
  (∀ v, f v ∅ = ∅) → if_given value f ∅ = ∅.
Proof. intros Hf. unfold if_given. by destruct value. Qed.

(** C9, as the code has it. A non-empty filter value that is no member
    of the enumeration is compared with the stored values like any
    other: the list request succeeds, and selects nothing. *)
Theorem out_of_domain_filter_selects_nothing
    (db : Store) (req : Request.t) (s : string) :
  User.is_authenticated (Request.user req) = true →
  s ≠ "" →
  (Request.status (Request.params req) = Some s →
   (∀ v, Room.status_value v ≠ s) →
   RoomViewSet.list db req = Response_data ∅ HTTP_200_OK) ∧
  (Request.type (Request.params req) = Some s →
   (∀ v, Room.room_type_value v ≠ s) →
   RoomViewSet.list db req = Response_data ∅ HTTP_200_OK) ∧
  (Request.status (Request.params req) = Some s →
   (∀ v, Fee.status_value v ≠ s) →
   FeeViewSet.list db req = Response_data ∅ HTTP_200_OK) ∧
  (Request.status (Request.params req) = Some s →
   (∀ v, Attendance.status_value v ≠ s) →
   AttendanceViewSet.list db req = Response_data ∅ HTTP_200_OK) ∧
  (Request.status (Request.params req) = Some s →
   (∀ v, Complaint.status_value v ≠ s) →
   ComplaintViewSet.list db req = Response_data ∅ HTTP_200_OK) ∧
  (Request.fee_status (Request.params req) = Some s →
   (∀ v, Fee.status_value v ≠ s) →
   StudentProfileViewSet.list db req = Response_data ∅ HTTP_200_OK).
Proof.
  intros Hauth Hs.
  assert (check_permissions [IsAuthenticated] (Request.user req) = true)
    as Hperm by by rewrite check_IsAuthenticated.
  split_and!; intros Hparam Hout.
  - unfold RoomViewSet.list. rewrite initial_granted by done. f_equal.
    unfold RoomViewSet.get_queryset. rewrite Hparam, if_truthy_Some by done.
    rewrite filter_nothing by (intros kv; apply Hout).
    apply if_truthy_empty. intros. apply map_filter_empty.
  - unfold RoomViewSet.list. rewrite initial_granted by done. f_equal.
    unfold RoomViewSet.get_queryset. rewrite Hparam.
    rewrite (if_truthy_Some s) by done.
    apply filter_nothing. intros kv. apply Hout.
  - unfold FeeViewSet.list. rewrite initial_granted by done. f_equal.
    unfold FeeViewSet.get_queryset. rewrite Hparam, if_truthy_Some by done.
    rewrite filter_nothing by (intros kv; apply Hout).
    apply if_given_empty. intros. apply map_filter_empty.
  - unfold AttendanceViewSet.list. rewrite initial_granted by done. f_equal.
    unfold AttendanceViewSet.get_queryset. rewrite Hparam.
    rewrite (if_truthy_Some s) by done.
    apply filter_nothing. intros kv. apply Hout.
  - unfold ComplaintViewSet.list. rewrite initial_granted by done. f_equal.
    unfold ComplaintViewSet.get_queryset.
    rewrite Hparam, if_truthy_Some by done.
    rewrite filter_nothing by (intros kv; apply Hout).
    apply if_given_empty. intros. apply map_filter_empty.
  - unfold StudentProfileViewSet.list. rewrite initial_granted by done. f_equal.
    unfold StudentProfileViewSet.get_queryset. rewrite Hparam.
    rewrite (if_truthy_Some s) by done.
    apply filter_nothing. intros kv (k & fee & _ & _ & Hfee).
    by apply (Hout (Fee.status fee)).
Qed.

(** ** What a warden may do *)

Lemma has_permission_warden user :
  User.is_authenticated user = true →
  User.role user = User.WARDEN →
  has_permission IsAuthenticated user = true ∧
  has_permission IsAdminOrWarden user = true ∧
  has_permission IsAdmin user = false.
Proof.
  intros Hauth Hrole. unfold has_permission, User.is_admin, User.is_warden.
  by rewrite Hauth, Hrole.
Qed.

Lemma check_single p user :
  check_permissions [p] user = has_permission p user.
Proof. unfold check_permissions. simpl. by rewrite andb_true_r. Qed.

(** C5, as the code has it. For an authenticated warden: without
    filters, the list of every entity but the contact messages is the
    whole table, and the list of contact messages is refused; the
    create, update and partial-update actions on attendance and on
    visitors pass the permission check, and resolving a complaint the
    view resolves succeeds; the create, update, partial-update and
    destroy actions on rooms, student profiles, fees and mess menus are
    refused before their handler runs. *)
Theorem warden_access (clk : Clock) (db : Store) (req : Request.t) :
  User.is_authenticated (Request.user req) = true →
  User.role (Request.user req) = User.WARDEN →
  (Request.params req = Request.no_params →
   RoomViewSet.list db req = Response_data (rooms db) HTTP_200_OK ∧
   StudentProfileViewSet.list db req = Response_data (students db) HTTP_200_OK ∧
   FeeViewSet.list db req = Response_data (fees db) HTTP_200_OK ∧
   AttendanceViewSet.list db req = Response_data (attendance db) HTTP_200_OK ∧
   VisitorViewSet.list clk db req = Response_data (visitors db) HTTP_200_OK ∧
   ComplaintViewSet.list db req = Response_data (complaints db) HTTP_200_OK ∧
   MessMenuViewSet.list db req = Response_data (mess_menus db) HTTP_200_OK) ∧
  ContactMessageViewSet.list db req = PermissionDenied ∧
  (∀ action : Action.t,
     action ∈ [Action.create; Action.update; Action.partial_update] →
     check_permissions (AttendanceViewSet.get_permissions action)
       (Request.user req) = true ∧
     check_permissions (VisitorViewSet.get_permissions action)
       (Request.user req) = true) ∧
  (∀ (pk : Z) (complaint : Complaint.t) (notes : option string),
     ComplaintViewSet.get_object db req pk = Some complaint →
     (ComplaintViewSet.resolve db req pk notes).1
     = Response_data
         (Complaint.set_resolved complaint (User.id (Request.user req))
            (default "" notes))
         HTTP_200_OK) ∧
  (∀ action : Action.t,
     action ∈ [Action.create; Action.update; Action.partial_update;
               Action.destroy] →
     ∀ (R : Type) (denied handler : R),
       initial (RoomViewSet.get_permissions action) req denied handler
         = denied ∧
       initial (StudentProfileViewSet.get_permissions action) req denied handler
         = denied ∧
       initial (FeeViewSet.get_permissions action) req denied handler
         = denied ∧
       initial (MessMenuViewSet.get_permissions action) req denied handler
         = denied).
Proof.
  intros Hauth Hrole.
  destruct (has_permission_warden _ Hauth Hrole) as (Hany & Hstaff & Hadmin).
  assert (User.is_student (Request.user req) = false) as Hstudent
    by (unfold User.is_student; by rewrite Hrole).
  assert (check_permissions [IsAuthenticated] (Request.user req) = true)
    as Hperm by by rewrite check_IsAuthenticated.
  split_and!.
  - intros Hpar. split_and!.
    + unfold RoomViewSet.list. rewrite initial_granted by done.
      unfold RoomViewSet.get_queryset. by rewrite Hpar.
    + unfold StudentProfileViewSet.list. rewrite initial_granted by done.
      unfold StudentProfileViewSet.get_queryset. by rewrite Hstudent, Hpar.
    + by apply fee_list_of_staff.
    + unfold AttendanceViewSet.list. rewrite initial_granted by done.
      unfold AttendanceViewSet.get_queryset. by rewrite Hstudent, Hpar.
    + unfold VisitorViewSet.list. rewrite initial_granted by done.
      unfold VisitorViewSet.get_queryset. by rewrite Hstudent, Hpar.
    + unfold ComplaintViewSet.list. rewrite initial_granted by done.
      unfold ComplaintViewSet.get_queryset. by rewrite Hstudent, Hpar.
    + unfold MessMenuViewSet.list. rewrite initial_granted by done.
      unfold MessMenuViewSet.get_queryset. by rewrite Hpar.
  - unfold ContactMessageViewSet.list. apply initial_refused.
    unfold ContactMessageViewSet.get_permissions. by rewrite check_single.
  - intros action Hin. repeat (apply elem_of_cons in Hin as [->|Hin]);
      [..|by apply elem_of_nil in Hin];
      unfold AttendanceViewSet.get_permissions,
        VisitorViewSet.get_permissions; by rewrite check_single.
  - intros pk complaint notes Hobj. unfold ComplaintViewSet.resolve.
    rewrite initial_granted by done. by rewrite Hobj.
  - intros action Hin R denied handler.
    repeat (apply elem_of_cons in Hin as [->|Hin]);
      [..|by apply elem_of_nil in Hin];
      split_and!; apply initial_refused;
      unfold RoomViewSet.get_permissions,
        StudentProfileViewSet.get_permissions, FeeViewSet.get_permissions,
        MessMenuViewSet.get_permissions; by rewrite check_single.
Qed.

(** The extra actions are not among the actions of the last part: the
    overrides of [get_permissions] answer [IsAuthenticated] for them. *)
Lemma extra_actions_ask_for_authentication_only user :
  User.is_authenticated user = true →
  check_permissions (RoomViewSet.get_permissions Action.update_status) user
    = true ∧
  check_permissions (StudentProfileViewSet.get_permissions Action.assign_room)
    user = true ∧
  check_permissions (FeeViewSet.get_permissions Action.mark_paid) user = true ∧
  check_permissions (ComplaintViewSet.get_permissions Action.resolve) user
    = true.
Proof.
  intros Hauth. rewrite <- (check_IsAuthenticated user) in Hauth. done.
Qed.

(** ** Attendance: one record per student and day *)

Lemma unique_together_conflict_true table instance attrs :
  unique_together_conflict table instance attrs = true ↔
  ∃ (k : Z) (row : Attendance.t),
    table !! k = Some row ∧ Some k ≠ instance ∧
    Attendance.student row = Attendance.student attrs ∧
    Attendance.date row = Attendance.date attrs.
Proof.
  unfold unique_together_conflict, Attendance.unique_together.
  rewrite bool_decide_eq_true, Exists_cons, Exists_nil.
  unfold map_Exists. split.
  - intros [(k & row & Hk & Hne & Hall)|[]]. exists k, row.
    apply Forall_cons in Hall as [Hstudent Hall].
    apply Forall_cons in Hall as [Hdate _]. done.
  - intros (k & row & Hk & Hne & Hstudent & Hdate). left. exists k, row.
    split_and!; [done..|]. by repeat constructor.
Qed.

Lemma unique_together_conflict_false table instance attrs :
  unique_together_conflict table instance attrs = false ↔
  ∀ (k : Z) (row : Attendance.t),
    table !! k = Some row → Some k ≠ instance →
    Attendance.student row = Attendance.student attrs →
    Attendance.date row = Attendance.date attrs → False.
Proof.
  rewrite <- not_true_iff_false, unique_together_conflict_true. split.
  - intros Hnone k row ? ? ? ?. apply Hnone. by exists k, row.
  - intros Hall (k & row & ? & ? & ? & ?). by eapply Hall.
Qed.

Lemma attendance_unique_insert_new table pk row :
  attendance_unique table →
  table !! pk = None →
  unique_together_conflict table None row = false →
  attendance_unique (<[pk := row]> table).
Proof.
  intros Huniq Hnew Hfree i j a b Hi Hj Hs Hd.
  pose proof (proj1 (unique_together_conflict_false _ _ _) Hfree) as Hno.
  clear Hfree; rename Hno into Hfree.
  destruct (decide (i = pk)) as [->|Hi'], (decide (j = pk)) as [->|Hj'];
    [done|..].
  - rewrite lookup_insert_eq in Hi. rewrite lookup_insert_ne in Hj by done.
    simplify_eq. by destruct (Hfree j b).
  - rewrite lookup_insert_eq in Hj. rewrite lookup_insert_ne in Hi by done.
    simplify_eq. by destruct (Hfree i a).
  - rewrite lookup_insert_ne in Hi, Hj by done. by eapply Huniq.
Qed.

Lemma attendance_unique_insert_same table pk row :
  attendance_unique table →
  unique_together_conflict table (Some pk) row = false →
  attendance_unique (<[pk := row]> table).
Proof.
  intros Huniq Hfree i j a b Hi Hj Hs Hd.
  pose proof (proj1 (unique_together_conflict_false _ _ _) Hfree) as Hno.
  clear Hfree; rename Hno into Hfree.
  destruct (decide (i = pk)) as [->|Hi'], (decide (j = pk)) as [->|Hj'];
    [done|..].
  - rewrite lookup_insert_eq in Hi. rewrite lookup_insert_ne in Hj by done.
    simplify_eq. destruct (Hfree j b); [done|congruence|done..].
  - rewrite lookup_insert_eq in Hj. rewrite lookup_insert_ne in Hi by done.
    simplify_eq. destruct (Hfree i a); [done|congruence|done..].
  - rewrite lookup_insert_ne in Hi, Hj by done. by eapply Huniq.
Qed.

Lemma attendance_unique_delete table pk :
  attendance_unique table → attendance_unique (delete pk table).
Proof.
  intros Huniq i j a b Hi%lookup_delete_Some Hj%lookup_delete_Some.
  destruct Hi, Hj. by eapply Huniq.
Qed.

Lemma field_errors_nil db data :
  is_Some (students db !! AttendanceData.student data) →
  marked_by_known db data →
  AttendanceSerializer.field_errors db data = [].
Proof.
  intros [profile Hst] Hknown. unfold AttendanceSerializer.field_errors.
  rewrite decide_False by by rewrite Hst.
  destruct (AttendanceData.marked_by data) as [[user|]|] eqn:Hby; [|done..].
  by rewrite decide_True by by apply Hknown.
Qed.

Lemma field_errors_marked_by db data user :
  is_Some (students db !! AttendanceData.student data) →
  AttendanceData.marked_by data = Some (Some user) →
  user ∉ users db →
  AttendanceSerializer.field_errors db data = ["marked_by"].
Proof.
  intros [profile Hst] Hby Hunknown. unfold AttendanceSerializer.field_errors.
  rewrite decide_False by by rewrite Hst.
  rewrite Hby. by rewrite decide_False.
Qed.

Lemma create_preserves_unique clk db req data :
  attendance_unique (attendance db) →
  attendance_unique (attendance (AttendanceViewSet.create clk db req data).2).
Proof.
  intros Huniq. unfold AttendanceViewSet.create, initial.
  destruct (check_permissions _ _); [|done].
  destruct (AttendanceSerializer.field_errors db data); [|done].
  destruct (unique_together_conflict _ _ _) eqn:Hfree; [done|].
  cbn [fst snd]. unfold AttendanceViewSet.perform_create. cbn [fst snd].
  simpl attendance.
  apply attendance_unique_insert_new; [done| |done].
  apply not_elem_of_dom, is_fresh.
Qed.

Lemma update_preserves_unique clk db req pk data :
  attendance_unique (attendance db) →
  attendance_unique
    (attendance (AttendanceViewSet.update clk db req pk data).2).
Proof.
  intros Huniq. unfold AttendanceViewSet.update, initial.
  destruct (check_permissions _ _); [|done].
  destruct (AttendanceViewSet.get_object _ _ _); [|done].
  destruct (AttendanceSerializer.field_errors db data); [|done].
  destruct (unique_together_conflict _ _ _) eqn:Hfree; [done|]. simpl.
  by apply attendance_unique_insert_same.
Qed.

Lemma destroy_preserves_unique db req pk :
  attendance_unique (attendance db) →
  attendance_unique (attendance (AttendanceViewSet.destroy db req pk).2).
Proof.
  intros Huniq. unfold AttendanceViewSet.destroy, initial.
  destruct (check_permissions _ _); [|done].
  destruct (AttendanceViewSet.get_object _ _ _); [|done]. simpl.
  by apply attendance_unique_delete.
Qed.

Lemma reachable_unique db :
  attendance_reachable db → attendance_unique (attendance db).
Proof.
  induction 1 as [db Hdb| | | |db db' _ IH Heq].
  - rewrite Hdb. intros i j a b Hi. by rewrite lookup_empty in Hi.
  - by apply create_preserves_unique.
  - by apply update_preserves_unique.
  - by apply destroy_preserves_unique.
  - by rewrite Heq.
Qed.

(** C2. In every store the attendance endpoints can produce, no two
    records share student and date; creating a record for a pair that a
    stored record already has (the date being the one sent, or the
    present day when none is sent) does not succeed and leaves the
    store as it was, whatever the answer. For a permitted request
    naming an existing student the answer is the uniqueness error,
    unless [marked_by] names no user, which is refused before
    uniqueness is looked at. *)
Theorem attendance_unique_per_student_and_day
    (clk : Clock) (db : Store) (req : Request.t) (data : AttendanceData.t)
    (k : Z) (row : Attendance.t) :
  attendance_reachable db →
  attendance db !! k = Some row →
  Attendance.student row = AttendanceData.student data →
  Attendance.date row = AttendanceSerializer.validated_date clk data →
  let result := AttendanceViewSet.create clk db req data in
  attendance_unique (attendance db) ∧
  succeeds result.1 = false ∧
  result.2 = db ∧
  attendance result.2 !! k = Some row ∧
  (check_permissions (AttendanceViewSet.get_permissions Action.create)
     (Request.user req) = true →
   is_Some (students db !! AttendanceData.student data) →
   (marked_by_known db data →
    result.1 = ValidationError "unique" ["student"; "date"]) ∧
   (∀ user : Z,
      AttendanceData.marked_by data = Some (Some user) → user ∉ users db →
      result.1 = ValidationError "does_not_exist" ["marked_by"])).
Proof.
  intros Hreach Hk Hs Hd result.
  split; [by apply reachable_unique|].
  assert (unique_together_conflict (attendance db) None
            (AttendanceSerializer.create_attrs clk data) = true) as Hc.
  { apply unique_together_conflict_true. by exists k, row. }
  subst result. unfold AttendanceViewSet.create, initial.
  destruct (check_permissions _ _); [|done].
  destruct (AttendanceSerializer.field_errors db data) as [|field errors]
    eqn:Herrors.
  - rewrite Hc. split_and!; [done..|]. intros _ Hst. split; [done|].
    intros user Hby Hunknown.
    by rewrite (field_errors_marked_by _ _ _ Hst Hby Hunknown) in Herrors.
  - split_and!; [done..|]. intros _ Hst. split.
    + intros Hknown. by rewrite field_errors_nil in Herrors.
    + intros user Hby Hunknown.
      rewrite (field_errors_marked_by _ _ _ Hst Hby Hunknown) in Herrors.
      by simplify_eq.
Qed.

(** ** The statements at work on the sample store *)

(** Room 101 is vacant, has one place and no occupant: the assignment
    of Ali to it succeeds. *)
Lemma assign_room_iff_available_witness :
  check_permissions
    (StudentProfileViewSet.get_permissions Action.assign_room)
    (Request.user (Sample.request Sample.admin)) = true ∧
  StudentProfileViewSet.get_object Sample.db (Sample.request Sample.admin) 1
    = Some Sample.ali_loaded ∧
  rooms Sample.db !! 1 = Some Sample.room_101 ∧
  succeeds (StudentProfileViewSet.assign_room Sample.db
              (Sample.request Sample.admin) 1 (Some 1)).1
    = is_available Sample.db 1 Sample.room_101.
Proof.
  split_and!; [reflexivity..|].
  exact (proj1 (proj2 (assign_room_iff_available Sample.db
    (Sample.request Sample.admin) 1 1 Sample.ali_loaded Sample.room_101
    eq_refl eq_refl eq_refl))).
Defined.

(** The warden marks Ali present on day 20; marking him again for that
    day is refused. *)
Lemma attendance_unique_per_student_and_day_witness :
  let db := (AttendanceViewSet.create Sample.clock Sample.db_unmarked
               (Sample.request Sample.warden) Sample.mark_ali).2 in
  attendance db !! 0 = Some Sample.attendance_ali ∧
  (AttendanceViewSet.create Sample.clock db (Sample.request Sample.warden)
     Sample.mark_ali).1
    = ValidationError "unique" ["student"; "date"].
Proof.
  split; [reflexivity|].
  refine (proj1 (proj2 (proj2 (proj2 (proj2
    (attendance_unique_per_student_and_day Sample.clock _
       (Sample.request Sample.warden) Sample.mark_ali 0
       Sample.attendance_ali
       (reachable_create Sample.clock Sample.db_unmarked
          (Sample.request Sample.warden) Sample.mark_ali
          (reachable_empty Sample.db_unmarked eq_refl))
       eq_refl eq_refl eq_refl)))) eq_refl _) _).
  - exists Sample.profile_ali. reflexivity.
  - intros user Hby. discriminate Hby.
Defined.

(** Day 20 is past the due day 10 of Ali's unpaid fee. *)
Lemma fee_save_restamps_witness :
  (Fee_save Sample.clock Sample.db 1 Sample.fee_ali).1
    = Fee.set_status Sample.fee_ali Fee.OVERDUE.
Proof.
  refine (proj1 (proj2 (fee_save_restamps Sample.clock Sample.db 1
                          Sample.fee_ali)) eq_refl _).
  reflexivity.
Defined.

Lemma save_marks_room_occupied_witness :
  let self := StudentProfile.assign Sample.ali_loaded 1 Sample.room_101 in
  room_loaded Sample.db self ∧
  Room.status <$> rooms (StudentProfile_save Sample.db self).2 !! 1
    = Some Room.OCCUPIED.
Proof.
  split; [reflexivity|].
  refine (proj1 (save_marks_room_occupied Sample.db
    (StudentProfile.assign Sample.ali_loaded 1 Sample.room_101) 1
    Sample.room_101 eq_refl eq_refl eq_refl) _ eq_refl).
  vm_compute. discriminate.
Defined.

Lemma mark_paid_overwrites_witness :
  FeeViewSet.get_object Sample.db (Sample.request Sample.admin) 1
    = Some Sample.fee_ali ∧
  (FeeViewSet.mark_paid Sample.clock Sample.db (Sample.request Sample.admin) 1
     (Some "Cash")).1
    = Response_data (paid_with Sample.fee_ali 20 "Cash") HTTP_200_OK.
Proof.
  split; [reflexivity|].
  exact (proj1 (mark_paid_overwrites Sample.clock Sample.db
    (Sample.request Sample.admin) 1 (Some "Cash") Sample.fee_ali
    eq_refl eq_refl)).
Defined.

Lemma out_of_domain_filter_selects_nothing_witness :
  FeeViewSet.list Sample.db (Sample.request_with_status Sample.admin "bogus")
    = Response_data ∅ HTTP_200_OK ∧
  RoomViewSet.list Sample.db (Sample.request_with_status Sample.admin "bogus")
    = Response_data ∅ HTTP_200_OK.
Proof.
  pose proof (out_of_domain_filter_selects_nothing Sample.db
    (Sample.request_with_status Sample.admin "bogus") "bogus" eq_refl)
    as Hthm.
  destruct Hthm as (Hroom & _ & Hfee & _); [discriminate|].
  split.
  - apply Hfee; [reflexivity|]. intros []; discriminate.
  - apply Hroom; [reflexivity|]. intros []; discriminate.
Defined.

Lemma warden_access_witness :
  FeeViewSet.list Sample.db (Sample.request Sample.warden)
    = Response_data (fees Sample.db) HTTP_200_OK ∧
  initial (FeeViewSet.get_permissions Action.update)
    (Sample.request Sample.warden) (@PermissionDenied Fee.t)
    (Response_data Sample.fee_ali HTTP_200_OK)
    = PermissionDenied.
Proof.
  pose proof (warden_access Sample.clock Sample.db
                (Sample.request Sample.warden) eq_refl eq_refl)
    as (Hread & _ & _ & _ & Hwrite).
  split.
  - apply Hread. reflexivity.
  - apply Hwrite. by repeat constructor.
Defined.

Lemma save_changes_only_room_status_witness :
  let self := StudentProfile.assign Sample.ali_loaded 1 Sample.room_101 in
  room_loaded Sample.db self ∧
  rooms (StudentProfile_save Sample.db self).2 !! 2 = rooms Sample.db !! 2.
Proof.
  split; [reflexivity|].
  destruct (proj1 (save_changes_only_room_status Sample.db
              (StudentProfile.assign Sample.ali_loaded 1 Sample.room_101)
              eq_refl) 2) as [Hsame | (room & _ & _ & _ & Hrow & _)].
  - exact Hsame.
  - discriminate Hrow.
Defined.

(** ** Where the code departs from the specification *)

(** C3. Reading does not re-stamp: on day 20 the admin retrieves, and
    lists, Ali's fee, unpaid and due on day 10, and is answered with
    the record as stored, unpaid. *)
Lemma fee_read_keeps_unpaid :
  Fee.status Sample.fee_ali = Fee.UNPAID ∧
  Fee.due_date Sample.fee_ali < datetime_date (timezone_now Sample.clock) ∧
  FeeViewSet.retrieve Sample.db (Sample.request Sample.admin) 1
    = Response_data Sample.fee_ali HTTP_200_OK ∧
  FeeViewSet.list Sample.db (Sample.request Sample.admin)
    = Response_data (fees Sample.db) HTTP_200_OK ∧
  fees Sample.db !! 1 = Some Sample.fee_ali ∧
  Fee.status Sample.fee_ali ≠ Fee.OVERDUE.
Proof. split_and!; [done | done | done | by vm_compute | done | done]. Qed.

(** C10. A profile that holds an out-of-date room object: room 101 is
    stored with capacity 3 and under maintenance, the object on the
    profile still says capacity 1 and vacant. Saving the profile writes
    the object back: the stored capacity changes from 3 to 1, the type
    from triple to single, and the status from maintenance to
    occupied. *)
Lemma stale_room_object_overwrites_room :
  let db' := (StudentProfile_save Sample.db_refitted Sample.ali_stale).2 in
  ¬ room_loaded Sample.db_refitted Sample.ali_stale ∧
  rooms Sample.db_refitted !! 1 = Some Sample.room_101_refitted ∧
  Room.capacity Sample.room_101_refitted = 3 ∧
  Room.status Sample.room_101_refitted = Room.MAINTENANCE ∧
  rooms db' !! 1 = Some (Room.set_status Sample.room_101 Room.OCCUPIED) ∧
  Room.capacity <$> rooms db' !! 1 = Some 1 ∧
  Room.room_type <$> rooms db' !! 1 = Some Room.SINGLE ∧
  Room.status <$> rooms db' !! 1 = Some Room.OCCUPIED.
Proof.
  split_and!; [|reflexivity..].
  unfold room_loaded. vm_compute. discriminate.
Qed.

(** C5. The warden's request to list the contact messages is refused,
    although a message is stored. *)
Lemma warden_cannot_list_contact_messages :
  User.role Sample.warden = User.WARDEN ∧
  User.is_authenticated Sample.warden = true ∧
  contact_messages Sample.db !! 1 = Some Sample.message_1 ∧
  ContactMessageViewSet.list Sample.db (Sample.request Sample.warden)
    = PermissionDenied.
Proof. done. Qed.

(** C9. ["bogus"] is no fee status and no room status; the requests
    that filter on it succeed, with an empty result. *)
Lemma bogus_status_filter_succeeds :
  (∀ v, Fee.status_value v ≠ "bogus") ∧
  (∀ v, Room.status_value v ≠ "bogus") ∧
  FeeViewSet.list Sample.db (Sample.request_with_status Sample.admin "bogus")
    = Response_data ∅ HTTP_200_OK ∧
  RoomViewSet.list Sample.db (Sample.request_with_status Sample.admin "bogus")
    = Response_data ∅ HTTP_200_OK ∧
  succeeds (FeeViewSet.list Sample.db
              (Sample.request_with_status Sample.admin "bogus")) = true.
Proof.
  split_and!; [by intros [] | by intros [] | by vm_compute..].
Qed.

(** * Further properties of the views *)

(** ** Room status updates *)

Lemma status_of_value_Some (s : string) (v : Room.Status) :
  Room.status_of_value s = Some v ↔ Room.status_value v = s.
Proof.
  unfold Room.status_of_value. split.
  - repeat case_decide; intros ?; simplify_eq; done.
  - intros <-. by destruct v.
Qed.

(** X1. [update_status] accepts exactly the three status strings: on
    one of them the room is stored with that status; on any other
    value, or none, the answer is the 400 error and nothing is
    written. *)
Theorem update_status_validates
    (db : Store) (req : Request.t) (pk : Z) (new_status : option string)
    (room : Room.t) :
  check_permissions (RoomViewSet.get_permissions Action.update_status)
    (Request.user req) = true →
  RoomViewSet.get_object db req pk = Some room →
  let result := RoomViewSet.update_status db req pk new_status in
  (∀ v : Room.Status,
     new_status = Some (Room.status_value v) →
     result = (Response_data (Room.set_status room v) HTTP_200_OK,
               set_rooms db (<[pk := Room.set_status room v]> (rooms db)))) ∧
  ((∀ v : Room.Status, new_status ≠ Some (Room.status_value v)) →
   result = (Response_error "Invalid status" HTTP_400_BAD_REQUEST, db)).
Proof.
  intros Hperm Hobj result. subst result. unfold RoomViewSet.update_status.
  rewrite initial_granted by done. rewrite Hobj. split.
  - intros v ->. simpl.
    by rewrite (proj2 (status_of_value_Some _ v) eq_refl).
  - intros Hnone. destruct new_status as [s|]; simpl; [|done].
    destruct (Room.status_of_value s) as [v|] eqn:Hv; [|done].
    apply status_of_value_Some in Hv. by destruct (Hnone v); subst.
Qed.

Lemma update_status_validates_witness :
  RoomViewSet.update_status Sample.db (Sample.request Sample.admin) 1
    (Some "maintenance")
  = (Response_data (Room.set_status Sample.room_101 Room.MAINTENANCE)
       HTTP_200_OK,
     set_rooms Sample.db
       (<[1 := Room.set_status Sample.room_101 Room.MAINTENANCE]>
          (rooms Sample.db))) ∧
  RoomViewSet.update_status Sample.db (Sample.request Sample.admin) 1
    (Some "closed")
  = (Response_error "Invalid status" HTTP_400_BAD_REQUEST, Sample.db).
Proof.
  pose proof (update_status_validates Sample.db (Sample.request Sample.admin)
                1 (Some "maintenance") Sample.room_101 eq_refl eq_refl)
    as [Hvalid _].
  pose proof (update_status_validates Sample.db (Sample.request Sample.admin)
                1 (Some "closed") Sample.room_101 eq_refl eq_refl)
    as [_ Hinvalid].
  split.
  - exact (Hvalid Room.MAINTENANCE eq_refl).
  - apply Hinvalid. intros []; discriminate.
Defined.

(** ** Room assignment: what follows a success, and what fails *)

Lemma assign_room_inv db req pk room_id :
  succeeds (StudentProfileViewSet.assign_room db req pk room_id).1 = true →
  ∃ (student : StudentProfile.obj) (room_pk : Z) (room : Room.t),
    room_id = Some room_pk ∧
    StudentProfileViewSet.get_object db req pk = Some student ∧
    rooms db !! room_pk = Some room ∧
    is_available db room_pk room = true ∧
    (StudentProfileViewSet.assign_room db req pk room_id).2
    = (StudentProfile_save db
         (StudentProfile.assign student room_pk room)).2.
Proof.
  unfold StudentProfileViewSet.assign_room, initial.
  destruct (check_permissions _ _); [|done].
  destruct (StudentProfileViewSet.get_object db req pk) as [student|];
    [|done].
  unfold Room_objects_get. destruct room_id as [room_pk|]; [|done]. simpl.
  destruct (rooms db !! room_pk) as [room|] eqn:Hroom; [|done]. simpl.
  destruct (is_available db room_pk room) eqn:Hav; [|done]. simpl.
  destruct (StudentProfile_save db _) as [student' db'] eqn:Hsave.
  intros _. exists student, room_pk, room. by rewrite Hsave.
Qed.

Lemma Room_objects_get_Some db room_pk room :
  rooms db !! room_pk = Some room →
  Room_objects_get db (Some room_pk) = Some (room_pk, room).
Proof. intros H. unfold Room_objects_get. simpl. by rewrite H. Qed.

Lemma is_available_occupied db room_pk room :
  Room.status room = Room.OCCUPIED → is_available db room_pk room = false.
Proof.
  intros Hst. unfold is_available. apply bool_decide_eq_false_2.
  intros [? _]. congruence.
Qed.

Lemma assign_room_refused_unchanged db req pk room_id :
  succeeds (StudentProfileViewSet.assign_room db req pk room_id).1 = false →
  (StudentProfileViewSet.assign_room db req pk room_id).2 = db.
Proof.
  unfold StudentProfileViewSet.assign_room, initial.
  destruct (check_permissions _ _); [|done].
  destruct (StudentProfileViewSet.get_object db req pk); [|done].
  destruct (Room_objects_get db room_id) as [[room_pk room]|]; [|done].
  destruct (is_available db room_pk room); [|done]. simpl.
  by destruct (StudentProfile_save db _).
Qed.

(** No [assign_room] request takes the status occupied off a room. *)
Lemma assign_room_keeps_occupied db req pk room_id k :
  Room.status <$> rooms db !! k = Some Room.OCCUPIED →
  Room.status
    <$> rooms (StudentProfileViewSet.assign_room db req pk room_id).2 !! k
  = Some Room.OCCUPIED.
Proof.
  intros Hocc.
  destruct (succeeds (StudentProfileViewSet.assign_room db req pk room_id).1)
    eqn:Hok.
  - destruct (assign_room_inv _ _ _ _ Hok)
      as (student & room_pk & room & _ & _ & _ & _ & ->).
    rewrite StudentProfile_save_rooms. cbn [StudentProfile.room_obj
      StudentProfile.assign].
    case_decide; [|done].
    destruct (decide (k = room_pk)) as [->|Hne].
    + by rewrite lookup_insert_eq.
    + by rewrite lookup_insert_ne.
  - by rewrite assign_room_refused_unchanged.
Qed.

(** X2. Once an active student has been assigned to a room, the room is
    stored as occupied and is no longer available. No [assign_room]
    request takes that status off a room again, and in every store in
    which the room is stored as occupied a permitted [assign_room]
    naming it is answered with the availability error and writes
    nothing, whatever the capacity of the room. *)
Theorem assigned_room_is_taken
    (db : Store) (req : Request.t) (pk room_id : Z)
    (student : StudentProfile.obj) :
  StudentProfileViewSet.get_object db req pk = Some student →
  StudentProfile.is_active (StudentProfile.row student) = true →
  succeeds (StudentProfileViewSet.assign_room db req pk (Some room_id)).1
    = true →
  let db' := (StudentProfileViewSet.assign_room db req pk (Some room_id)).2 in
  (∃ room' : Room.t,
     rooms db' !! room_id = Some room' ∧
     Room.status room' = Room.OCCUPIED ∧
     is_available db' room_id room' = false) ∧
  (∀ (later : Store) (req' : Request.t) (pk' : Z) (room_id' : option Z),
     Room.status <$> rooms later !! room_id = Some Room.OCCUPIED →
     Room.status
       <$> rooms (StudentProfileViewSet.assign_room later req' pk' room_id').2
             !! room_id
     = Some Room.OCCUPIED) ∧
  (∀ (later : Store) (req' : Request.t) (pk' : Z),
     Room.status <$> rooms later !! room_id = Some Room.OCCUPIED →
     check_permissions
       (StudentProfileViewSet.get_permissions Action.assign_room)
       (Request.user req') = true →
     is_Some (StudentProfileViewSet.get_object later req' pk') →
     StudentProfileViewSet.assign_room later req' pk' (Some room_id)
     = (Response_error "Room is not available" HTTP_400_BAD_REQUEST, later)).
Proof.
  intros Hobj Hact Hok db'.
  destruct (assign_room_inv _ _ _ _ Hok)
    as (student' & room_pk & room & Hid & Hobj' & Hroom & Hav & Hdb).
  injection Hid as <-. rewrite Hobj in Hobj'. injection Hobj' as <-.
  apply is_available_true in Hav as [Hvac _].
  assert (rooms db' !! room_id
          = Some (Room.set_status room Room.OCCUPIED)) as Hroom'.
  { subst db'. rewrite Hdb, StudentProfile_save_rooms. simpl.
    rewrite decide_True; [by rewrite lookup_insert_eq|].
    split_and!; [done..|].
    cut (1 ≤ current_occupancy
               (StudentProfile_save db
                  (StudentProfile.assign student room_id room)).2 room_id);
      [lia|].
    rewrite StudentProfile_save_occupancy.
    eapply current_occupancy_pos; [apply lookup_insert_eq|done..]. }
  split_and!.
  - exists (Room.set_status room Room.OCCUPIED).
    split_and!; [done..|]. by apply is_available_occupied.
  - intros later req' pk' room_id' Hocc. by apply assign_room_keeps_occupied.
  - intros later req' pk' Hocc Hperm [student'' Hobj''].
    destruct (rooms later !! room_id) as [room''|] eqn:Hlater; [|done].
    injection Hocc as Hocc.
    unfold StudentProfileViewSet.assign_room.
    rewrite initial_granted by done. rewrite Hobj''.
    rewrite (Room_objects_get_Some _ _ _ Hlater).
    by rewrite is_available_occupied.
Qed.

(** Ali is given room 101; the request that then names room 101 for
    Sara is refused. *)
Lemma assigned_room_is_taken_witness :
  let db' := (StudentProfileViewSet.assign_room Sample.db
                (Sample.request Sample.admin) 1 (Some 1)).2 in
  succeeds (StudentProfileViewSet.assign_room Sample.db
              (Sample.request Sample.admin) 1 (Some 1)).1 = true ∧
  StudentProfileViewSet.assign_room db' (Sample.request Sample.admin) 2
    (Some 1)
  = (Response_error "Room is not available" HTTP_400_BAD_REQUEST, db').
Proof.
  split; [reflexivity|].
  refine (proj2 (proj2 (assigned_room_is_taken Sample.db
    (Sample.request Sample.admin) 1 1 Sample.ali_loaded
    eq_refl eq_refl eq_refl))
    (StudentProfileViewSet.assign_room Sample.db
       (Sample.request Sample.admin) 1 (Some 1)).2
    (Sample.request Sample.admin) 2 eq_refl eq_refl _).
  eexists. vm_compute. reflexivity.
Defined.

Lemma StudentProfile_save_other_tables db self :
  same_but_rooms_and_students db (StudentProfile_save db self).2.
Proof.
  unfold StudentProfile_save, same_but_rooms_and_students.
  destruct (StudentProfile.room_obj self) as [[room_pk room]|]; [|done].
  destruct (StudentProfile.is_active _); [|done].
  by case_decide.
Qed.

(** X3. Whatever the request, [assign_room] writes at most two rows:
    the student's and the requested room's. Every other profile, every
    other room (the room the student leaves among them, whose status is
    not brought up to date) and every other table stay as they were. *)
Theorem assign_room_writes_two_rows
    (db : Store) (req : Request.t) (pk : Z) (room_id : option Z) :
  let db' := (StudentProfileViewSet.assign_room db req pk room_id).2 in
  same_but_rooms_and_students db db' ∧
  (∀ k : Z, k ≠ pk → students db' !! k = students db !! k) ∧
  (∀ k : Z, Some k ≠ room_id → rooms db' !! k = rooms db !! k) ∧
  (∀ (student : StudentProfile.t) (old : Z),
     students db !! pk = Some student →
     StudentProfile.room student = Some old →
     Some old ≠ room_id →
     rooms db' !! old = rooms db !! old).
Proof.
  intros db'.
  assert (db' = db ∨
          ∃ student room_pk room,
            room_id = Some room_pk ∧
            StudentProfileViewSet.get_object db req pk = Some student ∧
            db' = (StudentProfile_save db
                     (StudentProfile.assign student room_pk room)).2)
    as [->|(student & room_pk & room & -> & Hobj & ->)].
  { subst db'.
    destruct (succeeds (StudentProfileViewSet.assign_room db req pk
                          room_id).1) eqn:Hok.
    - right. destruct (assign_room_inv _ _ _ _ Hok)
        as (student & room_pk & room & ? & ? & _ & _ & ?). by eauto 10.
    - left. revert Hok.
      unfold StudentProfileViewSet.assign_room, initial.
      destruct (check_permissions _ _); [|done].
      destruct (StudentProfileViewSet.get_object db req pk); [|done].
      destruct (Room_objects_get db room_id) as [[room_pk room]|]; [|done].
      destruct (is_available db room_pk room); [|done]. simpl.
      by destruct (StudentProfile_save db _). }
  { by split_and!. }
  assert (∀ k : Z, Some k ≠ Some room_pk →
            rooms (StudentProfile_save db
                     (StudentProfile.assign student room_pk room)).2 !! k
            = rooms db !! k) as Hrooms.
  { intros k Hk. rewrite StudentProfile_save_rooms. simpl.
    case_decide; [|done]. rewrite lookup_insert_ne; [done|congruence]. }
  split_and!.
  - apply StudentProfile_save_other_tables.
  - intros k Hk. rewrite StudentProfile_save_students. simpl.
    rewrite (get_object_pk _ _ _ _ Hobj). by rewrite lookup_insert_ne.
  - done.
  - intros ? old _ _ Hold. by apply Hrooms.
Qed.

(** Sara moves from room 102 to room 101: room 102 keeps its row, and
    so stays occupied with no occupant left. *)
Lemma assign_room_writes_two_rows_witness :
  let db' := (StudentProfileViewSet.assign_room Sample.db
                (Sample.request Sample.admin) 2 (Some 1)).2 in
  StudentProfile.room <$> students db' !! 2 = Some (Some 1) ∧
  rooms db' !! 2 = Some Sample.room_102 ∧
  current_occupancy db' 2 = 0.
Proof.
  split; [reflexivity|]. split; [|reflexivity].
  exact (proj2 (proj2 (proj2 (assign_room_writes_two_rows Sample.db
    (Sample.request Sample.admin) 2 (Some 1)))) Sample.profile_sara 2
    eq_refl eq_refl ltac:(discriminate)).
Defined.

(** ** Failures write nothing *)

Lemma fresh_key_unused {A} (table : gmap Z A) :
  table !! fresh (dom table) = None.
Proof. apply not_elem_of_dom, is_fresh. Qed.

(** X4. A request that is refused leaves the store exactly as it was:
    this holds for each of the writing handlers. For the creation and
    the replacement of an attendance record one failure comes after the
    write, the exception raised while the saved record is rendered: it
    is met only by a request that left [date] out, and the record is
    stored all the same. *)
Theorem failed_request_writes_nothing
    (clk : Clock) (db : Store) (req : Request.t) (pk : Z) :
  (∀ room_id : option Z,
     succeeds (StudentProfileViewSet.assign_room db req pk room_id).1 = false →
     (StudentProfileViewSet.assign_room db req pk room_id).2 = db) ∧
  (∀ new_status : option string,
     succeeds (RoomViewSet.update_status db req pk new_status).1 = false →
     (RoomViewSet.update_status db req pk new_status).2 = db) ∧
  (∀ method : option string,
     succeeds (FeeViewSet.mark_paid clk db req pk method).1 = false →
     (FeeViewSet.mark_paid clk db req pk method).2 = db) ∧
  (∀ notes : option string,
     succeeds (ComplaintViewSet.resolve db req pk notes).1 = false →
     (ComplaintViewSet.resolve db req pk notes).2 = db) ∧
  (∀ data : AttendanceData.t,
     let result := AttendanceViewSet.create clk db req data in
     (succeeds result.1 = false →
      result.1 ≠ ServerError "AssertionError" →
      result.2 = db) ∧
     (result.1 = ServerError "AssertionError" →
      AttendanceData.date data = None ∧
      ∃ (new : Z) (row : Attendance.t),
        attendance db !! new = None ∧
        attendance result.2 = <[new := row]> (attendance db))) ∧
  (∀ data : AttendanceData.t,
     let result := AttendanceViewSet.update clk db req pk data in
     (succeeds result.1 = false →
      result.1 ≠ ServerError "AssertionError" →
      result.2 = db) ∧
     (result.1 = ServerError "AssertionError" →
      AttendanceData.date data = None ∧
      ∃ row : Attendance.t,
        attendance result.2 = <[pk := row]> (attendance db) ∧
        Attendance.date row = datetime_date (timezone_now clk))) ∧
  (succeeds (AttendanceViewSet.destroy db req pk).1 = false →
   (AttendanceViewSet.destroy db req pk).2 = db).
Proof.
  split_and!.
  - intros room_id. apply assign_room_refused_unchanged.
  - intros new_status. unfold RoomViewSet.update_status, initial.
    destruct (check_permissions _ _); [|done].
    destruct (RoomViewSet.get_object db req pk); [|done].
    by destruct (new_status ≫= Room.status_of_value).
  - intros method. unfold FeeViewSet.mark_paid, initial.
    destruct (check_permissions _ _); [|done].
    by destruct (FeeViewSet.get_object db req pk).
  - intros notes. unfold ComplaintViewSet.resolve, initial.
    destruct (check_permissions _ _); [|done].
    by destruct (ComplaintViewSet.get_object db req pk).
  - intros data result. subst result.
    unfold AttendanceViewSet.create, initial.
    destruct (check_permissions _ _); [|done].
    destruct (AttendanceSerializer.field_errors db data); [|done].
    destruct (unique_together_conflict _ _ _); [done|].
    cbn [fst snd]. unfold AttendanceSerializer.render.
    destruct (AttendanceData.date data) as [d|]; [done|].
    split; [done|]. intros _. split; [done|].
    eexists _, _. split; [apply fresh_key_unused|done].
  - intros data result. subst result.
    unfold AttendanceViewSet.update, initial.
    destruct (check_permissions _ _); [|done].
    destruct (AttendanceViewSet.get_object db req pk) as [old|]; [|done].
    destruct (AttendanceSerializer.field_errors db data); [|done].
    destruct (unique_together_conflict _ _ _); [done|].
    cbn [fst snd]. unfold AttendanceSerializer.render.
    destruct (AttendanceData.date data) as [d|] eqn:Hdate; [done|].
    split; [done|]. intros _. split; [done|].
    eexists. split; [done|].
    cbn [Attendance.date AttendanceSerializer.update_attrs].
    unfold AttendanceSerializer.validated_date. by rewrite Hdate.
  - unfold AttendanceViewSet.destroy, initial.
    destruct (check_permissions _ _); [|done].
    by destruct (AttendanceViewSet.get_object db req pk).
Qed.

Lemma failed_request_writes_nothing_witness :
  succeeds (FeeViewSet.mark_paid Sample.clock Sample.db
              (Sample.request Sample.admin) 7 (Some "Cash")).1 = false ∧
  (FeeViewSet.mark_paid Sample.clock Sample.db
     (Sample.request Sample.admin) 7 (Some "Cash")).2 = Sample.db.
Proof.
  split; [reflexivity|].
  exact (proj1 (proj2 (proj2 (failed_request_writes_nothing Sample.clock
    Sample.db (Sample.request Sample.admin) 7))) (Some "Cash") eq_refl).
Defined.

(** X5. The order in which [assign_room] fails: a refused request is
    answered before anything is looked up; a student the view does not
    resolve gives the framework's 404, whatever the room; then an
    absent [room_id], or one that names no room, gives the 404 error
    'Room not found'. *)
Theorem assign_room_lookup_failures
    (db : Store) (req : Request.t) (pk : Z) (room_id : option Z) :
  let result := StudentProfileViewSet.assign_room db req pk room_id in
  (check_permissions
     (StudentProfileViewSet.get_permissions Action.assign_room)
     (Request.user req) = false →
   result = (PermissionDenied, db)) ∧
  (check_permissions
     (StudentProfileViewSet.get_permissions Action.assign_room)
     (Request.user req) = true →
   (StudentProfileViewSet.get_object db req pk = None →
    result = (Http404, db)) ∧
   (is_Some (StudentProfileViewSet.get_object db req pk) →
    room_id ≫= (λ i, rooms db !! i) = None →
    result = (Response_error "Room not found" HTTP_404_NOT_FOUND, db))).
Proof.
  intros result. subst result. unfold StudentProfileViewSet.assign_room.
  split.
  - intros Hperm. by rewrite initial_refused.
  - intros Hperm. rewrite initial_granted by done. split.
    + by intros ->.
    + intros [student ->] Hroom.
      assert (Room_objects_get db room_id = None) as ->; [|done].
      unfold Room_objects_get. destruct room_id as [i|]; [|done].
      simpl in *. by rewrite Hroom.
Qed.

Lemma assign_room_lookup_failures_witness :
  StudentProfileViewSet.assign_room Sample.db (Sample.request Sample.admin)
    9 (Some 1) = (Http404, Sample.db) ∧
  StudentProfileViewSet.assign_room Sample.db (Sample.request Sample.admin)
    1 None
  = (Response_error "Room not found" HTTP_404_NOT_FOUND, Sample.db) ∧
  StudentProfileViewSet.assign_room Sample.db (Sample.request Sample.admin)
    1 (Some 9)
  = (Response_error "Room not found" HTTP_404_NOT_FOUND, Sample.db).
Proof.
  split_and!.
  - exact (proj1 (proj2 (assign_room_lookup_failures Sample.db
      (Sample.request Sample.admin) 9 (Some 1)) eq_refl) eq_refl).
  - refine (proj2 (proj2 (assign_room_lookup_failures Sample.db
      (Sample.request Sample.admin) 1 None) eq_refl) _ eq_refl).
    by eexists.
  - refine (proj2 (proj2 (assign_room_lookup_failures Sample.db
      (Sample.request Sample.admin) 1 (Some 9)) eq_refl) _ eq_refl).
    by eexists.
Defined.

(** ** Querysets: filters are conjunctions, scopes are by profile *)

Lemma if_truthy_filter_lookup {A} (value : option string)
    (P : string → Z * A → Prop) `{!∀ s kv, Decision (P s kv)}
    (queryset : gmap Z A) (k : Z) (x : A) :
  if_truthy value (λ s, filter (P s)) queryset !! k = Some x ↔
  queryset !! k = Some x ∧ ∀ s, value = Some s → s ≠ "" → P s (k, x).
Proof.
  unfold if_truthy. destruct value as [s|].
  - case_decide as Hs.
    + split; [|by intros [? _]]. intros ?. split; [done|].
      intros ? ? ?. by simplify_eq.
    + rewrite map_lookup_filter_Some. split.
      * intros [? ?]. split; [done|]. intros ? ? ?. by simplify_eq.
      * intros [? HP]. split; [done|]. by apply HP.
  - split; [|by intros [? _]]. intros ?. split; [done|]. by intros ? ?.
Qed.

Lemma if_given_filter_lookup {V A} (value : option V)
    (P : V → Z * A → Prop) `{!∀ v kv, Decision (P v kv)}
    (queryset : gmap Z A) (k : Z) (x : A) :
  if_given value (λ v, filter (P v)) queryset !! k = Some x ↔
  queryset !! k = Some x ∧ ∀ v, value = Some v → P v (k, x).
Proof.
  unfold if_given. destruct value as [v|].
  - rewrite map_lookup_filter_Some. split.
    + intros [? ?]. split; [done|]. intros ? ?. by simplify_eq.
    + intros [? HP]. split; [done|]. by apply HP.
  - split; [|by intros [? _]]. intros ?. split; [done|]. by intros ? ?.
Qed.

(** The restriction by [user.is_student and hasattr(user,
    'student_profile')], on any table with a [student] column. *)
Lemma scope_lookup {A} (student : A → Z) (db : Store) (user : User.t)
    (table : gmap Z A) (k : Z) (x : A) :
  (if User.is_student user && hasattr_student_profile db user
   then filter (λ kv : Z * A,
                  Some (student kv.2) = fst <$> student_profile db user) table
   else table) !! k = Some x ↔
  table !! k = Some x ∧
  (User.is_student user = true →
   ∀ profile_pk profile,
     student_profile db user = Some (profile_pk, profile) →
     student x = profile_pk).
Proof.
  unfold hasattr_student_profile.
  destruct (User.is_student user); simpl.
  - destruct (student_profile db user) as [[ppk p]|] eqn:Hp.
    + rewrite bool_decide_eq_true_2 by by eexists.
      rewrite map_lookup_filter_Some. simpl. split.
      * intros [? ?]. split; [done|]. intros _ ? ? ?. by simplify_eq.
      * intros [? Hs]. split; [done|]. f_equal. by eapply Hs.
    + rewrite bool_decide_eq_false_2 by by intros [? ?].
      split; [|by intros [? _]]. intros ?. split; [done|]. by intros _ ? ? ?.
  - split; [|by intros [? _]]. intros ?. split; [done|]. by intros ?.
Qed.

(** X6. A fee is in the queryset of a request exactly when it is
    stored, belongs to the requester's profile if the requester is a
    student with a profile, has the status asked for if a non-empty
    [status] is given, and belongs to the student asked for if
    [student_id] is given: the filters are conjoined, and an absent one
    does not restrict. *)
Theorem fee_queryset_membership
    (db : Store) (req : Request.t) (k : Z) (fee : Fee.t) :
  FeeViewSet.get_queryset db req !! k = Some fee ↔
  fees db !! k = Some fee ∧
  (User.is_student (Request.user req) = true →
   ∀ profile_pk profile,
     student_profile db (Request.user req) = Some (profile_pk, profile) →
     Fee.student fee = profile_pk) ∧
  (∀ s, Request.status (Request.params req) = Some s → s ≠ "" →
        Fee.status_value (Fee.status fee) = s) ∧
  (∀ i, Request.student_id (Request.params req) = Some i →
        Fee.student fee = i).
Proof.
  unfold FeeViewSet.get_queryset.
  rewrite (if_given_filter_lookup _ (λ i kv, Fee.student kv.2 = i)).
  rewrite (if_truthy_filter_lookup _
             (λ s kv, Fee.status_value (Fee.status kv.2) = s)).
  rewrite (scope_lookup Fee.student). simpl. tauto.
Qed.

(** X7. The querysets of attendance, visitors and complaints are scoped
    and filtered in the same way: a row is selected exactly when it is
    stored, belongs to the requester's profile if the requester is a
    student with a profile, and passes each filter that is given. A
    student-role requester without a profile is not restricted. *)
Theorem scoped_queryset_membership
    (clk : Clock) (db : Store) (req : Request.t) (k : Z) :
  (∀ a : Attendance.t,
     AttendanceViewSet.get_queryset db req !! k = Some a ↔
     attendance db !! k = Some a ∧
     (User.is_student (Request.user req) = true →
      ∀ profile_pk profile,
        student_profile db (Request.user req) = Some (profile_pk, profile) →
        Attendance.student a = profile_pk) ∧
     (∀ d, Request.date (Request.params req) = Some d →
           Attendance.date a = d) ∧
     (∀ i, Request.student_id (Request.params req) = Some i →
           Attendance.student a = i) ∧
     (∀ s, Request.status (Request.params req) = Some s → s ≠ "" →
           Attendance.status_value (Attendance.status a) = s)) ∧
  (∀ v : Visitor.t,
     VisitorViewSet.get_queryset clk db req !! k = Some v ↔
     visitors db !! k = Some v ∧
     (User.is_student (Request.user req) = true →
      ∀ profile_pk profile,
        student_profile db (Request.user req) = Some (profile_pk, profile) →
        Visitor.student v = profile_pk) ∧
     (∀ i, Request.student_id (Request.params req) = Some i →
           Visitor.student v = i) ∧
     (∀ s, Request.today (Request.params req) = Some s → s ≠ "" →
           datetime_date (Visitor.in_time v) = date_today clk)) ∧
  (∀ c : Complaint.t,
     ComplaintViewSet.get_queryset db req !! k = Some c ↔
     complaints db !! k = Some c ∧
     (User.is_student (Request.user req) = true →
      ∀ profile_pk profile,
        student_profile db (Request.user req) = Some (profile_pk, profile) →
        Complaint.student c = profile_pk) ∧
     (∀ s, Request.status (Request.params req) = Some s → s ≠ "" →
           Complaint.status_value (Complaint.status c) = s) ∧
     (∀ i, Request.student_id (Request.params req) = Some i →
           Complaint.student c = i)).
Proof.
  split_and!.
  - intros a. unfold AttendanceViewSet.get_queryset.
    rewrite (if_truthy_filter_lookup _
               (λ s kv, Attendance.status_value (Attendance.status kv.2) = s)).
    rewrite (if_given_filter_lookup _ (λ i kv, Attendance.student kv.2 = i)).
    rewrite (if_given_filter_lookup _ (λ d kv, Attendance.date kv.2 = d)).
    rewrite (scope_lookup Attendance.student). simpl. tauto.
  - intros v. unfold VisitorViewSet.get_queryset.
    rewrite (if_truthy_filter_lookup _
               (λ _ kv, datetime_date (Visitor.in_time kv.2) = date_today clk)).
    rewrite (if_given_filter_lookup _ (λ i kv, Visitor.student kv.2 = i)).
    rewrite (scope_lookup Visitor.student). simpl. tauto.
  - intros c. unfold ComplaintViewSet.get_queryset.
    rewrite (if_given_filter_lookup _ (λ i kv, Complaint.student kv.2 = i)).
    rewrite (if_truthy_filter_lookup _
               (λ s kv, Complaint.status_value (Complaint.status kv.2) = s)).
    rewrite (scope_lookup Complaint.student). simpl. tauto.
Qed.

Lemma student_profile_None db user :
  student_profile db user = None →
  filter (λ kv : Z * StudentProfile.t, StudentProfile.user kv.2 = User.id user)
         (students db) = ∅.
Proof.
  unfold student_profile. intros H.
  apply map_to_list_empty_iff.
  by destruct (map_to_list _).
Qed.

(** X8. A profile is in the queryset of a request exactly when it is
    stored, is the requester's own if the requester is a student, is
    active or not as [is_active] asks (active for a value that is
    'true' in any letter case, inactive for every other value, the
    empty one included), and, if a non-empty [fee_status] is given, has
    a fee with that status. A student without a profile is shown no
    profile. *)
Theorem student_queryset_membership
    (db : Store) (req : Request.t) (k : Z) (row : StudentProfile.t) :
  (StudentProfileViewSet.get_queryset db req !! k = Some row ↔
   students db !! k = Some row ∧
   (User.is_student (Request.user req) = true →
    StudentProfile.user row = User.id (Request.user req)) ∧
   (∀ s, Request.is_active (Request.params req) = Some s →
         StudentProfile.is_active row = bool_decide (lower s = "true")) ∧
   (∀ s, Request.fee_status (Request.params req) = Some s → s ≠ "" →
         ∃ (j : Z) (fee : Fee.t),
           fees db !! j = Some fee ∧ Fee.student fee = k ∧
           Fee.status_value (Fee.status fee) = s)) ∧
  (User.is_student (Request.user req) = true →
   student_profile db (Request.user req) = None →
   StudentProfileViewSet.get_queryset db req = ∅).
Proof.
  split.
  - unfold StudentProfileViewSet.get_queryset.
    rewrite (if_truthy_filter_lookup _
               (λ s kv, map_Exists (λ _ fee,
                  Fee.student fee = kv.1 ∧
                  Fee.status_value (Fee.status fee) = s) (fees db))).
    rewrite (if_given_filter_lookup _
               (λ s kv, StudentProfile.is_active kv.2
                        = bool_decide (lower s = "true"))).
    unfold map_Exists. simpl.
    destruct (User.is_student (Request.user req)).
    + rewrite map_lookup_filter_Some. simpl. intuition done.
    + intuition done.
  - intros Hst Hnone. unfold StudentProfileViewSet.get_queryset.
    rewrite Hst, (student_profile_None _ _ Hnone).
    rewrite if_given_empty by (intros; apply map_filter_empty).
    apply if_truthy_empty. intros. apply map_filter_empty.
Qed.

(** With [?is_active=yes] the admin is shown the inactive profiles:
    none of the sample; with [?is_active=TRUE], both. *)
Lemma student_queryset_membership_witness :
  let asking (s : string) : Request.t :=
    {| Request.user := Sample.admin;
       Request.params :=
         {| Request.status := None; Request.type := None;
            Request.is_active := Some s; Request.fee_status := None;
            Request.student_id := None; Request.date := None;
            Request.today := None |} |} in
  StudentProfileViewSet.get_queryset Sample.db (asking "TRUE") !! 1
    = Some Sample.profile_ali ∧
  StudentProfileViewSet.get_queryset Sample.db (asking "yes") !! 1 = None ∧
  StudentProfileViewSet.get_queryset Sample.db (Sample.request Sample.newcomer)
    = ∅.
Proof.
  intros asking. split_and!.
  - apply (proj1 (student_queryset_membership Sample.db (asking "TRUE") 1
                    Sample.profile_ali)).
    split_and!; [reflexivity|discriminate| |discriminate].
    intros s [= <-]. reflexivity.
  - reflexivity.
  - exact (proj2 (student_queryset_membership Sample.db
                    (Sample.request Sample.newcomer) 0 Sample.profile_ali)
             eq_refl eq_refl).
Defined.

(** X9. Rooms and mess menus are not scoped by role: a room is selected
    exactly when it is stored and has the status and the type asked
    for, a menu when it is stored and has the date asked for. *)
Theorem unscoped_queryset_membership
    (db : Store) (req : Request.t) (k : Z) :
  (∀ room : Room.t,
     RoomViewSet.get_queryset db req !! k = Some room ↔
     rooms db !! k = Some room ∧
     (∀ s, Request.status (Request.params req) = Some s → s ≠ "" →
           Room.status_value (Room.status room) = s) ∧
     (∀ t, Request.type (Request.params req) = Some t → t ≠ "" →
           Room.room_type_value (Room.room_type room) = t)) ∧
  (∀ menu : MessMenu.t,
     MessMenuViewSet.get_queryset db req !! k = Some menu ↔
     mess_menus db !! k = Some menu ∧
     (∀ d, Request.date (Request.params req) = Some d →
           MessMenu.date menu = d)).
Proof.
  split.
  - intros room. unfold RoomViewSet.get_queryset.
    rewrite (if_truthy_filter_lookup _
               (λ t kv, Room.room_type_value (Room.room_type kv.2) = t)).
    rewrite (if_truthy_filter_lookup _
               (λ s kv, Room.status_value (Room.status kv.2) = s)).
    simpl. tauto.
  - intros menu. unfold MessMenuViewSet.get_queryset.
    by rewrite (if_given_filter_lookup _ (λ d kv, MessMenu.date kv.2 = d)).
Qed.

(** ** Who passes which permission check *)

Lemma has_permission_anonymous p user :
  User.is_authenticated user = false →
  has_permission p user = bool_decide (p = AllowAny).
Proof. intros Hauth. destruct p; simpl; by rewrite ?Hauth. Qed.

Lemma has_permission_admin p user :
  User.is_authenticated user = true →
  User.role user = User.ADMIN →
  has_permission p user = bool_decide (p ≠ IsWarden ∧ p ≠ IsStudent).
Proof.
  intros Hauth Hrole.
  destruct p; unfold has_permission, User.is_admin, User.is_warden,
    User.is_student; by rewrite ?Hauth, ?Hrole.
Qed.

Lemma has_permission_student p user :
  User.is_authenticated user = true →
  User.role user = User.STUDENT →
  has_permission p user
  = bool_decide (p = AllowAny ∨ p = IsAuthenticated ∨ p = IsStudent).
Proof.
  intros Hauth Hrole.
  destruct p; unfold has_permission, User.is_admin, User.is_warden,
    User.is_student; by rewrite ?Hauth, ?Hrole.
Qed.

(** X10. A request that is not authenticated passes one permission
    check only, that of creating a contact message; every other action
    of every viewset refuses it, and so does the dashboard. *)
Theorem anonymous_access (clk : Clock) (db : Store) (req : Request.t) :
  User.is_authenticated (Request.user req) = false →
  (∀ action : Action.t,
     check_permissions (RoomViewSet.get_permissions action)
       (Request.user req) = false ∧
     check_permissions (StudentProfileViewSet.get_permissions action)
       (Request.user req) = false ∧
     check_permissions (FeeViewSet.get_permissions action)
       (Request.user req) = false ∧
     check_permissions (AttendanceViewSet.get_permissions action)
       (Request.user req) = false ∧
     check_permissions (VisitorViewSet.get_permissions action)
       (Request.user req) = false ∧
     check_permissions (ComplaintViewSet.get_permissions action)
       (Request.user req) = false ∧
     check_permissions (MessMenuViewSet.get_permissions action)
       (Request.user req) = false ∧
     (action ≠ Action.create →
      check_permissions (ContactMessageViewSet.get_permissions action)
        (Request.user req) = false)) ∧
  check_permissions (ContactMessageViewSet.get_permissions Action.create)
    (Request.user req) = true ∧
  dashboard_stats clk db req = PermissionDenied.
Proof.
  intros Hauth. split_and!.
  - intros action.
    destruct action; split_and!; try done;
      unfold RoomViewSet.get_permissions,
        StudentProfileViewSet.get_permissions, FeeViewSet.get_permissions,
        AttendanceViewSet.get_permissions, VisitorViewSet.get_permissions,
        ComplaintViewSet.get_permissions, MessMenuViewSet.get_permissions,
        ContactMessageViewSet.get_permissions;
      by rewrite check_single, has_permission_anonymous.
  - done.
  - unfold dashboard_stats. apply initial_refused.
    by rewrite check_single, has_permission_anonymous.
Qed.

Lemma anonymous_access_witness :
  let anonymous : User.t :=
    {| User.id := 0; User.role := User.STUDENT;
       User.is_authenticated := false |} in
  FeeViewSet.list Sample.db (Sample.request anonymous) = PermissionDenied ∧
  dashboard_stats Sample.clock Sample.db (Sample.request anonymous)
    = PermissionDenied.
Proof.
  intros anonymous.
  pose proof (anonymous_access Sample.clock Sample.db
                (Sample.request anonymous) eq_refl) as (Hall & _ & Hdash).
  split; [|exact Hdash].
  unfold FeeViewSet.list. apply initial_refused.
  exact (proj1 (proj2 (proj2 (Hall Action.list)))).
Defined.

(** X11. An authenticated admin passes the permission check of every
    action of every viewset. *)
Theorem admin_access (user : User.t) (action : Action.t) :
  User.is_authenticated user = true →
  User.role user = User.ADMIN →
  check_permissions (RoomViewSet.get_permissions action) user = true ∧
  check_permissions (StudentProfileViewSet.get_permissions action) user
    = true ∧
  check_permissions (FeeViewSet.get_permissions action) user = true ∧
  check_permissions (AttendanceViewSet.get_permissions action) user = true ∧
  check_permissions (VisitorViewSet.get_permissions action) user = true ∧
  check_permissions (ComplaintViewSet.get_permissions action) user = true ∧
  check_permissions (MessMenuViewSet.get_permissions action) user = true ∧
  check_permissions (ContactMessageViewSet.get_permissions action) user
    = true.
Proof.
  intros Hauth Hrole.
  destruct action; split_and!;
    unfold RoomViewSet.get_permissions,
      StudentProfileViewSet.get_permissions, FeeViewSet.get_permissions,
      AttendanceViewSet.get_permissions, VisitorViewSet.get_permissions,
      ComplaintViewSet.get_permissions, MessMenuViewSet.get_permissions,
      ContactMessageViewSet.get_permissions;
    by rewrite check_single, (has_permission_admin _ _ Hauth Hrole).
Qed.

Lemma admin_access_witness :
  check_permissions (AttendanceViewSet.get_permissions Action.destroy)
    Sample.admin = true ∧
  check_permissions (ContactMessageViewSet.get_permissions Action.list)
    Sample.admin = true.
Proof.
  split.
  - exact (proj1 (proj2 (proj2 (proj2
      (admin_access Sample.admin Action.destroy eq_refl eq_refl))))).
  - exact (proj2 (proj2 (proj2 (proj2 (proj2 (proj2 (proj2
      (admin_access Sample.admin Action.list eq_refl eq_refl)))))))).
Defined.

(** X12. An authenticated student is refused every create, update,
    partial-update and destroy action, except the creation of a
    complaint and of a contact message; listing and retrieving pass on
    every viewset but that of the contact messages. *)
Theorem student_access (user : User.t) :
  User.is_authenticated user = true →
  User.role user = User.STUDENT →
  (∀ action : Action.t,
     action ∈ [Action.create; Action.update; Action.partial_update;
               Action.destroy] →
     check_permissions (RoomViewSet.get_permissions action) user = false ∧
     check_permissions (StudentProfileViewSet.get_permissions action) user
       = false ∧
     check_permissions (FeeViewSet.get_permissions action) user = false ∧
     check_permissions (AttendanceViewSet.get_permissions action) user
       = false ∧
     check_permissions (VisitorViewSet.get_permissions action) user = false ∧
     check_permissions (MessMenuViewSet.get_permissions action) user
       = false ∧
     (action ≠ Action.create →
      check_permissions (ComplaintViewSet.get_permissions action) user
        = false ∧
      check_permissions (ContactMessageViewSet.get_permissions action) user
        = false)) ∧
  check_permissions (ComplaintViewSet.get_permissions Action.create) user
    = true ∧
  check_permissions (ContactMessageViewSet.get_permissions Action.create) user
    = true ∧
  (∀ action : Action.t,
     action ∈ [Action.list; Action.retrieve] →
     check_permissions (RoomViewSet.get_permissions action) user = true ∧
     check_permissions (StudentProfileViewSet.get_permissions action) user
       = true ∧
     check_permissions (FeeViewSet.get_permissions action) user = true ∧
     check_permissions (AttendanceViewSet.get_permissions action) user
       = true ∧
     check_permissions (VisitorViewSet.get_permissions action) user = true ∧
     check_permissions (ComplaintViewSet.get_permissions action) user
       = true ∧
     check_permissions (MessMenuViewSet.get_permissions action) user = true ∧
     check_permissions (ContactMessageViewSet.get_permissions action) user
       = false).
Proof.
  intros Hauth Hrole. split_and!.
  - intros action Hin.
    repeat (apply elem_of_cons in Hin as [->|Hin]);
      [..|by apply elem_of_nil in Hin];
      split_and!; try done; try (intros _; split);
      unfold RoomViewSet.get_permissions,
        StudentProfileViewSet.get_permissions, FeeViewSet.get_permissions,
        AttendanceViewSet.get_permissions, VisitorViewSet.get_permissions,
        ComplaintViewSet.get_permissions, MessMenuViewSet.get_permissions,
        ContactMessageViewSet.get_permissions;
      by rewrite check_single, (has_permission_student _ _ Hauth Hrole).
  - unfold ComplaintViewSet.get_permissions.
    by rewrite check_single, (has_permission_student _ _ Hauth Hrole).
  - unfold ContactMessageViewSet.get_permissions.
    by rewrite check_single, (has_permission_student _ _ Hauth Hrole).
  - intros action Hin.
    repeat (apply elem_of_cons in Hin as [->|Hin]);
      [..|by apply elem_of_nil in Hin];
      split_and!;
      unfold RoomViewSet.get_permissions,
        StudentProfileViewSet.get_permissions, FeeViewSet.get_permissions,
        AttendanceViewSet.get_permissions, VisitorViewSet.get_permissions,
        ComplaintViewSet.get_permissions, MessMenuViewSet.get_permissions,
        ContactMessageViewSet.get_permissions;
      by rewrite check_single, (has_permission_student _ _ Hauth Hrole).
Qed.

Lemma student_access_witness :
  check_permissions (FeeViewSet.get_permissions Action.update) Sample.ali
    = false ∧
  check_permissions (ComplaintViewSet.get_permissions Action.create) Sample.ali
    = true.
Proof.
  pose proof (student_access Sample.ali eq_refl eq_refl)
    as (Hwrite & Hcomplaint & _).
  split; [|exact Hcomplaint].
  refine (proj1 (proj2 (proj2 (Hwrite Action.update _)))).
  by repeat constructor.
Defined.

(** ** Writes to fees and complaints *)

Lemma set_fees_restore db m : set_fees (set_fees db m) (fees db) = db.
Proof. by destruct db. Qed.

Lemma set_complaints_restore db m :
  set_complaints (set_complaints db m) (complaints db) = db.
Proof. by destruct db. Qed.

Lemma set_attendance_restore db m :
  set_attendance (set_attendance db m) (attendance db) = db.
Proof. by destruct db. Qed.

Lemma set_fees_same db : set_fees db (fees db) = db.
Proof. by destruct db. Qed.

(** X13. [Fee.save], and [mark_paid] which ends in it, write the fee's
    own row and nothing else: the other fees and the other tables are
    untouched. Saving again what a save returned changes nothing. *)
Theorem fee_writes_touch_one_row
    (clk : Clock) (db : Store) (req : Request.t) (pk : Z) :
  (∀ fee : Fee.t,
     let saved := Fee_save clk db pk fee in
     Fee_save clk saved.2 pk saved.1 = saved ∧
     (∀ k : Z, k ≠ pk → fees saved.2 !! k = fees db !! k) ∧
     set_fees saved.2 (fees db) = db) ∧
  (∀ method : option string,
     let db' := (FeeViewSet.mark_paid clk db req pk method).2 in
     (∀ k : Z, k ≠ pk → fees db' !! k = fees db !! k) ∧
     set_fees db' (fees db) = db).
Proof.
  split.
  - intros fee saved. subst saved. split_and!.
    + unfold Fee_save.
      destruct (decide (Fee.status fee = Fee.UNPAID ∧ _)) as [Hc|Hc];
        cbn [fst snd].
      * rewrite decide_False by (simpl; by intros [? _]).
        unfold set_fees. simpl. by rewrite insert_insert_eq.
      * rewrite decide_False by done.
        unfold set_fees. simpl. by rewrite insert_insert_eq.
    + intros k Hk. rewrite Fee_save_stored. by rewrite lookup_insert_ne.
    + apply set_fees_restore.
  - intros method db'. subst db'. unfold FeeViewSet.mark_paid, initial.
    destruct (check_permissions _ _); [|by rewrite set_fees_same].
    destruct (FeeViewSet.get_object db req pk); [|by rewrite set_fees_same].
    rewrite Fee_save_not_unpaid by done. cbn [fst snd]. split.
    + intros k Hk. simpl. by rewrite lookup_insert_ne.
    + apply set_fees_restore.
Qed.

Lemma fee_writes_touch_one_row_witness :
  let db' := (FeeViewSet.mark_paid Sample.clock Sample.db
                (Sample.request Sample.admin) 1 (Some "Cash")).2 in
  fees db' !! 2 = Some Sample.fee_sara ∧
  set_fees db' (fees Sample.db) = Sample.db.
Proof.
  pose proof (proj2 (fee_writes_touch_one_row Sample.clock Sample.db
                       (Sample.request Sample.admin) 1) (Some "Cash"))
    as [Hother Hrest].
  split; [|exact Hrest].
  etrans; [apply Hother; discriminate|]. reflexivity.
Defined.

Lemma Complaint_get_object_stored db req pk complaint :
  ComplaintViewSet.get_object db req pk = Some complaint →
  complaints db !! pk = Some complaint.
Proof.
  intros H. eapply lookup_weaken; [exact H|].
  unfold ComplaintViewSet.get_queryset.
  etrans; [apply if_given_subseteq; intros; apply map_filter_subseteq|].
  etrans; [apply if_truthy_subseteq; intros; apply map_filter_subseteq|].
  destruct (_ && _); [apply map_filter_subseteq | done].
Qed.

(** X14. [resolve] stores the complaint as resolved, by the requester
    and with the notes sent (empty when none), keeping its student,
    title, description, category and priority; no other complaint and
    no other table changes. A resolved complaint can be resolved again:
    the later resolver and notes replace the earlier ones. *)
Theorem resolve_records_resolver
    (db : Store) (req : Request.t) (pk : Z) (notes : option string)
    (complaint : Complaint.t) :
  check_permissions (ComplaintViewSet.get_permissions Action.resolve)
    (Request.user req) = true →
  ComplaintViewSet.get_object db req pk = Some complaint →
  let resolved_by_ (user : User.t) (text : option string) : Complaint.t :=
    {| Complaint.student := Complaint.student complaint;
       Complaint.title := Complaint.title complaint;
       Complaint.description := Complaint.description complaint;
       Complaint.category := Complaint.category complaint;
       Complaint.priority := Complaint.priority complaint;
       Complaint.status := Complaint.RESOLVED;
       Complaint.resolved_by := Some (User.id user);
       Complaint.resolution_notes := Some (default "" text) |} in
  let result := ComplaintViewSet.resolve db req pk notes in
  result.1 = Response_data (resolved_by_ (Request.user req) notes)
               HTTP_200_OK ∧
  complaints result.2 !! pk = Some (resolved_by_ (Request.user req) notes) ∧
  (∀ k : Z, k ≠ pk → complaints result.2 !! k = complaints db !! k) ∧
  set_complaints result.2 (complaints db) = db ∧
  ∀ (req' : Request.t) (notes' : option string),
    check_permissions (ComplaintViewSet.get_permissions Action.resolve)
      (Request.user req') = true →
    is_Some (ComplaintViewSet.get_object result.2 req' pk) →
    (ComplaintViewSet.resolve result.2 req' pk notes').1
    = Response_data (resolved_by_ (Request.user req') notes') HTTP_200_OK.
Proof.
  intros Hperm Hobj resolved_by_ result.
  assert (result =
            (Response_data (resolved_by_ (Request.user req) notes) HTTP_200_OK,
             set_complaints db
               (<[pk := resolved_by_ (Request.user req) notes]>
                  (complaints db)))) as ->.
  { subst result. unfold ComplaintViewSet.resolve.
    rewrite initial_granted by done. by rewrite Hobj. }
  cbn [fst snd]. split_and!.
  - done.
  - simpl. by rewrite lookup_insert_eq.
  - intros k Hk. simpl. by rewrite lookup_insert_ne.
  - apply set_complaints_restore.
  - intros req' notes' Hperm' [complaint' Hobj'].
    assert (complaint' = resolved_by_ (Request.user req) notes) as ->.
    { apply Complaint_get_object_stored in Hobj'.
      simpl in Hobj'. rewrite lookup_insert_eq in Hobj'. by simplify_eq. }
    unfold ComplaintViewSet.resolve.
    rewrite initial_granted by done. by rewrite Hobj'.
Qed.

Lemma resolve_records_resolver_witness :
  ComplaintViewSet.get_object Sample.db (Sample.request Sample.warden) 1
    = Some Sample.complaint_1 ∧
  Complaint.resolved_by <$>
    complaints (ComplaintViewSet.resolve Sample.db
                  (Sample.request Sample.warden) 1 (Some "fixed")).2 !! 1
    = Some (Some 2).
Proof.
  split; [reflexivity|].
  pose proof (proj1 (proj2 (resolve_records_resolver Sample.db
    (Sample.request Sample.warden) 1 (Some "fixed") Sample.complaint_1
    eq_refl eq_refl))) as Hstored.
  etrans; [exact (f_equal (fmap Complaint.resolved_by) Hstored)|].
  reflexivity.
Defined.

(** ** Creating, updating and deleting attendance, visitors, complaints *)

Lemma Attendance_get_object_stored db req pk row :
  AttendanceViewSet.get_object db req pk = Some row →
  attendance db !! pk = Some row.
Proof.
  intros H. eapply lookup_weaken; [exact H|].
  unfold AttendanceViewSet.get_queryset.
  etrans; [apply if_truthy_subseteq; intros; apply map_filter_subseteq|].
  etrans; [apply if_given_subseteq; intros; apply map_filter_subseteq|].
  etrans; [apply if_given_subseteq; intros; apply map_filter_subseteq|].
  destruct (_ && _); [apply map_filter_subseteq | done].
Qed.

Lemma insert_fresh_keeps {A} (table : gmap Z A) (x : A) (k : Z) (y : A) :
  table !! k = Some y →
  <[fresh (dom table) := x]> table !! k = Some y.
Proof.
  intros Hk. rewrite lookup_insert_ne; [done|].
  intros <-. by rewrite fresh_key_unused in Hk.
Qed.

(** X15. A permitted [create] for an existing student. A [marked_by]
    that names no user is refused, and nothing is written. Otherwise,
    when no stored record has the student and the date (the one sent,
    or the present day when none is sent), the record is stored under a
    key that was not in use, with [marked_by] set to the requester
    whatever the request said, which is what [perform_create] does, the
    status present unless one was sent, and the other fields as sent;
    the stored records and the other tables stay as they were. The
    answer is 201 with the record when [date] was sent; when it was
    left out, the record is stored and the request then ends in the
    exception of the rendering. *)
Theorem attendance_create_marks_requester
    (clk : Clock) (db : Store) (req : Request.t) (data : AttendanceData.t) :
  check_permissions (AttendanceViewSet.get_permissions Action.create)
    (Request.user req) = true →
  is_Some (students db !! AttendanceData.student data) →
  let result := AttendanceViewSet.create clk db req data in
  let created :=
    AttendanceViewSet.perform_create db req
      (AttendanceSerializer.create_attrs clk data) in
  (∀ user : Z,
     AttendanceData.marked_by data = Some (Some user) → user ∉ users db →
     result = (ValidationError "does_not_exist" ["marked_by"], db)) ∧
  (marked_by_known db data →
   (∀ (k : Z) (row : Attendance.t),
      attendance db !! k = Some row →
      Attendance.student row = AttendanceData.student data →
      Attendance.date row = AttendanceSerializer.validated_date clk data →
      False) →
   result.2 = created.2 ∧
   result.1 = match AttendanceData.date data with
              | Some _ => Response_data created.1 HTTP_201_CREATED
              | None => ServerError "AssertionError"
              end ∧
   attendance db !! created.1.1 = None ∧
   attendance result.2 !! created.1.1 = Some created.1.2 ∧
   created.1.2
   = {| Attendance.student := AttendanceData.student data;
        Attendance.date :=
          default (datetime_date (timezone_now clk))
            (AttendanceData.date data);
        Attendance.status :=
          default Attendance.PRESENT (AttendanceData.status data);
        Attendance.marked_by := Some (User.id (Request.user req));
        Attendance.notes := default None (AttendanceData.notes data) |} ∧
   (∀ (k : Z) (row : Attendance.t),
      attendance db !! k = Some row → attendance result.2 !! k = Some row) ∧
   set_attendance result.2 (attendance db) = db).
Proof.
  intros Hperm Hst result created. split.
  - intros user Hby Hunknown. subst result.
    unfold AttendanceViewSet.create. rewrite initial_granted by done.
    by rewrite (field_errors_marked_by _ _ _ Hst Hby Hunknown).
  - intros Hknown Hfree.
    assert (result = (AttendanceSerializer.render data created.1
                        HTTP_201_CREATED, created.2)) as ->.
    { subst result created. unfold AttendanceViewSet.create.
      rewrite initial_granted by done.
      rewrite field_errors_nil by done. cbv zeta.
      rewrite (proj2 (unique_together_conflict_false _ _ _)); [done|].
      intros k row Hk _. exact (Hfree k row Hk). }
    subst created. unfold AttendanceViewSet.perform_create. cbn [fst snd].
    split_and!.
    + done.
    + done.
    + apply fresh_key_unused.
    + simpl. by rewrite lookup_insert_eq.
    + done.
    + intros k row Hk. simpl. by apply insert_fresh_keeps.
    + apply set_attendance_restore.
Qed.

(** The warden marks Sara absent on day 20, naming the admin in
    [marked_by]: the record is stored as marked by the warden. *)
Lemma attendance_create_marks_requester_witness :
  let data : AttendanceData.t :=
    {| AttendanceData.student := 2; AttendanceData.date := Some 20;
       AttendanceData.status := Some Attendance.ABSENT;
       AttendanceData.marked_by := Some (Some 1);
       AttendanceData.notes := None |} in
  let result := AttendanceViewSet.create Sample.clock Sample.db
                  (Sample.request Sample.warden) data in
  succeeds result.1 = true ∧
  attendance result.2 !! 1 = Some Sample.attendance_ali ∧
  Attendance.marked_by <$> attendance result.2 !! 2 = Some (Some 2).
Proof.
  intros data result.
  assert (∀ (k : Z) (row : Attendance.t),
            attendance Sample.db !! k = Some row →
            Attendance.student row = AttendanceData.student data →
            Attendance.date row
            = AttendanceSerializer.validated_date Sample.clock data →
            False) as Hfree.
  { intros k row Hk Hs _.
    pose proof (proj2 (elem_of_map_to_list (attendance Sample.db) k row) Hk)
      as Hin.
    vm_compute in Hin. apply list_elem_of_singleton in Hin.
    injection Hin as _ ->. discriminate Hs. }
  assert (marked_by_known Sample.db data) as Hknown.
  { intros user [= <-]. by vm_compute. }
  pose proof (proj2 (attendance_create_marks_requester Sample.clock Sample.db
                (Sample.request Sample.warden) data eq_refl
                (ex_intro _ Sample.profile_sara eq_refl)) Hknown Hfree)
    as (_ & Hres & _ & _ & _ & Hkeep & _).
  split_and!.
  - subst result. by rewrite Hres.
  - by apply Hkeep.
  - reflexivity.
Defined.

(** X16. What [perform_create] saves for a visitor and for a complaint.
    A visitor is stored under an unused key as submitted, with
    [approved_by] set to the requester. A complaint is stored under an
    unused key: for a student requester, as submitted but attributed to
    the requester's own profile, whatever student the request named;
    for any other requester, as submitted. For a student without a
    profile nothing is stored: the profile access raises. Existing
    records are kept. *)
Theorem created_records_are_attributed (db : Store) (req : Request.t) :
  (∀ data : Visitor.t,
     let created := VisitorViewSet.perform_create db req data in
     visitors db !! created.1.1 = None ∧
     visitors created.2 !! created.1.1 = Some created.1.2 ∧
     Visitor.approved_by created.1.2 = Some (User.id (Request.user req)) ∧
     Visitor.set_approved_by created.1.2 (Visitor.approved_by data) = data ∧
     (∀ (k : Z) (row : Visitor.t),
        visitors db !! k = Some row → visitors created.2 !! k = Some row)) ∧
  (∀ data : Complaint.t,
     match ComplaintViewSet.perform_create db req data with
     | Some ((pk, row), db') =>
         complaints db !! pk = None ∧
         complaints db' !! pk = Some row ∧
         Complaint.set_student row (Complaint.student data) = data ∧
         (User.is_student (Request.user req) = true →
          ∃ profile : StudentProfile.t,
            students db !! Complaint.student row = Some profile ∧
            StudentProfile.user profile = User.id (Request.user req)) ∧
         (User.is_student (Request.user req) = false → row = data) ∧
         (∀ (k : Z) (old : Complaint.t),
            complaints db !! k = Some old → complaints db' !! k = Some old)
     | None =>
         User.is_student (Request.user req) = true ∧
         student_profile db (Request.user req) = None
     end).
Proof.
  split.
  - intros data created. subst created.
    unfold VisitorViewSet.perform_create. cbn [fst snd]. split_and!.
    + apply fresh_key_unused.
    + simpl. by rewrite lookup_insert_eq.
    + done.
    + by destruct data.
    + intros k row Hk. simpl. by apply insert_fresh_keeps.
  - intros data. unfold ComplaintViewSet.perform_create.
    destruct (User.is_student (Request.user req)) eqn:Hst.
    + destruct (student_profile db (Request.user req)) as [[ppk profile]|]
        eqn:Hprof; simpl; [|done].
      destruct (student_profile_Some _ _ _ _ Hprof) as [Hrow Huser].
      split_and!.
      * apply fresh_key_unused.
      * by rewrite lookup_insert_eq.
      * by destruct data.
      * intros _. by exists profile.
      * done.
      * intros k old Hk. by apply insert_fresh_keeps.
    + split_and!.
      * apply fresh_key_unused.
      * simpl. by rewrite lookup_insert_eq.
      * by destruct data.
      * done.
      * done.
      * intros k old Hk. simpl. by apply insert_fresh_keeps.
Qed.

(** Ali files a complaint and names profile 2 in it: it is stored for
    his own profile, 1. The newcomer, without a profile, cannot. A
    visitor the warden registers is approved by the warden. *)
Lemma created_records_are_attributed_witness :
  (fst <$> ComplaintViewSet.perform_create Sample.db
             (Sample.request Sample.ali) Sample.complaint_1)
  = Some (2, Complaint.set_student Sample.complaint_1 1) ∧
  ComplaintViewSet.perform_create Sample.db
    (Sample.request Sample.newcomer) Sample.complaint_1 = None ∧
  Visitor.approved_by
    (VisitorViewSet.perform_create Sample.db (Sample.request Sample.warden)
       Sample.visitor_1).1.2 = Some 2.
Proof.
  split; [reflexivity|]. split; [reflexivity|].
  exact (proj1 (proj2 (proj2 (proj1 (created_records_are_attributed Sample.db
    (Sample.request Sample.warden)) Sample.visitor_1)))).
Defined.

(** X17. A permitted [update] of a record the view resolves, for an
    existing student. A [marked_by] that names no user is refused, and
    nothing is written. Otherwise: if another record has the submitted
    student and date (the date being the present day when none is
    sent), the answer is the uniqueness error and nothing is written;
    if no other record has them (as when they are left as they were, in
    a table without duplicates), the record is replaced by the fields
    sent, a field left out keeping its stored value. The answer is 200
    with the record when [date] was sent, and the exception of the
    rendering, after the write, when it was left out. *)
Theorem attendance_update_checks_other_records
    (clk : Clock) (db : Store) (req : Request.t) (pk : Z)
    (data : AttendanceData.t) (old : Attendance.t) :
  check_permissions (AttendanceViewSet.get_permissions Action.update)
    (Request.user req) = true →
  AttendanceViewSet.get_object db req pk = Some old →
  is_Some (students db !! AttendanceData.student data) →
  let result := AttendanceViewSet.update clk db req pk data in
  let date := default (datetime_date (timezone_now clk))
                (AttendanceData.date data) in
  let row : Attendance.t :=
    {| Attendance.student := AttendanceData.student data;
       Attendance.date := date;
       Attendance.status :=
         default (Attendance.status old) (AttendanceData.status data);
       Attendance.marked_by :=
         default (Attendance.marked_by old) (AttendanceData.marked_by data);
       Attendance.notes :=
         default (Attendance.notes old) (AttendanceData.notes data) |} in
  let replaced : Response (Z * Attendance.t) * Store :=
    (match AttendanceData.date data with
     | Some _ => Response_data (pk, row) HTTP_200_OK
     | None => ServerError "AssertionError"
     end,
     set_attendance db (<[pk := row]> (attendance db))) in
  (∀ user : Z,
     AttendanceData.marked_by data = Some (Some user) → user ∉ users db →
     result = (ValidationError "does_not_exist" ["marked_by"], db)) ∧
  (marked_by_known db data →
   ((∃ (k : Z) (other : Attendance.t),
       k ≠ pk ∧ attendance db !! k = Some other ∧
       Attendance.student other = AttendanceData.student data ∧
       Attendance.date other = date) →
    result = (ValidationError "unique" ["student"; "date"], db)) ∧
   ((∀ (k : Z) (other : Attendance.t),
       k ≠ pk → attendance db !! k = Some other →
       Attendance.student other = AttendanceData.student data →
       Attendance.date other = date → False) →
    result = replaced) ∧
   (attendance_unique (attendance db) →
    AttendanceData.student data = Attendance.student old →
    date = Attendance.date old →
    result = replaced)).
Proof.
  intros Hperm Hobj Hst result date row replaced. split.
  - intros user Hby Hunknown. subst result.
    unfold AttendanceViewSet.update. rewrite initial_granted by done.
    rewrite Hobj. by rewrite (field_errors_marked_by _ _ _ Hst Hby Hunknown).
  - intros Hknown.
    assert (∀ conflict : bool,
              unique_together_conflict (attendance db) (Some pk) row
              = conflict →
              result = if conflict
                       then (ValidationError "unique" ["student"; "date"], db)
                       else replaced)
      as Hresult.
    { intros conflict Hc. subst result. unfold AttendanceViewSet.update.
      rewrite initial_granted by done. rewrite Hobj.
      rewrite field_errors_nil by done. cbv zeta.
      fold (AttendanceSerializer.validated_date clk data) in date.
      change (AttendanceSerializer.update_attrs clk old data) with row.
      by rewrite Hc. }
    assert ((∀ (k : Z) (other : Attendance.t),
               k ≠ pk → attendance db !! k = Some other →
               Attendance.student other = AttendanceData.student data →
               Attendance.date other = date → False) →
            result = replaced) as Hfree.
    { intros Hfree. apply (Hresult false).
      apply unique_together_conflict_false. intros k other Hk Hne.
      apply (Hfree k other); [congruence|done]. }
    split_and!.
    + intros (k & other & Hne & Hk & Hs & Hd). apply (Hresult true).
      apply unique_together_conflict_true. exists k, other.
      split_and!; [done|congruence|done..].
    + done.
    + intros Huniq Hs Hd. apply Hfree. intros k other Hne Hk Hs' Hd'.
      apply Hne. apply Attendance_get_object_stored in Hobj.
      apply (Huniq k pk other old); [done|done|congruence|congruence].
Qed.

(** The warden changes Ali's record of day 20 to leave, sending
    student, date and status: who marked it, and the notes, stay. *)
Lemma attendance_update_checks_other_records_witness :
  let data : AttendanceData.t :=
    {| AttendanceData.student := 1; AttendanceData.date := Some 20;
       AttendanceData.status := Some Attendance.LEAVE;
       AttendanceData.marked_by := None; AttendanceData.notes := None |} in
  let row : Attendance.t :=
    {| Attendance.student := 1; Attendance.date := 20;
       Attendance.status := Attendance.LEAVE;
       Attendance.marked_by := Some 2; Attendance.notes := None |} in
  AttendanceViewSet.get_object Sample.db (Sample.request Sample.warden) 1
    = Some Sample.attendance_ali ∧
  AttendanceViewSet.update Sample.clock Sample.db
    (Sample.request Sample.warden) 1 data
  = (Response_data (1, row) HTTP_200_OK,
     set_attendance Sample.db (<[1 := row]> (attendance Sample.db))).
Proof.
  intros data row. split; [reflexivity|].
  refine (proj1 (proj2 (proj2 (attendance_update_checks_other_records
    Sample.clock Sample.db (Sample.request Sample.warden) 1 data
    Sample.attendance_ali eq_refl eq_refl
    (ex_intro _ Sample.profile_ali eq_refl)) _)) _).
  - intros user Hby. discriminate Hby.
  - intros k other Hne Hk.
    pose proof (proj2 (elem_of_map_to_list (attendance Sample.db) k other) Hk)
      as Hin.
    vm_compute in Hin. apply list_elem_of_singleton in Hin.
    injection Hin as -> _. by destruct Hne.
Defined.

(** X18. [destroy] on attendance is for admins only; for an admin it
    answers 404 for a record the view does not resolve, and otherwise
    removes that record and no other. *)
Theorem attendance_destroy_removes_one
    (db : Store) (req : Request.t) (pk : Z) :
  let result := AttendanceViewSet.destroy db req pk in
  (has_permission IsAdmin (Request.user req) = false →
   result = (PermissionDenied, db)) ∧
  (has_permission IsAdmin (Request.user req) = true →
   AttendanceViewSet.get_object db req pk = None →
   result = (Http404, db)) ∧
  (has_permission IsAdmin (Request.user req) = true →
   is_Some (AttendanceViewSet.get_object db req pk) →
   result.1 = Response_data () HTTP_204_NO_CONTENT ∧
   attendance result.2 !! pk = None ∧
   (∀ k : Z, k ≠ pk → attendance result.2 !! k = attendance db !! k) ∧
   set_attendance result.2 (attendance db) = db).
Proof.
  intros result. subst result. unfold AttendanceViewSet.destroy.
  split_and!.
  - intros Hperm. apply initial_refused.
    unfold AttendanceViewSet.get_permissions. by rewrite check_single.
  - intros Hperm Hnone. rewrite initial_granted
      by (unfold AttendanceViewSet.get_permissions; by rewrite check_single).
    by rewrite Hnone.
  - intros Hperm [row Hobj]. rewrite initial_granted
      by (unfold AttendanceViewSet.get_permissions; by rewrite check_single).
    rewrite Hobj. cbn [fst snd]. split_and!.
    + done.
    + simpl. apply lookup_delete_eq.
    + intros k Hk. simpl. by apply lookup_delete_ne.
    + apply set_attendance_restore.
Qed.

Lemma attendance_destroy_removes_one_witness :
  AttendanceViewSet.destroy Sample.db (Sample.request Sample.warden) 1
    = (PermissionDenied, Sample.db) ∧
  attendance (AttendanceViewSet.destroy Sample.db
                (Sample.request Sample.admin) 1).2 !! 1 = None.
Proof.
  pose proof (attendance_destroy_removes_one Sample.db
                (Sample.request Sample.warden) 1) as (Hdenied & _).
  pose proof (attendance_destroy_removes_one Sample.db
                (Sample.request Sample.admin) 1) as (_ & _ & Hgone).
  split.
  - apply Hdenied. reflexivity.
  - apply Hgone; [reflexivity|]. by eexists.
Defined.

(** ** Attendance summary and today's menu *)

(** Rows that fall in exactly one of three classes are counted by
    adding the three counts. *)
Lemma length_filter_3 {A} (P R1 R2 R3 : A → Prop)
    `{!∀ x, Decision (P x)} `{!∀ x, Decision (R1 x)}
    `{!∀ x, Decision (R2 x)} `{!∀ x, Decision (R3 x)} (l : list A) :
  (∀ x, P x ↔ R1 x ∨ R2 x ∨ R3 x) →
  (∀ x, ¬ (R1 x ∧ R2 x) ∧ ¬ (R1 x ∧ R3 x) ∧ ¬ (R2 x ∧ R3 x)) →
  length (filter P l)
  = (length (filter R1 l) + length (filter R2 l) + length (filter R3 l))%nat.
Proof.
  intros Hcover Hexcl. induction l as [|x l IH]; [done|].
  rewrite !filter_cons.
  pose proof (Hcover x) as Hc. pose proof (Hexcl x) as He.
  repeat case_decide; simpl; rewrite IH; first [lia | exfalso; tauto].
Qed.

Lemma size_filter_3 {A} (P R1 R2 R3 : Z * A → Prop)
    `{!∀ x, Decision (P x)} `{!∀ x, Decision (R1 x)}
    `{!∀ x, Decision (R2 x)} `{!∀ x, Decision (R3 x)} (m : gmap Z A) :
  (∀ x, P x ↔ R1 x ∨ R2 x ∨ R3 x) →
  (∀ x, ¬ (R1 x ∧ R2 x) ∧ ¬ (R1 x ∧ R3 x) ∧ ¬ (R2 x ∧ R3 x)) →
  size (filter P m)
  = (size (filter R1 m) + size (filter R2 m) + size (filter R3 m))%nat.
Proof. intros. rewrite !size_filter. by apply length_filter_3. Qed.

Lemma size_filter_le {A} (P : Z * A → Prop) `{!∀ x, Decision (P x)}
    (m : gmap Z A) :
  (size (filter P m) ≤ size m)%nat.
Proof. apply map_subseteq_size, map_filter_subseteq. Qed.

(** X19. [summary], whatever the floating-point operations are. With
    [student_id] given, any authenticated requester is answered with
    the counts of that student over the whole attendance table; without
    it, a student who has a profile gets the counts of that profile,
    and anybody else the 400 error 'student_id required'. In an answer
    [total_days] is the number of the student's records, and [present],
    [absent] and [leave] are the numbers of those with that status, so
    that the total is their sum; with no record the percentage is the
    rounded zero: nothing is divided. *)
Theorem summary_counts {F : Type}
    (percentage_of : Z → Z → F) (zero : F) (round2 : F → F)
    (db : Store) (req : Request.t) :
  User.is_authenticated (Request.user req) = true →
  let response :=
    AttendanceViewSet.summary percentage_of zero round2 db req in
  let answers_for (i : Z) : Prop :=
    ∃ data : AttendanceViewSet.summary_data,
      response = Response_data data HTTP_200_OK ∧
      AttendanceViewSet.total_days data
      = Z.of_nat (length (filter
          (λ kv : Z * Attendance.t, Attendance.student kv.2 = i)
          (map_to_list (attendance db)))) ∧
      AttendanceViewSet.present data
      = Z.of_nat (length (filter
          (λ kv : Z * Attendance.t,
             Attendance.student kv.2 = i ∧
             Attendance.status kv.2 = Attendance.PRESENT)
          (map_to_list (attendance db)))) ∧
      AttendanceViewSet.absent data
      = Z.of_nat (length (filter
          (λ kv : Z * Attendance.t,
             Attendance.student kv.2 = i ∧
             Attendance.status kv.2 = Attendance.ABSENT)
          (map_to_list (attendance db)))) ∧
      AttendanceViewSet.leave data
      = Z.of_nat (length (filter
          (λ kv : Z * Attendance.t,
             Attendance.student kv.2 = i ∧
             Attendance.status kv.2 = Attendance.LEAVE)
          (map_to_list (attendance db)))) ∧
      AttendanceViewSet.total_days data
      = AttendanceViewSet.present data + AttendanceViewSet.absent data
        + AttendanceViewSet.leave data ∧
      (AttendanceViewSet.total_days data = 0 →
       AttendanceViewSet.percentage data = round2 zero) ∧
      (AttendanceViewSet.total_days data ≠ 0 →
       AttendanceViewSet.percentage data
       = round2 (percentage_of (AttendanceViewSet.present data)
                   (AttendanceViewSet.total_days data))) in
  (∀ i : Z, Request.student_id (Request.params req) = Some i →
            answers_for i) ∧
  (Request.student_id (Request.params req) = None →
   (∀ profile_pk profile,
      User.is_student (Request.user req) = true →
      student_profile db (Request.user req) = Some (profile_pk, profile) →
      answers_for profile_pk) ∧
   (User.is_student (Request.user req) = false ∨
    student_profile db (Request.user req) = None →
    response = Response_error "student_id required" HTTP_400_BAD_REQUEST)).
Proof.
  intros Hauth response answers_for.
  assert (check_permissions (AttendanceViewSet.get_permissions Action.summary)
            (Request.user req) = true) as Hperm
    by by rewrite <- (check_IsAuthenticated (Request.user req)) in Hauth.
  assert (∀ i : Z,
    (let total := Z.of_nat (size (filter
           (λ kv : Z * Attendance.t, Attendance.student kv.2 = i)
           (attendance db))) in
     let present := Z.of_nat (size (filter
           (λ kv : Z * Attendance.t,
              Attendance.student kv.2 = i ∧
              Attendance.status kv.2 = Attendance.PRESENT)
           (attendance db))) in
     let absent := Z.of_nat (size (filter
           (λ kv : Z * Attendance.t,
              Attendance.student kv.2 = i ∧
              Attendance.status kv.2 = Attendance.ABSENT)
           (attendance db))) in
     let leave := Z.of_nat (size (filter
           (λ kv : Z * Attendance.t,
              Attendance.student kv.2 = i ∧
              Attendance.status kv.2 = Attendance.LEAVE)
           (attendance db))) in
     response = Response_data
       {| AttendanceViewSet.total_days := total;
          AttendanceViewSet.present := present;
          AttendanceViewSet.absent := absent;
          AttendanceViewSet.leave := leave;
          AttendanceViewSet.percentage :=
            round2 (if decide (total > 0)
                    then percentage_of present total else zero) |}
       HTTP_200_OK) →
    answers_for i) as Hanswer.
  { intros i Hresp. eexists. split; [exact Hresp|]. cbn [
      AttendanceViewSet.total_days AttendanceViewSet.present
      AttendanceViewSet.absent AttendanceViewSet.leave
      AttendanceViewSet.percentage].
    split_and!.
    - by rewrite size_filter.
    - by rewrite size_filter.
    - by rewrite size_filter.
    - by rewrite size_filter.
    - rewrite (size_filter_3
        (λ kv : Z * Attendance.t, Attendance.student kv.2 = i)
        (λ kv : Z * Attendance.t,
           Attendance.student kv.2 = i ∧
           Attendance.status kv.2 = Attendance.PRESENT)
        (λ kv : Z * Attendance.t,
           Attendance.student kv.2 = i ∧
           Attendance.status kv.2 = Attendance.ABSENT)
        (λ kv : Z * Attendance.t,
           Attendance.student kv.2 = i ∧
           Attendance.status kv.2 = Attendance.LEAVE)); [lia| |].
      + intros [k a]. simpl. destruct (Attendance.status a); intuition done.
      + intros [k a]. simpl. destruct (Attendance.status a); intuition done.
    - intros H0. by rewrite decide_False by lia.
    - intros H0. by rewrite decide_True by lia. }
  split.
  - intros i Hi. apply Hanswer. subst response.
    unfold AttendanceViewSet.summary. rewrite initial_granted by done.
    by rewrite Hi.
  - intros Hnone. split.
    + intros ppk profile Hst Hprof. apply Hanswer. subst response.
      unfold AttendanceViewSet.summary. rewrite initial_granted by done.
      unfold hasattr_student_profile. rewrite Hnone, Hst, Hprof.
      by rewrite bool_decide_eq_true_2 by by eexists.
    + intros Hno. subst response.
      unfold AttendanceViewSet.summary. rewrite initial_granted by done.
      unfold hasattr_student_profile. rewrite Hnone.
      destruct Hno as [->| ->]; [done|].
      rewrite bool_decide_eq_false_2 by by intros [? ?].
      by rewrite andb_false_r.
Qed.

(** The warden asks for the summary of Ali, who has one record, on
    which he is present; the warden, sending no [student_id], is told
    it is required. The float operations are replaced by ones on pairs,
    for the sake of running the definition. *)
Lemma summary_counts_witness :
  let asking (u : User.t) (i : option Z) : Request.t :=
    {| Request.user := u;
       Request.params :=
         {| Request.status := None; Request.type := None;
            Request.is_active := None; Request.fee_status := None;
            Request.student_id := i; Request.date := None;
            Request.today := None |} |} in
  (∃ data : AttendanceViewSet.summary_data,
     AttendanceViewSet.summary (λ p t, (p, t)) (0, 1) id Sample.db
       (asking Sample.warden (Some 1))
     = Response_data data HTTP_200_OK ∧
     AttendanceViewSet.total_days data = 1 ∧
     AttendanceViewSet.present data = 1 ∧
     AttendanceViewSet.absent data = 0 ∧
     AttendanceViewSet.leave data = 0 ∧
     AttendanceViewSet.percentage data = (1, 1)) ∧
  AttendanceViewSet.summary (λ p t, (p, t)) (0, 1) id Sample.db
    (asking Sample.warden None)
  = Response_error "student_id required" HTTP_400_BAD_REQUEST.
Proof.
  intros asking. split.
  - destruct (proj1 (summary_counts (λ p t, (p, t)) (0, 1) id Sample.db
                       (asking Sample.warden (Some 1)) eq_refl) 1 eq_refl)
      as (data & Hdata & Htotal & Hpresent & Habsent & Hleave & _ & _ & Hpct).
    exists data.
    assert (AttendanceViewSet.total_days data = 1) as Htotal'
      by (etrans; [exact Htotal|]; vm_compute; reflexivity).
    assert (AttendanceViewSet.present data = 1) as Hpresent'
      by (etrans; [exact Hpresent|]; vm_compute; reflexivity).
    split_and!.
    + exact Hdata.
    + exact Htotal'.
    + exact Hpresent'.
    + etrans; [exact Habsent|]. vm_compute. reflexivity.
    + etrans; [exact Hleave|]. vm_compute. reflexivity.
    + etrans; [apply Hpct; by rewrite Htotal'|].
      by rewrite Hpresent', Htotal'.
  - refine (proj2 (proj2 (summary_counts (λ p t, (p, t)) (0, 1) id Sample.db
                            (asking Sample.warden None) eq_refl) eq_refl) _).
    by left.
Defined.

(** X20. [today], on a table in which no two menus have the same date:
    an authenticated requester is answered with the menu dated today
    when there is one, and with the 404 message 'No menu for today'
    when there is none; the lookup never finds several. *)
Theorem mess_menu_today (clk : Clock) (db : Store) (req : Request.t) :
  User.is_authenticated (Request.user req) = true →
  mess_menu_dates_unique (mess_menus db) →
  (∀ (k : Z) (menu : MessMenu.t),
     mess_menus db !! k = Some menu →
     MessMenu.date menu = date_today clk →
     MessMenuViewSet.today clk db req
     = Some (Response_data (Object menu) HTTP_200_OK)) ∧
  ((∀ (k : Z) (menu : MessMenu.t),
      mess_menus db !! k = Some menu →
      MessMenu.date menu ≠ date_today clk) →
   MessMenuViewSet.today clk db req
   = Some (Response_data (Message "No menu for today") HTTP_404_NOT_FOUND)) ∧
  MessMenuViewSet.today clk db req ≠ None.
Proof.
  intros Hauth Huniq.
  assert (check_permissions (MessMenuViewSet.get_permissions Action.today)
            (Request.user req) = true) as Hperm
    by by rewrite <- (check_IsAuthenticated (Request.user req)) in Hauth.
  assert (∀ (k : Z) (menu : MessMenu.t),
     mess_menus db !! k = Some menu →
     MessMenu.date menu = date_today clk →
     MessMenuViewSet.today clk db req
     = Some (Response_data (Object menu) HTTP_200_OK)) as Hfound.
  { intros k menu Hk Hdate. unfold MessMenuViewSet.today.
    rewrite initial_granted by done.
    assert (filter (λ kv : Z * MessMenu.t, MessMenu.date kv.2 = date_today clk)
                   (mess_menus db) = {[ k := menu ]}) as ->.
    { apply map_eq. intros i. destruct (decide (i = k)) as [->|Hne].
      - rewrite lookup_singleton_eq. by apply map_lookup_filter_Some.
      - rewrite lookup_singleton_ne by done.
        apply map_lookup_filter_None. right. intros menu' Hi Hdate'.
        simpl in Hdate'. apply Hne.
        apply (Huniq i k menu' menu); [done|done|congruence]. }
    unfold objects_get. by rewrite map_to_list_singleton. }
  assert ((∀ (k : Z) (menu : MessMenu.t),
      mess_menus db !! k = Some menu →
      MessMenu.date menu ≠ date_today clk) →
     MessMenuViewSet.today clk db req
     = Some (Response_data (Message "No menu for today") HTTP_404_NOT_FOUND))
    as Hmissing.
  { intros Hnone. unfold MessMenuViewSet.today.
    rewrite initial_granted by done.
    assert (filter (λ kv : Z * MessMenu.t, MessMenu.date kv.2 = date_today clk)
                   (mess_menus db) = ∅) as ->.
    { apply map_empty_filter. intros k menu Hk. by apply (Hnone k). }
    unfold objects_get. by rewrite map_to_list_empty. }
  split_and!; [done..|].
  destruct (decide (map_Exists
              (λ _ menu, MessMenu.date menu = date_today clk) (mess_menus db)))
    as [(k & menu & Hk & Hdate)|Hnone].
  - by rewrite (Hfound k menu).
  - rewrite Hmissing; [done|].
    intros k menu Hk Hdate. apply Hnone. by exists k, menu.
Qed.

Lemma mess_menu_today_witness :
  mess_menu_dates_unique (mess_menus Sample.db) ∧
  MessMenuViewSet.today Sample.clock Sample.db (Sample.request Sample.ali)
  = Some (Response_data (Object Sample.menu_1) HTTP_200_OK).
Proof.
  assert (mess_menu_dates_unique (mess_menus Sample.db)) as Huniq.
  { intros i j a b Hi Hj _.
    pose proof (proj2 (elem_of_map_to_list (mess_menus Sample.db) i a) Hi)
      as Hin.
    pose proof (proj2 (elem_of_map_to_list (mess_menus Sample.db) j b) Hj)
      as Hjn.
    vm_compute in Hin, Hjn.
    apply list_elem_of_singleton in Hin, Hjn. congruence. }
  split; [exact Huniq|].
  exact (proj1 (mess_menu_today Sample.clock Sample.db
    (Sample.request Sample.ali) eq_refl Huniq) 1 Sample.menu_1
    eq_refl eq_refl).
Defined.

(** ** The dashboard counters *)

Lemma size_partition_3 {A} (R1 R2 R3 : Z * A → Prop)
    `{!∀ x, Decision (R1 x)} `{!∀ x, Decision (R2 x)}
    `{!∀ x, Decision (R3 x)} (m : gmap Z A) :
  (∀ x, R1 x ∨ R2 x ∨ R3 x) →
  (∀ x, ¬ (R1 x ∧ R2 x) ∧ ¬ (R1 x ∧ R3 x) ∧ ¬ (R2 x ∧ R3 x)) →
  size m
  = (size (filter R1 m) + size (filter R2 m) + size (filter R3 m))%nat.
Proof.
  intros Hcover Hexcl.
  rewrite <- (map_filter_id (λ _ : Z * A, True) m) at 1 by done.
  apply size_filter_3; [|done]. intros x. split; [by intros _|done].
Qed.

(** X21. The counters of the dashboard of an admin or a warden add up:
    every room is counted once as occupied, available or under
    maintenance; the active students are among the students; and the
    pending fees together with the paid ones are all the fees. The
    counters are those of the answer whenever there is one, which is
    when both fee sums can be written with ten digits; otherwise the
    request ends in the exception of the decimal field. *)
Theorem dashboard_counters_add_up (clk : Clock) (db : Store) (req : Request.t) :
  User.is_authenticated (Request.user req) = true →
  User.role (Request.user req) ≠ User.STUDENT →
  ∃ (total occupied available students_ active pending : Z),
    (totals_fit db →
     ∃ stats : gmap string Value,
       dashboard_stats clk db req = Response_data stats HTTP_200_OK ∧
       stats !! "total_rooms" = Some (VInt total) ∧
       stats !! "occupied_rooms" = Some (VInt occupied) ∧
       stats !! "available_rooms" = Some (VInt available) ∧
       stats !! "total_students" = Some (VInt students_) ∧
       stats !! "active_students" = Some (VInt active) ∧
       stats !! "pending_fees" = Some (VInt pending)) ∧
    (¬ totals_fit db →
     dashboard_stats clk db req = ServerError "InvalidOperation") ∧
    (let stats := dashboard_stats_dict clk db (Request.user req) in
     stats !! "total_rooms" = Some (VInt total) ∧
     stats !! "occupied_rooms" = Some (VInt occupied) ∧
     stats !! "available_rooms" = Some (VInt available) ∧
     stats !! "total_students" = Some (VInt students_) ∧
     stats !! "active_students" = Some (VInt active) ∧
     stats !! "pending_fees" = Some (VInt pending)) ∧
    total = occupied + available
            + count (filter (λ kv : Z * Room.t,
                               Room.status kv.2 = Room.MAINTENANCE) (rooms db)) ∧
    0 ≤ active ≤ students_ ∧
    pending + count (filter (λ kv : Z * Fee.t, Fee.status kv.2 = Fee.PAID)
                            (fees db))
    = count (fees db).
Proof.
  intros Hauth Hrole.
  do 6 eexists. split_and!.
  - intros Hfit. rewrite dashboard_stats_staff by done.
    rewrite decide_True by done.
    eexists. split; [reflexivity|]. dict_lookup.
    split_and!; reflexivity.
  - intros Hfit. rewrite dashboard_stats_staff by done.
    by rewrite decide_False.
  - cbv zeta. rewrite dashboard_stats_dict_staff by done. dict_lookup.
    split_and!; reflexivity.
  - unfold count.
    rewrite (size_partition_3
      (λ kv : Z * Room.t, Room.status kv.2 = Room.OCCUPIED)
      (λ kv : Z * Room.t, Room.status kv.2 = Room.VACANT)
      (λ kv : Z * Room.t, Room.status kv.2 = Room.MAINTENANCE) (rooms db));
      [lia| |].
    + intros [k room]. simpl. destruct (Room.status room); intuition done.
    + intros [k room]. simpl. destruct (Room.status room); intuition done.
  - unfold count. lia.
  - unfold count. apply inj_le, size_filter_le.
  - unfold count.
    rewrite (size_partition_3
      (λ kv : Z * Fee.t,
         Fee.status kv.2 = Fee.UNPAID ∨ Fee.status kv.2 = Fee.OVERDUE)
      (λ kv : Z * Fee.t, Fee.status kv.2 = Fee.PAID)
      (λ _ : Z * Fee.t, False) (fees db)).
    + rewrite (filter_nothing (λ _ : Z * Fee.t, False)) by (by intros ? []).
      rewrite map_size_empty. lia.
    + intros [k fee]. simpl. destruct (Fee.status fee); intuition done.
    + intros [k fee]. simpl. destruct (Fee.status fee); intuition done.
Qed.

(** Two rooms, one occupied and one vacant; two students, both active;
    one fee pending out of two. *)
Lemma dashboard_counters_add_up_witness :
  totals_fit Sample.db ∧
  ∃ stats : gmap string Value,
    dashboard_stats Sample.clock Sample.db (Sample.request Sample.warden)
      = Response_data stats HTTP_200_OK ∧
    stats !! "total_rooms" = Some (VInt 2) ∧
    stats !! "pending_fees" = Some (VInt 1).
Proof.
  assert (totals_fit Sample.db) as Hfit by by vm_compute.
  split; [exact Hfit|].
  destruct (dashboard_counters_add_up Sample.clock Sample.db
              (Sample.request Sample.warden) eq_refl ltac:(discriminate))
    as (total & occupied & available & students_ & active & pending
        & Hanswer & _ & Hdict & _).
  destruct (Hanswer Hfit) as (stats & Hstats & Htotal & _ & _ & _ & _ & Hpending).
  destruct Hdict as (Htotal' & _ & _ & _ & _ & Hpending').
  exists stats. split; [exact Hstats|]. split.
  - etrans; [exact Htotal|]. etrans; [symmetry; exact Htotal'|].
    vm_compute. reflexivity.
  - etrans; [exact Hpending|]. etrans; [symmetry; exact Hpending'|].
    vm_compute. reflexivity.
Defined.

(** X22. The dashboard does not depend on which admin or warden asks. *)
Theorem dashboard_same_for_staff
    (clk : Clock) (db : Store) (req req' : Request.t) :
  User.is_authenticated (Request.user req) = true →
  User.is_authenticated (Request.user req') = true →
  User.role (Request.user req) ≠ User.STUDENT →
  User.role (Request.user req') ≠ User.STUDENT →
  dashboard_stats clk db req = dashboard_stats clk db req'.
Proof.
  intros Hauth Hauth' Hrole Hrole'.
  by rewrite !dashboard_stats_staff.
Qed.

Lemma dashboard_same_for_staff_witness :
  dashboard_stats Sample.clock Sample.db (Sample.request Sample.admin)
  = dashboard_stats Sample.clock Sample.db (Sample.request Sample.warden).
Proof.
  apply dashboard_same_for_staff; [reflexivity|reflexivity|..]; discriminate.
Defined.

(** X23. What a student is answered: an exception, in every case. With
    a profile, the dictionary built has exactly five entries, the room
    of the profile (or none), the number of the profile's own fees that
    are not paid, and the profile's own attendance and
    pending-complaint counts; it has none of the hostel-wide counters,
    and the serializer, which asks for [total_rooms] first, raises
    [KeyError]. Without a profile the dictionary has the five
    hostel-wide room and student counters and nothing about fees, and
    the serializer raises [KeyError] when it comes to
    [pending_fees]. *)
Theorem dashboard_of_student (clk : Clock) (db : Store) (req : Request.t) :
  User.is_authenticated (Request.user req) = true →
  User.role (Request.user req) = User.STUDENT →
  let stats := dashboard_stats_dict clk db (Request.user req) in
  dashboard_stats clk db req = ServerError "KeyError" ∧
  (∀ (profile_pk : Z) (profile : StudentProfile.t),
     student_profile db (Request.user req) = Some (profile_pk, profile) →
     dom stats = list_to_set ["room"; "pending_fees"; "total_attendance";
                              "present_days"; "pending_complaints"] ∧
     stats !! "total_rooms" = None ∧
     stats !! "room"
     = Some (match StudentProfile.room profile with
             | Some i => match rooms db !! i with
                         | Some room => VRoom (i, room)
                         | None => VNone
                         end
             | None => VNone
             end) ∧
     stats !! "pending_fees"
     = Some (VInt (Z.of_nat (length (filter
         (λ kv : Z * Fee.t,
            Fee.student kv.2 = profile_pk ∧ Fee.status kv.2 ≠ Fee.PAID)
         (map_to_list (fees db)))))) ∧
     ∃ total present_ : Z,
       stats !! "total_attendance" = Some (VInt total) ∧
       stats !! "present_days" = Some (VInt present_) ∧
       0 ≤ present_ ≤ total) ∧
  (student_profile db (Request.user req) = None →
   dom stats = list_to_set ["total_rooms"; "occupied_rooms";
                            "available_rooms"; "total_students";
                            "active_students"] ∧
   stats !! "pending_fees" = None).
Proof.
  intros Hauth Hrole.
  assert (User.is_student (Request.user req) = true) as Hstudent
    by (unfold User.is_student; by rewrite Hrole).
  assert (User.is_admin (Request.user req) || User.is_warden (Request.user req)
          = false) as Hstaff
    by (unfold User.is_admin, User.is_warden; by rewrite Hrole).
  cbv zeta. unfold dashboard_stats.
  rewrite initial_granted by by rewrite check_IsAuthenticated.
  cbv zeta. unfold dashboard_stats_dict.
  unfold hasattr_student_profile. rewrite Hstudent, Hstaff. cbn [andb].
  destruct (student_profile db (Request.user req)) as [[ppk profile]|]
    eqn:Hprof.
  - rewrite bool_decide_eq_true_2 by by eexists.
    split_and!.
    + unfold DashboardStatsSerializer.data, DashboardStatsSerializer.fields.
      cbn [DashboardStatsSerializer.render]. by dict_lookup.
    + intros ? ? [= <- <-]. split_and!.
      * by rewrite dom_list_to_map_L.
      * by dict_lookup.
      * dict_lookup. f_equal.
        destruct (StudentProfile.room profile) as [i|]; [|done]. simpl.
        by destruct (rooms db !! i).
      * dict_lookup. do 2 f_equal. unfold count. rewrite size_filter.
        do 2 f_equal. apply list_filter_iff. intros [k fee]. simpl.
        rewrite !elem_of_cons, elem_of_nil.
        destruct (Fee.status fee); intuition done.
      * do 2 eexists. dict_lookup. split_and!; [reflexivity..| |].
        -- unfold count. lia.
        -- unfold count. apply inj_le.
           rewrite !size_filter. apply sublist_length.
           induction (map_to_list (attendance db)) as [|x l IH]; [done|].
           rewrite !filter_cons.
           repeat case_decide;
             first [done | by constructor | exfalso; tauto].
    + done.
  - rewrite bool_decide_eq_false_2 by by intros [? ?].
    split_and!.
    + unfold DashboardStatsSerializer.data, DashboardStatsSerializer.fields.
      cbn [DashboardStatsSerializer.render]. dict_lookup.
      by cbn [DashboardStatsSerializer.to_representation].
    + done.
    + intros _. split; [by rewrite dom_list_to_map_L | by dict_lookup].
Qed.

(** Sara has a profile and room 102: the dictionary built for her holds
    that room and no hostel-wide counter, and her request ends in
    [KeyError]; so does that of the newcomer, who has no profile. *)
Lemma dashboard_of_student_witness :
  dashboard_stats Sample.clock Sample.db (Sample.request Sample.sara)
    = ServerError "KeyError" ∧
  dashboard_stats_dict Sample.clock Sample.db Sample.sara !! "room"
    = Some (VRoom (2, Sample.room_102)) ∧
  dashboard_stats Sample.clock Sample.db (Sample.request Sample.newcomer)
    = ServerError "KeyError".
Proof.
  destruct (dashboard_of_student Sample.clock Sample.db
              (Sample.request Sample.sara) eq_refl eq_refl)
    as (Hraises & Hwith & _).
  destruct (Hwith 2 Sample.profile_sara eq_refl) as (_ & _ & Hroom & _).
  split_and!.
  - exact Hraises.
  - exact Hroom.
  - exact (proj1 (dashboard_of_student Sample.clock Sample.db
                    (Sample.request Sample.newcomer) eq_refl eq_refl)).
Defined.

(** ** Occupancy under assignment, and saving twice *)

Lemma size_filter_insert_le {A} (P : Z * A → Prop) `{!∀ x, Decision (P x)}
    (m : gmap Z A) (k : Z) (x : A) :
  (size (filter P (<[k := x]> m)) ≤ S (size (filter P m)))%nat.
Proof.
  rewrite map_filter_insert. case_decide.
  - rewrite map_size_insert. destruct (filter P m !! k); simpl; lia.
  - etrans; [|apply Nat.le_succ_diag_r].
    apply map_subseteq_size, map_filter_subseteq_mono, delete_subseteq.
Qed.

Lemma filter_insert_not {A} (P : Z * A → Prop) `{!∀ x, Decision (P x)}
    (m : gmap Z A) (k : Z) (x y : A) :
  m !! k = Some y → ¬ P (k, x) → ¬ P (k, y) →
  filter P (<[k := x]> m) = filter P m.
Proof.
  intros Hk Hx Hy. rewrite map_filter_insert, decide_False by done.
  apply map_filter_delete_not. intros y' Hk'. by simplify_eq.
Qed.

(** X24. A successful [assign_room] leaves the room with no more active
    occupants than its capacity. If the student is inactive, it takes
    no place: no room changes, the requested one stays vacant, and
    every occupancy is as before. *)
Theorem assign_room_respects_capacity
    (db : Store) (req : Request.t) (pk room_id : Z)
    (student : StudentProfile.obj) (room : Room.t) :
  StudentProfileViewSet.get_object db req pk = Some student →
  rooms db !! room_id = Some room →
  succeeds (StudentProfileViewSet.assign_room db req pk (Some room_id)).1
    = true →
  let db' := (StudentProfileViewSet.assign_room db req pk (Some room_id)).2 in
  current_occupancy db' room_id ≤ Room.capacity room ∧
  (StudentProfile.is_active (StudentProfile.row student) = false →
   rooms db' = rooms db ∧
   ∀ k : Z, current_occupancy db' k = current_occupancy db k).
Proof.
  intros Hobj Hroom Hok db'.
  destruct (assign_room_inv _ _ _ _ Hok)
    as (student' & room_pk & room' & Hid & Hobj' & Hroom' & Hav & Hdb).
  injection Hid as <-. rewrite Hobj in Hobj'. injection Hobj' as <-.
  rewrite Hroom in Hroom'. injection Hroom' as <-.
  apply is_available_true in Hav as [Hvac Hocc].
  subst db'. rewrite Hdb. split.
  - rewrite StudentProfile_save_occupancy. unfold current_occupancy in *.
    simpl.
    pose proof (size_filter_insert_le
      (λ kv : Z * StudentProfile.t,
         StudentProfile.room kv.2 = Some room_id ∧
         StudentProfile.is_active kv.2 = true)
      (students db) (StudentProfile.pk student)
      (StudentProfile.set_room (StudentProfile.row student) (Some room_id))).
    lia.
  - intros Hinactive. split.
    + rewrite StudentProfile_save_rooms. simpl.
      rewrite decide_False; [done|]. intros (Hact & _). congruence.
    + intros k. rewrite StudentProfile_save_occupancy.
      unfold current_occupancy. simpl. do 2 f_equal.
      apply (filter_insert_not _ _ _ _ (StudentProfile.row student)).
      * rewrite (get_object_pk _ _ _ _ Hobj).
        by apply get_object_row with req.
      * simpl. intros [_ ?]. congruence.
      * simpl. intros [_ ?]. congruence.
Qed.

Lemma assign_room_respects_capacity_witness :
  current_occupancy
    (StudentProfileViewSet.assign_room Sample.db
       (Sample.request Sample.admin) 1 (Some 1)).2 1
  ≤ Room.capacity Sample.room_101.
Proof.
  exact (proj1 (assign_room_respects_capacity Sample.db
    (Sample.request Sample.admin) 1 1 Sample.ali_loaded Sample.room_101
    eq_refl eq_refl eq_refl)).
Defined.

(** X25. Saving again the instance that [StudentProfile.save] returned
    changes nothing more: once the room is marked occupied, it is not
    written again. *)
Theorem StudentProfile_save_twice (db : Store) (self : StudentProfile.obj) :
  StudentProfile_save (StudentProfile_save db self).2
    (StudentProfile_save db self).1
  = StudentProfile_save db self.
Proof.
  unfold StudentProfile_save.
  destruct (StudentProfile.room_obj self) as [[room_pk room]|] eqn:Hobj.
  - destruct (StudentProfile.is_active (StudentProfile.row self)) eqn:Hact.
    + destruct (decide (current_occupancy _ room_pk > 0 ∧ _)) as [Hc|Hc];
        cbn [fst snd StudentProfile.room_obj StudentProfile.row
             StudentProfile.pk].
      * rewrite Hact. rewrite decide_False by (simpl; by intros [_ ?]).
        unfold set_students, set_rooms. simpl.
        by rewrite insert_insert_eq.
      * rewrite Hobj, Hact.
        assert (set_students
                  (set_students db
                     (<[StudentProfile.pk self := StudentProfile.row self]>
                        (students db)))
                  (<[StudentProfile.pk self := StudentProfile.row self]>
                     (students
                        (set_students db
                           (<[StudentProfile.pk self := StudentProfile.row self]>
                              (students db)))))
                = set_students db
                    (<[StudentProfile.pk self := StudentProfile.row self]>
                       (students db))) as ->.
        { unfold set_students. simpl. by rewrite insert_insert_eq. }
        by rewrite decide_False by done.
    + cbn [fst snd]. rewrite Hobj, Hact.
      unfold set_students. simpl. by rewrite insert_insert_eq.
  - cbn [fst snd]. rewrite Hobj.
    unfold set_students. simpl. by rewrite insert_insert_eq.
Qed.
